(** * IT Systems Audit Dashboard: a shallow embedding of [server.py]

    The backend scores synthetic access-log records, flags violations and
    serves aggregate queries over a document store.  This development
    embeds the scoring and classification helpers, the sample-data
    generator's per-record step, the request handlers and the serializer
    of query results as Rocq functions.  It proves the properties the
    specification states about them, and then further properties of the
    generator, the dashboard, the listings, the risk assessment, the named
    queries, the analytics and the serializer.

    Conventions of the embedding:
    - a Python [float] is a binary64 number: Rocq's primitive [float];
    - a Python [int] is a [Z]; [len] yields a [nat];
    - a [datetime] (always UTC in this program) is the number of
      microseconds since 1970-01-01T00:00:00Z, as a [Z]; a [datetime]
      that goes into a query of the store loses its microseconds below
      the millisecond, as the driver encodes it;
    - the built-in [sum] adds floats from the left, as CPython does up to
      version 3.11;
    - a collection of the document store is the list of its documents in
      natural order; the three collections form the state [db];
    - a request handler is a computation in a state-and-exception monad
      over [db]; [HTTPException] is one constructor of the exception type;
    - what the program draws from outside (the clock, [uuid4], the random
      generator, the language-model reply) is an explicit argument.

    The route [GET /] takes no part in the properties below and is not
    embedded. *)

From stdpp Require Import gmap strings pretty.
From Stdlib Require Import ZArith Floats Lia List Bool Sorted Permutation.
From Stdlib Require Uint63.
Import ListNotations.

Set Warnings "-inexact-float,-register-all".
Open Scope Z_scope.

(* ===================================================================== *)
(** * Python built-ins used by the program *)
(* ===================================================================== *)

Module Py.

(** Conversion of an [int] to the nearest [float] (ties to even).  The
    rounding is that of [PyLong_AsDouble]; past the largest finite double
    this function yields an infinity. *)
Definition float_of_Z (z : Z) : float :=
  SF2Prim (binary_normalize prec emax z 0 false).

(** The conversion as [int * float] and [float + int] perform it: where
    the rounded value is not finite, CPython raises [OverflowError]
    ("int too large to convert to float"), here [None]. *)
Definition float_of_int (z : Z) : option float :=
  let f := float_of_Z z in
  if is_infinity f then None else Some f.

(** [len(xs)] as a float operand.  A list holds fewer than [2^63] items,
    so this conversion never overflows in CPython. *)
Definition float_of_len (n : nat) : float := float_of_Z (Z.of_nat n).

(** [min(a, b)]: the first argument is kept unless the second compares
    strictly below it. *)
Definition min (a b : float) : float :=
  if (b <? a)%float then b else a.

(** [max(0, x)] for a float [x]: the integer [0] is kept unless
    [x > 0]; the kept [0] reaches a [float] field as [0.0]. *)
Definition max0 (x : float) : float :=
  if (0 <? x)%float then x else 0%float.

(** [a / b] on two [int]s ([b] non-zero): CPython's [long_true_divide]
    returns the correctly rounded quotient.  [SFdiv] rounds the exact
    quotient of the two integer mantissas once, whatever their size. *)
Definition SF_of_int (z : Z) : spec_float :=
  match z with
  | Z0 => S754_zero false
  | Zpos p => S754_finite false p 0
  | Zneg p => S754_finite true p 0
  end.

Definition int_truediv (a b : Z) : float :=
  SF2Prim (SFdiv prec emax (SF_of_int a) (SF_of_int b)).

(** Nearest integer to [n / d] for [0 <= n], [0 < d], ties to even. *)
Definition div_half_even (n d : Z) : Z :=
  let q := n / d in
  match (2 * (n mod d)) ?= d with
  | Lt => q
  | Gt => q + 1
  | Eq => if Z.even q then q else q + 1
  end.

(** Nearest integer to [m * 2^e * 10^nd], ties to even: the digits that
    [_Py_dg_dtoa] (mode 3) produces for [nd] decimal places. *)
Definition dec_scaled (nd : Z) (m : positive) (e : Z) : Z :=
  if 0 <=? e then Z.pos m * 2 ^ e * 10 ^ nd
  else div_half_even (Z.pos m * 10 ^ nd) (2 ^ (- e)).

(** [round(x, 1)] on a float: the decimal correctly rounded to one place,
    read back as the nearest double; zeros, infinities and NaN round to
    themselves. *)
Definition round1 (x : float) : float :=
  match Prim2SF x with
  | S754_finite s m e =>
      match dec_scaled 1 m e with
      | Zpos k => SF2Prim (SFdiv prec emax (S754_finite s k 0)
                                           (S754_finite false 10 0))
      | _ => if s then neg_zero else zero
      end
  | _ => x
  end.

(** [sum(xs)] over floats: the accumulator starts at the integer [0] and
    adds from the left.  (From CPython 3.12 on, [sum] also carries a
    compensation term for the rounding errors of a sum of floats; the two
    agree wherever the additions are exact.) *)
Definition sum (xs : list float) : float :=
  fold_left (fun acc x => (acc + x)%float) xs 0%float.

(** [f"{x:.2f}"]. *)
Definition two_digits (k : Z) : string :=
  if k <? 10 then "0" +:+ pretty k else pretty k.

Definition format_2f (x : float) : string :=
  match Prim2SF x with
  | S754_nan => "nan"
  | S754_infinity s => if s then "-inf" else "inf"
  | S754_zero s => if s then "-0.00" else "0.00"
  | S754_finite s m e =>
      let k := dec_scaled 2 m e in
      (if s then "-" else "") +:+ pretty (k / 100) +:+ "."
        +:+ two_digits (k mod 100)
  end.

End Py.

(* ===================================================================== *)
(** * datetime *)
(* ===================================================================== *)

Definition datetime := Z.

Definition us_per_minute : Z := 60000000.
Definition us_per_hour : Z := 3600000000.
Definition us_per_day : Z := 86400000000.

(** [t.hour] *)
Definition dt_hour (t : datetime) : Z := (t / us_per_hour) mod 24.

(** [t.weekday()]: Monday is 0; 1970-01-01 was a Thursday. *)
Definition dt_weekday (t : datetime) : Z := (t / us_per_day + 3) mod 7.

(** [timedelta(days=d)] *)
Definition timedelta_days (d : Z) : Z := d * us_per_day.

(** [t.replace(hour=h, minute=m)]: the date, the second and the
    microsecond are kept. *)
Definition dt_replace_hour_minute (t : datetime) (h m : Z) : datetime :=
  t - t mod us_per_day + h * us_per_hour + m * us_per_minute
    + t mod us_per_minute.

(** [t.replace(hour=0, minute=0, second=0, microsecond=0)] *)
Definition dt_midnight (t : datetime) : datetime := t - t mod us_per_day.

(** A [datetime] as the driver sends it to the store: a BSON date counts
    milliseconds, the microseconds below the millisecond are dropped. *)
Definition bson_datetime (t : datetime) : datetime := t - t mod 1000.

(* ===================================================================== *)
(** * Enums and data models *)
(* ===================================================================== *)

Inductive UserRole := ADMIN | USER | MANAGER | AUDITOR | GUEST.

Inductive AccessResult := SUCCESS | FAILED | SUSPICIOUS.

Inductive RiskLevel := LOW | MEDIUM | HIGH | CRITICAL.

Inductive ViolationType :=
  | UNAUTHORIZED_ACCESS
  | PRIVILEGE_ESCALATION
  | FAILED_AUTHENTICATION
  | UNUSUAL_ACTIVITY
  | SEGREGATION_DUTY_CONFLICT.

#[global] Instance UserRole_eq_dec : EqDecision UserRole.
Proof. solve_decision. Defined.
#[global] Instance AccessResult_eq_dec : EqDecision AccessResult.
Proof. solve_decision. Defined.
#[global] Instance RiskLevel_eq_dec : EqDecision RiskLevel.
Proof. solve_decision. Defined.
#[global] Instance ViolationType_eq_dec : EqDecision ViolationType.
Proof. solve_decision. Defined.

(** The [.value] of an [AccessResult]. *)
Definition AccessResult_value (r : AccessResult) : string :=
  match r with
  | SUCCESS => "success"
  | FAILED => "failed"
  | SUSPICIOUS => "suspicious"
  end.

(** [UserAccessLog]; the field [id] is [ual_id] here. *)
Record UserAccessLog := {
  ual_id : string;
  user_id : string;
  username : string;
  user_role : UserRole;
  access_time : datetime;
  ip_address : string;
  location : string;
  resource_accessed : string;
  access_result : AccessResult;
  session_duration_minutes : option Z;
  failed_attempts : Z;
  privilege_changes : list string;
  is_violation : bool;
  violation_type : option ViolationType;
  risk_score : float;
  created_at : datetime
}.

(** [AccessViolation]; [id] and [violation_type] carry the prefix [av_]. *)
Record AccessViolation := {
  av_id : string;
  log_id : string;
  av_violation_type : ViolationType;
  severity : RiskLevel;
  description : string;
  detected_at : datetime;
  resolved : bool
}.

(** [RiskAssessment]; [id] and [user_id] carry the prefix [ra_]. *)
Record RiskAssessment := {
  ra_id : string;
  ra_user_id : string;
  assessment_date : datetime;
  overall_risk_score : float;
  risk_level : RiskLevel;
  risk_factors : list string;
  recommendations : list string;
  ai_analysis : option string
}.

Record DashboardStats := {
  total_access_logs : Z;
  active_violations : Z;
  high_risk_users : Z;
  failed_logins_today : Z;
  privilege_escalations_week : Z;
  compliance_score : float
}.

(* ===================================================================== *)
(** * Helper functions *)
(* ===================================================================== *)

(** [hour < 7 or hour > 19] *)
Definition off_hours (hour : Z) : bool := (hour <? 7) || (19 <? hour).

(** [calculate_risk_score].  [None] stands for the [OverflowError] that
    [log.failed_attempts * 0.2] raises on an integer beyond the float
    range. *)
Definition calculate_risk_score (log : UserAccessLog) : option float :=
  match Py.float_of_int (failed_attempts log) with
  | None => None
  | Some fa =>
      let score := 0%float in
      let score := (score + fa * 0.2)%float in
      let score :=
        (score + Py.float_of_len (length (privilege_changes log)) * 0.3)%float in
      let score :=
        match access_result log with
        | FAILED => (score + 0.5)%float
        | SUSPICIOUS => (score + 0.8)%float
        | SUCCESS => score
        end in
      let hour := dt_hour (access_time log) in
      let score := if off_hours hour then (score + 0.3)%float else score in
      let score :=
        if 5 <=? dt_weekday (access_time log) then (score + 0.2)%float
        else score in
      Some (Py.min score 1)
  end.

(** [determine_risk_level] *)
Definition determine_risk_level (score : float) : RiskLevel :=
  if (0.8 <=? score)%float then CRITICAL
  else if (0.6 <=? score)%float then HIGH
  else if (0.3 <=? score)%float then MEDIUM
  else LOW.

(* ===================================================================== *)
(** * The document store and the handler monad *)
(* ===================================================================== *)

(** The three collections of the database, each in natural order. *)
Record db := {
  access_logs : list UserAccessLog;
  violations : list AccessViolation;
  risk_assessments : list RiskAssessment
}.

(** The exceptions the handlers meet.  [HTTPException] is a subclass of
    [Exception], like the others. *)
Inductive exn :=
  | HTTPException (status_code : Z) (detail : string)
  | OverflowError (msg : string)
  | ValueError (msg : string).

(** [str(e)].  Starlette's [HTTPException.__str__] renders
    ["{status_code}: {detail}"]; the status a client sees does not depend
    on this text. *)
Definition exn_str (e : exn) : string :=
  match e with
  | HTTPException c d => pretty c +:+ ": " +:+ d
  | OverflowError m => m
  | ValueError m => m
  end.

Inductive result (A : Type) :=
  | Ok (a : A)
  | Raise (e : exn).
Arguments Ok {A} a.
Arguments Raise {A} e.

(** A handler runs on the store and leaves a store and a result; writes
    made before an exception stay. *)
Definition handler (A : Type) : Type := db -> db * result A.

Definition ret {A} (a : A) : handler A := fun s => (s, Ok a).

Definition bind {A B} (m : handler A) (k : A -> handler B) : handler B :=
  fun s =>
    match m s with
    | (s', Ok a) => k a s'
    | (s', Raise e) => (s', Raise e)
    end.

Definition raise {A} (e : exn) : handler A := fun s => (s, Raise e).

Definition gets {A} (f : db -> A) : handler A := fun s => (s, Ok (f s)).

Definition modify (f : db -> db) : handler unit := fun s => (f s, Ok tt).

#[global] Instance handler_ret : MRet handler := @ret.
#[global] Instance handler_bind : MBind handler :=
  fun A B k m => bind m k.

(** [try: body / except Exception as e: raise HTTPException(500, f(e))]:
    every exception of the body, an [HTTPException] included, is replaced. *)
Definition try_except_Exception {A} (body : handler A)
    (detail500 : exn -> string) : handler A :=
  fun s =>
    match body s with
    | (s', Ok a) => (s', Ok a)
    | (s', Raise e) => (s', Raise (HTTPException 500 (detail500 e)))
    end.

(** [try: body / except HTTPException: raise / except Exception as e:
    raise HTTPException(500, str(e))]. *)
Definition try_except_HTTPException_Exception {A} (body : handler A)
    : handler A :=
  fun s =>
    match body s with
    | (s', Ok a) => (s', Ok a)
    | (s', Raise (HTTPException c d)) => (s', Raise (HTTPException c d))
    | (s', Raise e) => (s', Raise (HTTPException 500 (exn_str e)))
    end.

(** The status a client sees. *)
Definition status_of {A} (r : result A) : Z :=
  match r with
  | Ok _ => 200
  | Raise (HTTPException c _) => c
  | Raise _ => 500
  end.

(** ** Store operations *)

(** [collection.count_documents(query)] *)
Definition count_documents {A} (p : A -> bool) (docs : list A) : Z :=
  Z.of_nat (length (List.filter p docs)).

(** [cursor.sort(key, -1)]: descending on an integer key, by insertion.
    The store leaves the order of equal keys open; here it is the natural
    order.  The properties below do not rest on that choice: where the
    order of the result matters, the keys are assumed distinct, and then
    the descending order is the only one. *)
Fixpoint insert_desc {A} (key : A -> Z) (x : A) (l : list A) : list A :=
  match l with
  | [] => [x]
  | y :: l' =>
      if key y <=? key x then x :: y :: l'
      else y :: insert_desc key x l'
  end.

Definition sort_desc {A} (key : A -> Z) (l : list A) : list A :=
  fold_right (insert_desc key) [] l.

(** [update_one({"id": violation_id}, {"$set": {"resolved": True}})]: the
    first matching document is written; the second component is
    [matched_count]. *)
Definition set_resolved (v : AccessViolation) : AccessViolation :=
  {| av_id := av_id v; log_id := log_id v;
     av_violation_type := av_violation_type v; severity := severity v;
     description := description v; detected_at := detected_at v;
     resolved := true |}.

Fixpoint update_one_resolved (violation_id : string)
    (vs : list AccessViolation) : list AccessViolation * Z :=
  match vs with
  | [] => ([], 0)
  | v :: vs' =>
      if String.eqb (av_id v) violation_id then (set_resolved v :: vs', 1)
      else
        let '(vs'', n) := update_one_resolved violation_id vs' in
        (v :: vs'', n)
  end.

Definition with_access_logs (f : list UserAccessLog -> list UserAccessLog)
    (s : db) : db :=
  {| access_logs := f (access_logs s); violations := violations s;
     risk_assessments := risk_assessments s |}.

Definition with_violations
    (f : list AccessViolation -> list AccessViolation) (s : db) : db :=
  {| access_logs := access_logs s; violations := f (violations s);
     risk_assessments := risk_assessments s |}.

Definition with_risk_assessments
    (f : list RiskAssessment -> list RiskAssessment) (s : db) : db :=
  {| access_logs := access_logs s; violations := violations s;
     risk_assessments := f (risk_assessments s) |}.

(* ===================================================================== *)
(** * The sample-data generator *)
(* ===================================================================== *)

Record SampleUser := {
  su_id : string;
  su_username : string;
  su_role : UserRole
}.

Definition users : list SampleUser :=
  [ {| su_id := "USR001"; su_username := "john.doe"; su_role := ADMIN |};
    {| su_id := "USR002"; su_username := "jane.smith"; su_role := USER |};
    {| su_id := "USR003"; su_username := "mike.johnson"; su_role := MANAGER |};
    {| su_id := "USR004"; su_username := "sarah.wilson"; su_role := AUDITOR |};
    {| su_id := "USR005"; su_username := "david.brown"; su_role := USER |};
    {| su_id := "USR006"; su_username := "emma.davis"; su_role := MANAGER |};
    {| su_id := "USR007"; su_username := "robert.clark"; su_role := USER |};
    {| su_id := "USR008"; su_username := "lisa.white"; su_role := ADMIN |};
    {| su_id := "USR009"; su_username := "james.taylor"; su_role := USER |};
    {| su_id := "USR010"; su_username := "maria.garcia"; su_role := AUDITOR |} ].

Definition ip_locations : list (string * string) :=
  [ ("192.168.1.100", "New York, NY");
    ("192.168.1.101", "San Francisco, CA");
    ("192.168.1.102", "Chicago, IL");
    ("10.0.0.50", "London, UK");
    ("10.0.0.51", "Tokyo, Japan");
    ("172.16.0.10", "Berlin, Germany");
    ("203.0.113.1", "Sydney, Australia");
    ("198.51.100.1", "Toronto, Canada") ].

Definition resources : list string :=
  [ "Financial Database"; "HR System"; "Customer CRM";
    "Admin Panel"; "Audit Logs"; "Payroll System";
    "Document Management"; "Email Server"; "VPN Gateway";
    "Backup System"; "Security Console"; "Development Server" ].

Definition off_hours_choices : list Z := [6; 7; 19; 20; 21; 22; 23; 0; 1; 2].

Definition changes : list string :=
  ["elevated_to_admin"; "access_granted_finance"; "removed_hr_access"].

(** What one iteration of the generator's loop draws from [random],
    [uuid4] and its tables. *)
Record Draw := {
  d_user : SampleUser;            (* random.choice(users) *)
  d_ip : string;                  (* random.choice(ip_locations)["ip"] *)
  d_location : string;            (* ... ["location"] *)
  d_resource : string;            (* random.choice(resources) *)
  d_days : Z;                     (* random.randint(0, 30) *)
  d_business : bool;              (* random.random() < 0.7 *)
  d_hour : Z;                     (* randint(8, 18) or choice(off-hours) *)
  d_minute : Z;                   (* random.randint(0, 59) *)
  d_access_result : AccessResult; (* random.choices(...)[0] *)
  d_attempts : Z;                 (* randint(1, 5) or randint(3, 8) *)
  d_privilege : bool;             (* random.random() < 0.05 *)
  d_sample : list string;         (* random.sample(changes, randint(1, 2)) *)
  d_session : Z;                  (* random.randint(5, 240) *)
  d_log_id : string;              (* uuid4 of the log *)
  d_violation_id : string         (* uuid4 of the violation *)
}.

Definition between (lo hi x : Z) : bool := (lo <=? x) && (x <=? hi).

Definition mem_Z (x : Z) (l : list Z) : bool := existsb (Z.eqb x) l.

Definition mem_string (x : string) (l : list string) : bool :=
  existsb (String.eqb x) l.

Fixpoint distinct (l : list string) : bool :=
  match l with
  | [] => true
  | x :: l' => negb (mem_string x l') && distinct l'
  end.

Definition same_user (u v : SampleUser) : bool :=
  String.eqb (su_id u) (su_id v)
  && String.eqb (su_username u) (su_username v)
  && bool_decide (su_role u = su_role v).

(** The tables and ranges the generator draws from. *)
Definition valid_draw (d : Draw) : bool :=
  existsb (same_user (d_user d)) users
  && existsb
       (fun il => String.eqb (d_ip d) il.1 && String.eqb (d_location d) il.2)
       ip_locations
  && mem_string (d_resource d) resources
  && between 0 30 (d_days d)
  && (if d_business d then between 8 18 (d_hour d)
      else mem_Z (d_hour d) off_hours_choices)
  && between 0 59 (d_minute d)
  && match d_access_result d with
     | FAILED => between 1 5 (d_attempts d)
     | SUSPICIOUS => between 3 8 (d_attempts d)
     | SUCCESS => true
     end
  && (if d_privilege d then
        between 1 2 (Z.of_nat (length (d_sample d)))
        && forallb (fun c => mem_string c changes) (d_sample d)
        && distinct (d_sample d)
      else true)
  && between 5 240 (d_session d).

(** The description of a violation record. *)
Definition violation_description (score : float) (failed_attempts : Z)
    (privilege_changes : list string) (access_result : AccessResult)
    : string :=
  "Risk Score: " +:+ Py.format_2f score
    +:+ ", Failed Attempts: " +:+ pretty failed_attempts
    +:+ ", Privilege Changes: " +:+ pretty (length privilege_changes)
    +:+ ", Access Result: " +:+ AccessResult_value access_result.

(** The violation test of the loop body. *)
Definition violation_rule (score : float) (failed_attempts : Z)
    (privilege_changes : list string) (access_result : AccessResult)
    : bool :=
  (0.6 <? score)%float
  || (3 <? failed_attempts)
  || (0 <? Z.of_nat (length privilege_changes))
  || bool_decide (access_result = SUSPICIOUS).

(** The violation type of a flagged record. *)
Definition violation_type_rule (failed_attempts : Z)
    (privilege_changes : list string) (access_result : AccessResult)
    (hour : Z) : ViolationType :=
  if 0 <? Z.of_nat (length privilege_changes) then PRIVILEGE_ESCALATION
  else if 3 <? failed_attempts then FAILED_AUTHENTICATION
  else if bool_decide (access_result = SUSPICIOUS) then UNUSUAL_ACTIVITY
  else if off_hours hour then UNAUTHORIZED_ACCESS
  else SEGREGATION_DUTY_CONFLICT.

(** One iteration of the loop of [generate_sample_data]: the log it
    appends and the violation it appends, if any.  [None] is the
    [OverflowError] of the scorer. *)
Definition generate_log (now : datetime) (d : Draw)
    : option (UserAccessLog * option AccessViolation) :=
  let user := d_user d in
  let base_time := now - timedelta_days (d_days d) in
  let hour := d_hour d in
  let access_time := dt_replace_hour_minute base_time hour (d_minute d) in
  let access_result := d_access_result d in
  let failed_attempts :=
    match access_result with
    | FAILED => d_attempts d
    | SUSPICIOUS => d_attempts d
    | SUCCESS => 0
    end in
  let privilege_changes := if d_privilege d then d_sample d else [] in
  let session_duration :=
    match access_result with
    | SUCCESS => Some (d_session d)
    | _ => None
    end in
  let log :=
    {| ual_id := d_log_id d;
       user_id := su_id user;
       username := su_username user;
       user_role := su_role user;
       access_time := access_time;
       ip_address := d_ip d;
       location := d_location d;
       resource_accessed := d_resource d;
       access_result := access_result;
       session_duration_minutes := session_duration;
       failed_attempts := failed_attempts;
       privilege_changes := privilege_changes;
       is_violation := false;
       violation_type := None;
       risk_score := 0;
       created_at := now |} in
  match calculate_risk_score log with
  | None => None
  | Some score =>
      if violation_rule score failed_attempts privilege_changes access_result
      then
        let vt :=
          violation_type_rule failed_attempts privilege_changes
            access_result hour in
        let log' :=
          {| ual_id := ual_id log; user_id := user_id log;
             username := username log; user_role := user_role log;
             access_time := access_time; ip_address := ip_address log;
             location := location log;
             resource_accessed := resource_accessed log;
             access_result := access_result;
             session_duration_minutes := session_duration;
             failed_attempts := failed_attempts;
             privilege_changes := privilege_changes;
             is_violation := true;
             violation_type := Some vt;
             risk_score := score;
             created_at := now |} in
        let violation :=
          {| av_id := d_violation_id d;
             log_id := ual_id log';
             av_violation_type := vt;
             severity := determine_risk_level score;
             description :=
               violation_description score failed_attempts
                 privilege_changes access_result;
             detected_at := now;
             resolved := false |} in
        Some (log', Some violation)
      else
        let log' :=
          {| ual_id := ual_id log; user_id := user_id log;
             username := username log; user_role := user_role log;
             access_time := access_time; ip_address := ip_address log;
             location := location log;
             resource_accessed := resource_accessed log;
             access_result := access_result;
             session_duration_minutes := session_duration;
             failed_attempts := failed_attempts;
             privilege_changes := privilege_changes;
             is_violation := false;
             violation_type := None;
             risk_score := score;
             created_at := now |} in
        Some (log', None)
  end.

(** The loop: the lists [logs] and [violations] after all iterations. *)
Fixpoint generate_logs (now : datetime) (draws : list Draw)
    : option (list UserAccessLog * list AccessViolation) :=
  match draws with
  | [] => Some ([], [])
  | d :: draws' =>
      match generate_log now d with
      | None => None
      | Some (log, v) =>
          match generate_logs now draws' with
          | None => None
          | Some (logs, vs) =>
              Some (log :: logs,
                    match v with Some v' => v' :: vs | None => vs end)
          end
      end
  end.

(** [generate_sample_data]: the collections are cleared, then filled. *)
Definition generate_sample_data (now : datetime) (draws : list Draw)
    : handler (Z * Z) :=
  modify (with_access_logs (fun _ => [])) ;;
  modify (with_violations (fun _ => [])) ;;
  modify (with_risk_assessments (fun _ => [])) ;;
  match generate_logs now draws with
  | None => raise (OverflowError "int too large to convert to float")
  | Some (logs, vs) =>
      modify (with_access_logs (fun old => old ++ logs)) ;;
      modify (with_violations (fun old => old ++ vs)) ;;
      ret (Z.of_nat (length logs), Z.of_nat (length vs))
  end.

(** [POST /generate-sample-data] *)
Definition generate_sample_data_endpoint (now : datetime)
    (draws : list Draw) : handler (Z * Z) :=
  try_except_Exception (generate_sample_data now draws) exn_str.

(* ===================================================================== *)
(** * The narrative summary *)
(* ===================================================================== *)

(** The numbers [ai_analyze_patterns] puts into its prompt. *)
Record DataSummary := {
  ds_total_logs : Z;
  ds_violations : Z;
  ds_failed_attempts : Z;
  ds_privilege_escalations : Z;
  ds_off_hours_access : Z;
  ds_high_risk_users : Z
}.

(** The distinct user ids of the records scoring above 0.6. *)
Definition high_risk_user_ids (logs : list UserAccessLog) : gset string :=
  list_to_set
    (map user_id (List.filter (fun l => (0.6 <? risk_score l)%float) logs)).

Definition data_summary (logs : list UserAccessLog) : DataSummary :=
  {| ds_total_logs := Z.of_nat (length logs);
     ds_violations := count_documents is_violation logs;
     ds_failed_attempts := fold_left Z.add (map failed_attempts logs) 0;
     ds_privilege_escalations :=
       count_documents
         (fun l => negb (bool_decide (privilege_changes l = []))) logs;
     ds_off_hours_access :=
       count_documents (fun l => off_hours (dt_hour (access_time l))) logs;
     ds_high_risk_users := Z.of_nat (size (high_risk_user_ids logs)) |}.

Definition ai_fallback : string :=
  "AI analysis temporarily unavailable. Manual review recommended for comprehensive risk assessment.".

(** [ai_analyze_patterns]: [llm] is the external chat call on the prompt's
    numbers, [None] where it fails; the failure never leaves the
    function. *)
Definition ai_analyze_patterns (llm : DataSummary -> option string)
    (logs : list UserAccessLog) : string :=
  match llm (data_summary logs) with
  | Some response => response
  | None => ai_fallback
  end.

(* ===================================================================== *)
(** * API routes *)
(* ===================================================================== *)

(** [GET /dashboard/stats] *)
Definition get_dashboard_stats (now : datetime) : handler DashboardStats :=
  try_except_Exception
    (logs ← gets access_logs;
     vs ← gets violations;
     let total_logs := count_documents (fun _ => true) logs in
     let active_violations :=
       count_documents (fun v => negb (resolved v)) vs in
     let high_risk_users := Z.of_nat (size (high_risk_user_ids logs)) in
     let today_start := dt_midnight now in
     let failed_today :=
       count_documents
         (fun l => bool_decide (access_result l = FAILED)
                   && (today_start <=? access_time l)) logs in
     let week_start := bson_datetime (now - timedelta_days 7) in
     let escalations_week :=
       count_documents
         (fun l => negb (bool_decide (privilege_changes l = []))
                   && (week_start <=? access_time l)) logs in
     let compliance_score :=
       if 0 <? total_logs then
         Py.max0
           (Py.int_truediv (total_logs - active_violations) total_logs
            * 100)%float
       else 100%float in
     mret {| total_access_logs := total_logs;
             active_violations := active_violations;
             high_risk_users := high_risk_users;
             failed_logins_today := failed_today;
             privilege_escalations_week := escalations_week;
             compliance_score := Py.round1 compliance_score |})
    exn_str.

(** The [risk_score] condition that [get_access_logs] puts into its query
    for a requested level. *)
Definition risk_score_query (risk_level : RiskLevel) (score : float) : bool :=
  match risk_level with
  | CRITICAL => (0.8 <=? score)%float
  | HIGH => (0.6 <=? score)%float && (score <? 0.8)%float
  | MEDIUM => (0.3 <=? score)%float && (score <? 0.6)%float
  | LOW => (score <? 0.3)%float
  end.

Definition access_logs_query (violations_only : bool)
    (risk_level : option RiskLevel) (l : UserAccessLog) : bool :=
  (if violations_only then is_violation l else true)
  && match risk_level with
     | Some lvl => risk_score_query lvl (risk_score l)
     | None => true
     end.

(** [find(query).sort(key, -1).skip(skip).limit(limit).to_list(limit)].
    The driver rejects a negative [skip] when the cursor is built and a
    negative length in [to_list], each with a [ValueError]; a length of 0
    yields the empty list. *)
Definition find_sorted {A} (p : A -> bool) (key : A -> Z) (skip limit : Z)
    (docs : list A) : handler (list A) :=
  if skip <? 0 then raise (ValueError "skip must be >= 0")
  else if limit <? 0 then raise (ValueError "length must be non-negative")
  else
    mret (take (Z.to_nat limit)
            (drop (Z.to_nat skip) (sort_desc key (List.filter p docs)))).

(** [GET /access-logs] *)
Definition get_access_logs (limit skip : Z) (violations_only : bool)
    (risk_level : option RiskLevel) : handler (list UserAccessLog) :=
  try_except_Exception
    (logs ← gets access_logs;
     find_sorted (access_logs_query violations_only risk_level)
       access_time skip limit logs)
    exn_str.

(** [GET /violations] *)
Definition get_violations (limit : Z) (active_only : bool)
    : handler (list AccessViolation) :=
  try_except_Exception
    (vs ← gets violations;
     find_sorted (fun v => if active_only then negb (resolved v) else true)
       detected_at 0 limit vs)
    exn_str.

(** [POST /violations/{violation_id}/resolve] *)
Definition resolve_violation (violation_id : string) : handler string :=
  try_except_Exception
    (vs ← gets violations;
     let '(vs', matched_count) := update_one_resolved violation_id vs in
     modify (with_violations (fun _ => vs'));;
     if matched_count =? 0 then
       raise (HTTPException 404 "Violation not found")
     else
       mret "Violation resolved successfully")
    exn_str.

(** The query of [get_user_risk_assessment]:
    [{"user_id": user_id, "access_time": {"$gte": week_ago}}].  The bound
    reaches the store as a BSON date; the query has no upper bound. *)
Definition in_window (now : datetime) (uid : string) (l : UserAccessLog)
    : bool :=
  let week_ago := bson_datetime (now - timedelta_days 7) in
  String.eqb (user_id l) uid && (week_ago <=? access_time l).

(** The records [get_user_risk_assessment] reads: the matches of its
    query, at most 100 of them ([to_list(100)]). *)
Definition recent_user_logs (now : datetime) (uid : string)
    (logs : list UserAccessLog) : list UserAccessLog :=
  take 100 (List.filter (in_window now uid) logs).

Definition if_any (b : bool) (label : string) : list string :=
  if b then [label] else [].

(** [GET /users/{user_id}/risk-assessment]; [new_id] is the [uuid4] of the
    assessment. *)
Definition get_user_risk_assessment (now : datetime) (new_id : string)
    (llm : DataSummary -> option string) (uid : string)
    : handler RiskAssessment :=
  try_except_HTTPException_Exception
    (all ← gets access_logs;
     let logs := recent_user_logs now uid all in
     match logs with
     | [] => raise (HTTPException 404 "No recent activity found for user")
     | _ :: _ =>
         let user_logs := logs in
         let avg_risk_score :=
           (Py.sum (map risk_score user_logs)
            / Py.float_of_len (length user_logs))%float in
         let risk_level := determine_risk_level avg_risk_score in
         let risk_factors :=
           if_any (existsb (fun l => 3 <? failed_attempts l) user_logs)
             "Multiple failed login attempts"
           ++ if_any
                (existsb
                   (fun l => negb (bool_decide (privilege_changes l = [])))
                   user_logs)
                "Recent privilege changes"
           ++ if_any
                (existsb (fun l => off_hours (dt_hour (access_time l)))
                   user_logs)
                "Off-hours access detected"
           ++ if_any
                (0 <? Z.of_nat (length (List.filter is_violation user_logs)))
                "Recent security violations" in
         let ai_analysis := ai_analyze_patterns llm user_logs in
         let recommendations :=
           if_any (0.6 <? avg_risk_score)%float
             "Implement additional authentication factors"
           ++ if_any (existsb (fun l => 5 <? failed_attempts l) user_logs)
                "Review account security and reset password"
           ++ if_any (2 <? Z.of_nat (length risk_factors))
                "Conduct security awareness training" in
         let recommendations :=
           match recommendations with
           | [] => ["Continue monitoring user activity"]
           | _ => recommendations
           end in
         let assessment :=
           {| ra_id := new_id;
              ra_user_id := uid;
              assessment_date := now;
              overall_risk_score := avg_risk_score;
              risk_level := risk_level;
              risk_factors := risk_factors;
              recommendations := recommendations;
              ai_analysis := Some ai_analysis |} in
         modify (with_risk_assessments (fun old => old ++ [assessment]));;
         mret assessment
     end).

(** A JSON value of a request body. *)
Inductive json :=
  | JNull
  | JBool (b : bool)
  | JInt (z : Z)
  | JFloat (f : float)
  | JStr (s : string)
  | JArr (items : list json)
  | JObj (fields : list (string * json)).

(** [query_request.get("query_type") == tag] *)
Definition query_type_is (query_type : option json) (tag : string) : bool :=
  match query_type with
  | Some (JStr s) => String.eqb s tag
  | _ => false
  end.

Record SqlQueryResponse := {
  sq_query_type : option json;
  results_count : Z;
  results : list UserAccessLog
}.

Definition unauthorized_access_query (l : UserAccessLog) : bool :=
  (bool_decide (access_result l = FAILED) && (3 <? failed_attempts l))
  || bool_decide (access_result l = SUSPICIOUS)
  || (is_violation l
      && bool_decide (violation_type l = Some UNAUTHORIZED_ACCESS)).

(** [POST /sql-query] *)
Definition execute_sql_query (query_request : gmap string json)
    : handler SqlQueryResponse :=
  try_except_Exception
    (let query_type := query_request !! "query_type" in
     logs ← gets access_logs;
     results ←
       (if query_type_is query_type "unauthorized_access" then
          find_sorted unauthorized_access_query access_time 0 50 logs
        else if query_type_is query_type "privilege_escalation" then
          find_sorted
            (fun l => negb (bool_decide (privilege_changes l = [])))
            access_time 0 50 logs
        else if query_type_is query_type "segregation_conflicts" then
          find_sorted
            (fun l =>
               bool_decide (violation_type l = Some SEGREGATION_DUTY_CONFLICT))
            access_time 0 50 logs
        else if query_type_is query_type "failed_logins" then
          find_sorted (fun l => bool_decide (access_result l = FAILED))
            access_time 0 100 logs
        else if query_type_is query_type "off_hours_access" then
          find_sorted (fun l => off_hours (dt_hour (access_time l)))
            access_time 0 50 logs
        else
          raise (HTTPException 400 "Invalid query type"));
     mret {| sq_query_type := query_type;
             results_count := Z.of_nat (length results);
             results := results |})
    (fun e => "Query execution failed: " +:+ exn_str e).

(* ===================================================================== *)
(** * Analytics *)
(* ===================================================================== *)

(** One entry of [access_trends].  [trend_date] is the midnight that opens
    the day; the handler renders its date in ISO format. *)
Record TrendEntry := {
  trend_date : datetime;
  total_access : Z;
  trend_violations : Z
}.

(** The query [{"access_time": {"$gte": day_start, "$lt": day_end}}]. *)
Definition in_day (day_start day_end : datetime) (l : UserAccessLog) : bool :=
  (day_start <=? access_time l) && (access_time l <? day_end).

(** The body of the loop over [range(7)]; [now] is the clock as the
    iteration reads it. *)
Definition day_trend (now : datetime) (logs : list UserAccessLog) (i : Z)
    : TrendEntry :=
  let day_start := dt_midnight (now - timedelta_days i) in
  let day_end := day_start + timedelta_days 1 in
  {| trend_date := day_start;
     total_access := count_documents (in_day day_start day_end) logs;
     trend_violations :=
       count_documents (fun l => in_day day_start day_end l && is_violation l)
         logs |}.

(** The group keys of [{"$group": {"_id": "$violation_type", ...}}]: the
    five types and the missing type.  The store leaves the order of the
    groups open; here it is this order. *)
Definition violation_type_keys : list (option ViolationType) :=
  [ None; Some UNAUTHORIZED_ACCESS; Some PRIVILEGE_ESCALATION;
    Some FAILED_AUTHENTICATION; Some UNUSUAL_ACTIVITY;
    Some SEGREGATION_DUTY_CONFLICT ].

(** [$match] on [is_violation], [$group] by type with a count; a group
    exists for the keys that occur. *)
Definition violation_type_groups (logs : list UserAccessLog)
    : list (option ViolationType * Z) :=
  List.filter (fun g => 0 <? g.2)
    (map
       (fun k =>
          (k,
           count_documents
             (fun l => is_violation l && bool_decide (violation_type l = k))
             logs))
       violation_type_keys).

(** The buckets of [{"$bucket": {"boundaries": [0, 0.3, 0.6, 0.8, 1.0],
    "default": "high"}}], named by their lower bound. *)
Inductive RiskBucket :=
  | Bucket_0
  | Bucket_0_3
  | Bucket_0_6
  | Bucket_0_8
  | Bucket_default.

#[global] Instance RiskBucket_eq_dec : EqDecision RiskBucket.
Proof. solve_decision. Defined.

(** The bucket of a score: a lower bound is included, an upper bound is
    not, and what lies in no interval goes to the default bucket. *)
Definition risk_bucket (score : float) : RiskBucket :=
  if (0 <=? score)%float && (score <? 0.3)%float then Bucket_0
  else if (0.3 <=? score)%float && (score <? 0.6)%float then Bucket_0_3
  else if (0.6 <=? score)%float && (score <? 0.8)%float then Bucket_0_6
  else if (0.8 <=? score)%float && (score <? 1)%float then Bucket_0_8
  else Bucket_default.

(** The output of the [$bucket] stage: one document for each bucket that
    holds a record, the numeric buckets in the order of their bounds and
    the default bucket last. *)
Definition risk_buckets (logs : list UserAccessLog)
    : list (RiskBucket * Z) :=
  List.filter (fun g => 0 <? g.2)
    (map
       (fun b =>
          (b,
           count_documents
             (fun l => bool_decide (risk_bucket (risk_score l) = b)) logs))
       [Bucket_0; Bucket_0_3; Bucket_0_6; Bucket_0_8; Bucket_default]).

Record AnalyticsTrends := {
  access_trends : list TrendEntry;
  top_violation_types : list (option ViolationType * Z);
  risk_distribution : list (RiskBucket * Z)
}.

(** [GET /analytics/trends].  Every iteration of the loop reads the clock
    anew: [now i] is the reading of iteration [i]. *)
Definition get_analytics_trends (now : Z -> datetime)
    : handler AnalyticsTrends :=
  try_except_Exception
    (logs ← gets access_logs;
     let trends :=
       map (fun i => day_trend (now i) logs i) [0; 1; 2; 3; 4; 5; 6] in
     let trends := rev trends in
     let violation_types :=
       take 5 (sort_desc snd (violation_type_groups logs)) in
     let risk_distribution := take 4 (risk_buckets logs) in
     mret {| access_trends := trends;
             top_violation_types := violation_types;
             risk_distribution := risk_distribution |})
    exn_str.

(* ===================================================================== *)
(** * Serialization of query results *)
(* ===================================================================== *)

(** What a document of the store holds, as Python values.  A [dict] is the
    list of its items in order. *)
Inductive pyval :=
  | PNone
  | PBool (b : bool)
  | PInt (z : Z)
  | PFloat (f : float)
  | PStr (s : string)
  | PObjectId (oid : string)
  | PDatetime (t : datetime)
  | PList (items : list pyval)
  | PDict (fields : list (string * pyval)).

(** [serialize_mongodb_doc].  [isoformat] is [datetime.isoformat]; only a
    [datetime] has that attribute. *)
Fixpoint serialize_mongodb_doc (isoformat : datetime -> string)
    (doc : pyval) : pyval :=
  match doc with
  | PDict fields =>
      PDict
        ((fix items (fields : list (string * pyval)) :=
            match fields with
            | [] => []
            | (key, value) :: fields' =>
                if String.eqb key "_id" then items fields'
                else (key, serialize_mongodb_doc isoformat value)
                       :: items fields'
            end) fields)
  | PList l => PList (map (serialize_mongodb_doc isoformat) l)
  | PDatetime t => PStr (isoformat t)
  | _ => doc
  end.

(* ===================================================================== *)
(** * The specification's wording of five results *)
(* ===================================================================== *)

(** The score as the specification words it, on the float [fa] that
    [failed_attempts] converts to: every term is present, a bonus that
    does not apply counts [0]. *)
Definition result_bonus (r : AccessResult) : float :=
  match r with
  | FAILED => 0.5
  | SUSPICIOUS => 0.8
  | SUCCESS => 0
  end.

Definition hour_bonus (hour : Z) : float :=
  if (hour <? 7) || (19 <? hour) then 0.3 else 0.

(** Saturday is weekday 5, Sunday weekday 6. *)
Definition weekend_bonus (weekday : Z) : float :=
  if (weekday =? 5) || (weekday =? 6) then 0.2 else 0.

Definition risk_score_formula (fa : float) (log : UserAccessLog) : float :=
  Py.min
    (0.2 * fa
     + 0.3 * Py.float_of_len (length (privilege_changes log))
     + result_bonus (access_result log)
     + hour_bonus (dt_hour (access_time log))
     + weekend_bonus (dt_weekday (access_time log)))%float
    1.

(** The compliance score as the specification states it,
    [100 * (total - active) / total] rounded to one decimal and 100 on an
    empty collection, in tenths: the integer nearest to the exact
    quotient [1000 * (total - active) / total], ties to even. *)
Definition exact_compliance_tenths (total active : Z) : Z :=
  if 0 <? total then
    let n := 1000 * (total - active) in
    if 0 <=? n then Py.div_half_even n total
    else - Py.div_half_even (- n) total
  else 1000.

(** The float that a decimal with one place denotes: the double nearest
    to [k / 10]. *)
Definition tenths_float (k : Z) : float := Py.int_truediv k 10.

(** The trailing 7-day window of the specification: the records of the
    user from seven days before the request up to the request. *)
Definition in_trailing_window (now : datetime) (uid : string)
    (l : UserAccessLog) : bool :=
  String.eqb (user_id l) uid
  && (now - timedelta_days 7 <=? access_time l)
  && (access_time l <=? now).

(** The exact value of a finite float, in units of [2^-1074]. *)
Definition float_units (x : float) : option Z :=
  match Prim2SF x with
  | S754_zero _ => Some 0
  | S754_finite s m e =>
      if -1074 <=? e then
        Some ((if s then Z.neg m else Z.pos m) * 2 ^ (e + 1074))
      else None
  | _ => None
  end.

Fixpoint sum_units (xs : list float) : option Z :=
  match xs with
  | [] => Some 0
  | x :: xs' =>
      match float_units x, sum_units xs' with
      | Some u, Some t => Some (u + t)
      | _, _ => None
      end
  end.

(** [x] is the arithmetic mean of the finite floats [xs], exactly. *)
Definition is_arithmetic_mean (x : float) (xs : list float) : bool :=
  match float_units x, sum_units xs with
  | Some u, Some t =>
      (0 <? Z.of_nat (length xs)) && (u * Z.of_nat (length xs) =? t)
  | _, _ => false
  end.

(** The five query tags the specification names. *)
Definition named_query_types : list string :=
  ["unauthorized_access"; "privilege_escalation"; "segregation_conflicts";
   "failed_logins"; "off_hours_access"].

(* ===================================================================== *)
(** * Sample data for the worked instances *)
(* ===================================================================== *)

(** 2026-11-03T16:00:00Z, a Tuesday. *)
Definition now0 : datetime := 1793721600000000.

(** A record of user [uid] at time [t] that already carries the score
    [score]. *)
Definition stored_log (id uid : string) (t : datetime) (score : float)
    : UserAccessLog :=
  {| ual_id := id; user_id := uid; username := "john.doe";
     user_role := ADMIN; access_time := t; ip_address := "192.168.1.100";
     location := "New York, NY"; resource_accessed := "HR System";
     access_result := SUCCESS; session_duration_minutes := Some 30;
     failed_attempts := 0; privilege_changes := [];
     is_violation := false; violation_type := None;
     risk_score := score; created_at := t |}.

Definition stored_violation (id : string) (is_resolved : bool)
    : AccessViolation :=
  {| av_id := id; log_id := "L1";
     av_violation_type := FAILED_AUTHENTICATION; severity := HIGH;
     description := "Risk Score: 0.70"; detected_at := now0;
     resolved := is_resolved |}.

Definition empty_db : db :=
  {| access_logs := []; violations := []; risk_assessments := [] |}.

(** Three failed attempts and one privilege change on a failed access. *)
Definition busy_log : UserAccessLog :=
  {| ual_id := "L0"; user_id := "USR002"; username := "jane.smith";
     user_role := USER; access_time := now0; ip_address := "10.0.0.50";
     location := "London, UK"; resource_accessed := "Admin Panel";
     access_result := FAILED; session_duration_minutes := None;
     failed_attempts := 3; privilege_changes := ["elevated_to_admin"];
     is_violation := false; violation_type := None;
     risk_score := 0; created_at := now0 |}.

(** The same record with a count of failed attempts past the range of
    binary64. *)
Definition overflow_log : UserAccessLog :=
  {| ual_id := "L0"; user_id := "USR002"; username := "jane.smith";
     user_role := USER; access_time := now0; ip_address := "10.0.0.50";
     location := "London, UK"; resource_accessed := "Admin Panel";
     access_result := FAILED; session_duration_minutes := None;
     failed_attempts := 2 ^ 1024; privilege_changes := [];
     is_violation := false; violation_type := None;
     risk_score := 0; created_at := now0 |}.

(** A draw inside the generator's ranges: two failed attempts at 10:30,
    one day back. *)
Definition failed_draw : Draw :=
  {| d_user := {| su_id := "USR005"; su_username := "david.brown";
                  su_role := USER |};
     d_ip := "172.16.0.10"; d_location := "Berlin, Germany";
     d_resource := "Payroll System"; d_days := 1; d_business := true;
     d_hour := 10; d_minute := 30; d_access_result := FAILED;
     d_attempts := 2; d_privilege := false; d_sample := [];
     d_session := 45; d_log_id := "L2"; d_violation_id := "V2" |}.

(** A draw with a privilege change and ten failed attempts. *)
Definition escalation_draw : Draw :=
  {| d_user := {| su_id := "USR001"; su_username := "john.doe";
                  su_role := ADMIN |};
     d_ip := "10.0.0.51"; d_location := "Tokyo, Japan";
     d_resource := "Financial Database"; d_days := 0; d_business := true;
     d_hour := 9; d_minute := 15; d_access_result := FAILED;
     d_attempts := 10; d_privilege := true;
     d_sample := ["elevated_to_admin"];
     d_session := 60; d_log_id := "L3"; d_violation_id := "V3" |}.

Definition escalation_log : UserAccessLog :=
  {| ual_id := "L3"; user_id := "USR001"; username := "john.doe";
     user_role := ADMIN; access_time := 1793697300000000;
     ip_address := "10.0.0.51"; location := "Tokyo, Japan";
     resource_accessed := "Financial Database"; access_result := FAILED;
     session_duration_minutes := None; failed_attempts := 10;
     privilege_changes := ["elevated_to_admin"];
     is_violation := true; violation_type := Some PRIVILEGE_ESCALATION;
     risk_score := 1; created_at := now0 |}.

Definition escalation_violation : AccessViolation :=
  {| av_id := "V3"; log_id := "L3";
     av_violation_type := PRIVILEGE_ESCALATION; severity := CRITICAL;
     description :=
       "Risk Score: 1.00, Failed Attempts: 10, Privilege Changes: 1, Access Result: failed";
     detected_at := now0; resolved := false |}.

(** One record, two unresolved violations. *)
Definition outnumbered_db : db :=
  {| access_logs := [stored_log "L1" "USR001" now0 0.7];
     violations := [stored_violation "V1" false; stored_violation "V2" false];
     risk_assessments := [] |}.

(** A hundred and one records of one user inside the window: a hundred
    scoring 0, then one scoring 1. *)
Definition crowded_db : db :=
  {| access_logs :=
       repeat (stored_log "L1" "USR001" now0 0) 100
         ++ [stored_log "L2" "USR001" now0 1];
     violations := []; risk_assessments := [] |}.

(** A violation that is already resolved. *)
Definition resolved_db : db :=
  {| access_logs := []; violations := [stored_violation "V1" true];
     risk_assessments := [] |}.

(** One record scoring exactly 0.6. *)
Definition boundary_db : db :=
  {| access_logs := [stored_log "L1" "USR001" now0 0.6];
     violations := []; risk_assessments := [] |}.

Definition bogus_request : gmap string json :=
  {[ "query_type" := JStr "bogus" ]}.

(** A clock that stands still while a handler runs. *)
Definition steady_clock : Z -> datetime := fun _ => now0.

(** A draw that leads to the score 0.6 with no other ground for a flag:
    a failed access at 22:00 on a Tuesday, and [-1] for the number of
    attempts. *)
Definition boundary_draw : Draw :=
  {| d_user := {| su_id := "USR005"; su_username := "david.brown";
                  su_role := USER |};
     d_ip := "172.16.0.10"; d_location := "Berlin, Germany";
     d_resource := "Payroll System"; d_days := 0; d_business := false;
     d_hour := 22; d_minute := 30; d_access_result := FAILED;
     d_attempts := -1; d_privilege := false; d_sample := [];
     d_session := 45; d_log_id := "L4"; d_violation_id := "V4" |}.

Definition boundary_log : UserAccessLog :=
  {| ual_id := "L4"; user_id := "USR005"; username := "david.brown";
     user_role := USER; access_time := 1793745000000000;
     ip_address := "172.16.0.10"; location := "Berlin, Germany";
     resource_accessed := "Payroll System"; access_result := FAILED;
     session_duration_minutes := None; failed_attempts := -1;
     privilege_changes := [];
     is_violation := false; violation_type := None;
     risk_score := 0.6; created_at := now0 |}.

(** Eighty records and twenty-nine unresolved violations. *)
Definition rounding_db : db :=
  {| access_logs := repeat (stored_log "L1" "USR001" now0 0.7) 80;
     violations := repeat (stored_violation "V1" false) 29;
     risk_assessments := [] |}.

(** One record of the user, dated three hours after [now0]. *)
Definition future_db : db :=
  {| access_logs :=
       [stored_log "L1" "USR001" (now0 + 3 * us_per_hour) 0.2];
     violations := []; risk_assessments := [] |}.

(** One record of the user, dated seven days before [now0] to the
    microsecond, and a clock 999 microseconds after [now0]. *)
Definition edge_db : db :=
  {| access_logs := [stored_log "L1" "USR001" (now0 - timedelta_days 7) 0.2];
     violations := []; risk_assessments := [] |}.

Definition late_clock : datetime := now0 + 999.

(** Ten records of one user, each scoring 0.6. *)
Definition even_db : db :=
  {| access_logs := repeat (stored_log "L1" "USR001" now0 0.6) 10;
     violations := []; risk_assessments := [] |}.

(** Three records with three access times, not stored in their order. *)
Definition staggered_db : db :=
  {| access_logs :=
       [stored_log "L1" "USR001" (now0 - 2 * us_per_hour) 0.2;
        stored_log "L2" "USR002" now0 0.7;
        stored_log "L3" "USR001" (now0 - us_per_hour) 0.4];
     violations := []; risk_assessments := [] |}.

(* ===================================================================== *)
(** * Auxiliary definitions for the proofs *)
(* ===================================================================== *)

(** The position of a float in the order of binary64, NaN left out:
    a class (infinities, finite by sign, zeros), then exponent and
    mantissa.  [SFcompare] is the lexicographic comparison of these keys. *)
Definition key : Type := Z * Z * Z.

Definition sf_key (x : spec_float) : option key :=
  match x with
  | S754_nan => None
  | S754_infinity s => Some (if s then -2 else 2, 0, 0)
  | S754_zero _ => Some (0, 0, 0)
  | S754_finite s m e =>
      Some (if s then (-1, - e, Z.neg m) else (1, e, Z.pos m))
  end.

Definition key_compare (a b : key) : comparison :=
  let '(c1, e1, m1) := a in
  let '(c2, e2, m2) := b in
  match c1 ?= c2 with
  | Eq => match e1 ?= e2 with
          | Eq => m1 ?= m2
          | c => c
          end
  | c => c
  end.

Definition key_lt (a b : key) : Prop :=
  let '(c1, e1, m1) := a in
  let '(c2, e2, m2) := b in
  c1 < c2 \/ (c1 = c2 /\ (e1 < e2 \/ (e1 = e2 /\ m1 < m2))).

Definition key_ltb (a b : key) : bool :=
  match key_compare a b with Lt => true | _ => false end.

Definition fkey (x : float) : option key := sf_key (Prim2SF x).

(** The sign of a float that is not NaN. *)
Definition sf_signed (b : bool) (x : spec_float) : Prop :=
  match x with
  | S754_zero s | S754_infinity s | S754_finite s _ _ => s = b
  | S754_nan => False
  end.

(** Floats that are not NaN and carry the sign [+]. *)
Definition fnonneg (x : float) : Prop := sf_signed false (Prim2SF x).

(** Every float but the negative zero. *)
Definition not_neg_zero (x : float) : Prop := Prim2SF x <> S754_zero true.

(** A finite float or a zero whose binary digits end below [2^bound]. *)
Definition sf_below (bound : Z) (x : spec_float) : Prop :=
  match x with
  | S754_zero _ => True
  | S754_finite _ m e => Z.pos (digits2_pos m) + e <= bound
  | _ => False
  end.

(** [p] holds of [0], ..., [n - 1]. *)
Fixpoint forall_below (n : nat) (p : Z -> bool) : bool :=
  match n with
  | O => true
  | S n' => p (Z.of_nat n') && forall_below n' p
  end.

(** The compliance score that the handler computes from the two counts. *)
Definition compliance_of_counts (total active : Z) : float :=
  Py.round1
    (if 0 <? total then
       Py.max0 (Py.int_truediv (total - active) total * 100)%float
     else 100%float).

(** The handler's score is the float of a decimal within one tenth of the
    specification's. *)
Definition within_a_tenth (total active : Z) : bool :=
  let k := exact_compliance_tenths total active in
  let r := compliance_of_counts total active in
  Leibniz.eqb r (tenths_float k)
  || Leibniz.eqb r (tenths_float (k - 1))
  || Leibniz.eqb r (tenths_float (k + 1)).

(** What ties a violation document to the record it was made from. *)
Definition violation_of (l : UserAccessLog) (v : AccessViolation) : Prop :=
  log_id v = ual_id l
  /\ Some (av_violation_type v) = violation_type l
  /\ severity v = determine_risk_level (risk_score l)
  /\ resolved v = false.

(** A value with no key ["_id"] in any [dict] and no [datetime], at any
    depth. *)
Fixpoint stripped (doc : pyval) : bool :=
  match doc with
  | PDatetime _ => false
  | PList l => forallb stripped l
  | PDict fields =>
      forallb (fun kv => negb (String.eqb kv.1 "_id") && stripped kv.2) fields
  | _ => true
  end.

(** The keys of a [dict], outermost level. *)
Definition dict_keys (doc : pyval) : list string :=
  match doc with
  | PDict fields => map fst fields
  | _ => []
  end.

(* ===================================================================== *)
(** * Order of floats *)
(* ===================================================================== *)

Section FloatOrder.

Lemma SFcompare_key (a b : spec_float) :
  SFcompare a b =
  match sf_key a, sf_key b with
  | Some ka, Some kb => Some (key_compare ka kb)
  | _, _ => None
  end.
Proof.
  destruct a as [sa|sa| |sa ma ea], b as [sb|sb| |sb mb eb];
    try destruct sa; try destruct sb; simpl; try reflexivity.
  rewrite Z.compare_opp, (Z.compare_antisym ea eb).
  destruct (ea ?= eb); reflexivity.
Qed.

Lemma key_ltb_spec (a b : key) : key_ltb a b = true <-> key_lt a b.
Proof.
  destruct a as [[c1 e1] m1], b as [[c2 e2] m2].
  unfold key_ltb, key_lt, key_compare.
  destruct (Z.compare_spec c1 c2), (Z.compare_spec e1 e2),
    (Z.compare_spec m1 m2); split; intros; try discriminate; try lia;
    reflexivity.
Qed.

Lemma key_ltb_false (a b : key) : key_ltb a b = false <-> ~ key_lt a b.
Proof.
  rewrite <- key_ltb_spec. destruct (key_ltb a b); split; congruence.
Qed.

(** Strict comparison of two floats through their keys. *)
Lemma ltb_key (x y : float) :
  (x <? y)%float =
  match fkey x, fkey y with
  | Some kx, Some ky => key_ltb kx ky
  | _, _ => false
  end.
Proof.
  rewrite ltb_spec. unfold SFltb, fkey. rewrite SFcompare_key.
  destruct (sf_key (Prim2SF x)), (sf_key (Prim2SF y)); reflexivity.
Qed.

(** [x <= y] is "not [y < x]" away from NaN. *)
Lemma leb_key (x y : float) :
  (x <=? y)%float =
  match fkey x, fkey y with
  | Some kx, Some ky => negb (key_ltb ky kx)
  | _, _ => false
  end.
Proof.
  rewrite leb_spec. unfold SFleb, fkey. rewrite SFcompare_key.
  destruct (sf_key (Prim2SF x)) as [[[c1 e1] m1]|],
    (sf_key (Prim2SF y)) as [[[c2 e2] m2]|]; try reflexivity.
  unfold key_ltb, key_compare.
  rewrite (Z.compare_antisym c1 c2), (Z.compare_antisym e1 e2),
    (Z.compare_antisym m1 m2).
  destruct (c1 ?= c2), (e1 ?= e2), (m1 ?= m2); reflexivity.
Qed.

End FloatOrder.

Lemma fkey_0 : fkey 0 = Some (0, 0, 0).
Proof. vm_compute. reflexivity. Qed.
Lemma fkey_1 : fkey 1 = Some (1, -52, 4503599627370496).
Proof. vm_compute. reflexivity. Qed.
Lemma fkey_0_3 : fkey 0.3 = Some (1, -54, 5404319552844595).
Proof. vm_compute. reflexivity. Qed.
Lemma fkey_0_6 : fkey 0.6 = Some (1, -53, 5404319552844595).
Proof. vm_compute. reflexivity. Qed.
Lemma fkey_0_8 : fkey 0.8 = Some (1, -53, 7205759403792794).
Proof. vm_compute. reflexivity. Qed.

(** Every comparison of the goal and of the hypotheses becomes a
    statement on keys; [s] is the float that is not a constant. *)
Ltac by_keys s :=
  rewrite ?ltb_key, ?leb_key in *;
  rewrite ?fkey_0, ?fkey_1, ?fkey_0_3, ?fkey_0_6, ?fkey_0_8 in *;
  destruct (fkey s) as [[[? ?] ?]|];
  repeat match goal with
    | H : context [key_ltb ?a ?b] |- _ =>
        let E := fresh "E" in
        destruct (key_ltb a b) eqn:E;
        [apply key_ltb_spec in E | apply key_ltb_false in E]
    | |- context [key_ltb ?a ?b] =>
        let E := fresh "E" in
        destruct (key_ltb a b) eqn:E;
        [apply key_ltb_spec in E | apply key_ltb_false in E]
    end;
  unfold key_lt in *; simpl in *;
  try discriminate; try reflexivity; try lia.

(** Claim C6.  The risk-level classifier is a function defined on every
    score; it returns critical from 0.8 on, high from 0.6 up to 0.8,
    medium from 0.3 up to 0.6 and low below 0.3, each lower bound
    included: 0.6 is high and 0.8 is critical.  Conversely each level is
    returned on its band only; low is also the level of NaN, which no
    comparison holds of. *)
Theorem determine_risk_level_bands (score : float) :
  ((0.8 <=? score)%float = true -> determine_risk_level score = CRITICAL)
  /\ ((0.6 <=? score)%float = true -> (score <? 0.8)%float = true ->
      determine_risk_level score = HIGH)
  /\ ((0.3 <=? score)%float = true -> (score <? 0.6)%float = true ->
      determine_risk_level score = MEDIUM)
  /\ ((score <? 0.3)%float = true -> determine_risk_level score = LOW)
  /\ determine_risk_level 0.6 = HIGH
  /\ determine_risk_level 0.8 = CRITICAL
  /\ (determine_risk_level score = CRITICAL ->
      (0.8 <=? score)%float = true)
  /\ (determine_risk_level score = HIGH ->
      (0.6 <=? score)%float = true /\ (score <? 0.8)%float = true)
  /\ (determine_risk_level score = MEDIUM ->
      (0.3 <=? score)%float = true /\ (score <? 0.6)%float = true)
  /\ (determine_risk_level score = LOW -> (0.3 <=? score)%float = false).
Proof.
  unfold determine_risk_level.
  repeat match goal with |- _ /\ _ => split end;
    try (vm_compute; reflexivity); intros; try split; by_keys score.
Qed.

Lemma risk_score_query_level (score : float) (lvl : RiskLevel) :
  (0 <=? score)%float = true -> (score <=? 1)%float = true ->
  (risk_score_query lvl score = true <-> determine_risk_level score = lvl).
Proof.
  unfold determine_risk_level, risk_score_query.
  intros H0 H1. destruct lvl; split; intros H.
  all: by_keys score.
Qed.

(* ===================================================================== *)
(** * Signs of float results *)
(* ===================================================================== *)

Section Signs.
Variables p em : Z.

Lemma iter_pos_invariant {A} (f : A -> A) (P : A -> Prop) :
  (forall x, P x -> P (f x)) ->
  forall n x, P x -> P (iter_pos f n x).
Proof.
  intros Hf. induction n as [n IH|n IH|]; simpl; intros x Hx; auto.
Qed.

Lemma shr_1_nonneg (r : shr_record) : 0 <= shr_m r -> 0 <= shr_m (shr_1 r).
Proof.
  destruct r as [m r s]. simpl.
  destruct m as [|[q|q|]|q]; simpl; lia.
Qed.

Lemma shr_nonneg (r : shr_record) (e n : Z) :
  0 <= shr_m r -> 0 <= shr_m (fst (shr r e n)).
Proof.
  intros Hr. destruct n; simpl; try assumption.
  now apply iter_pos_invariant; [apply shr_1_nonneg|].
Qed.

Lemma shr_fexp_nonneg (m e : Z) (l : SpecFloat.location) :
  0 <= m -> 0 <= shr_m (fst (shr_fexp p em m e l)).
Proof.
  intros Hm. unfold shr_fexp. apply shr_nonneg.
  destruct l as [|[]]; assumption.
Qed.

Lemma round_nearest_even_nonneg (m : Z) (l : SpecFloat.location) :
  0 <= m -> 0 <= round_nearest_even m l.
Proof.
  intros Hm. destruct l as [|[]]; simpl; try lia.
  destruct (Z.even m); lia.
Qed.

(** Rounding keeps the sign it is given and never produces NaN. *)
Lemma binary_round_aux_signed (sx : bool) (mx ex : Z) (lx : SpecFloat.location) :
  0 <= mx -> sf_signed sx (binary_round_aux p em sx mx ex lx).
Proof.
  intros Hm. unfold binary_round_aux.
  pose proof (shr_fexp_nonneg mx ex lx Hm) as H1.
  destruct (shr_fexp p em mx ex lx) as [mrs' e']. simpl in H1.
  pose proof (shr_fexp_nonneg
                (round_nearest_even (shr_m mrs') (loc_of_shr_record mrs'))
                e' loc_Exact (round_nearest_even_nonneg _ _ H1)) as H2.
  destruct (shr_fexp p em _ e' loc_Exact) as [mrs'' e'']. simpl in H2.
  destruct (shr_m mrs''); try lia; simpl; try reflexivity.
  destruct (e'' <=? em - p); reflexivity.
Qed.

Lemma binary_round_signed (s : bool) (m : positive) (e : Z) :
  sf_signed s (binary_round p em s m e).
Proof.
  unfold binary_round. destruct (shl_align m e _) as [mz ez].
  apply binary_round_aux_signed. lia.
Qed.

Lemma binary_normalize_nonneg (z e : Z) :
  0 <= z -> sf_signed false (binary_normalize p em z e false).
Proof.
  intros Hz. destruct z; simpl; try lia; try reflexivity.
  apply binary_round_signed.
Qed.

Lemma binary_normalize_neg (z e : Z) :
  z < 0 -> sf_signed true (binary_normalize p em z e false).
Proof.
  intros Hz. destruct z; simpl; try lia. apply binary_round_signed.
Qed.

Lemma SFadd_nonneg (x y : spec_float) :
  sf_signed false x -> sf_signed false y -> sf_signed false (SFadd p em x y).
Proof.
  destruct x as [sx|sx| |sx mx ex], y as [sy|sy| |sy my ey]; simpl;
    intros Hx Hy; subst; try contradiction; try reflexivity.
  apply binary_normalize_nonneg. simpl. lia.
Qed.

Lemma SFmul_signed (b : bool) (x : spec_float) (m : positive) (e : Z) :
  sf_signed b x -> sf_signed b (SFmul p em x (S754_finite false m e)).
Proof.
  destruct x as [sx|sx| |sx mx ex]; simpl; intros Hx; subst;
    try contradiction; try (destruct b; reflexivity).
  replace (xorb b false) with b by (destruct b; reflexivity).
  apply binary_round_aux_signed. lia.
Qed.

Lemma SFdiv_int_signed (a b : Z) :
  0 < b ->
  sf_signed (a <? 0) (SFdiv p em (Py.SF_of_int a) (Py.SF_of_int b)).
Proof.
  intros Hb. destruct b as [|mb|mb]; try lia.
  destruct a as [|ma|ma]; simpl; try reflexivity.
  all: unfold SFdiv_core_binary;
    match goal with
    | |- context [Z.div_eucl ?n ?d] =>
        pose proof (Z_div_mod n d) as Hq;
        assert (0 <= n) as Hn
    end.
  1, 3: match goal with
        | |- context [match ?s with Z0 => _ | Zpos _ => _ | Zneg _ => _ end] =>
            destruct s eqn:Es; try lia; apply Z.shiftl_nonneg; lia
        end.
  all: destruct (Z.div_eucl _ (Z.pos mb)) as [q r];
    apply binary_round_aux_signed; specialize (Hq ltac:(lia)); nia.
Qed.

Lemma SFldexp_signed (b : bool) (x : spec_float) (e : Z) :
  sf_signed b x -> sf_signed b (SFldexp p em x e).
Proof.
  destruct x as [sx|sx| |sx mx ex]; simpl; intros Hx; subst;
    try contradiction; try reflexivity.
  apply binary_round_signed.
Qed.

Lemma SFopp_signed (b : bool) (x : spec_float) :
  sf_signed b x -> sf_signed (negb b) (SFopp x).
Proof.
  destruct x; simpl; intros; subst; try contradiction; reflexivity.
Qed.

End Signs.

(** Reading a float back from its specification keeps the sign. *)
Lemma SF2Prim_signed (b : bool) (x : spec_float) :
  sf_signed b x -> sf_signed b (Prim2SF (SF2Prim x)).
Proof.
  destruct x as [s|s| |s m e]; simpl; intros Hx; subst;
    try contradiction.
  - destruct b; vm_compute; reflexivity.
  - destruct b; vm_compute; reflexivity.
  - assert (sf_signed false
              (Prim2SF (Z.ldexp (of_uint63 (Uint63.of_Z (Z.pos m))) e))) as Hf.
    { rewrite Z_ldexp_spec, of_uint63_spec.
      apply SFldexp_signed, binary_normalize_nonneg.
      apply Uint63.to_Z_bounded. }
    destruct b; [|exact Hf].
    rewrite opp_spec. now apply (SFopp_signed false).
Qed.

(* ===================================================================== *)
(** * Rounding never yields a zero *)
(* ===================================================================== *)

Lemma digits2_pos_lower (m : positive) :
  2 ^ (Z.pos (digits2_pos m) - 1) <= Z.pos m.
Proof.
  induction m as [m IH|m IH|]; simpl digits2_pos.
  - rewrite Pos2Z.inj_succ.
    replace (Z.succ (Z.pos (digits2_pos m)) - 1)
      with (Z.succ (Z.pos (digits2_pos m) - 1)) by lia.
    rewrite Z.pow_succ_r by lia. lia.
  - rewrite Pos2Z.inj_succ.
    replace (Z.succ (Z.pos (digits2_pos m)) - 1)
      with (Z.succ (Z.pos (digits2_pos m) - 1)) by lia.
    rewrite Z.pow_succ_r by lia. lia.
  - simpl. lia.
Qed.

Lemma shr_1_m (r : shr_record) :
  0 <= shr_m r -> shr_m (shr_1 r) = shr_m r / 2.
Proof.
  destruct r as [m r s]. simpl.
  destruct m as [|[q|q|]|q]; simpl shr_m; intros; try lia; try reflexivity.
  - apply Z.div_unique with 1; lia.
  - apply Z.div_unique with 0; lia.
Qed.

Lemma iter_pos_shr_1_m (n : positive) :
  forall r, 0 <= shr_m r ->
    shr_m (iter_pos shr_1 n r) = shr_m r / 2 ^ Z.pos n.
Proof.
  assert (Hnn : forall k r, 0 <= shr_m r -> 0 <= shr_m (iter_pos shr_1 k r)).
  { intros k r Hr.
    now apply (iter_pos_invariant shr_1 (fun r => 0 <= shr_m r));
      [apply shr_1_nonneg|]. }
  induction n as [n IH|n IH|]; intros r Hr; simpl iter_pos.
  - rewrite IH, IH, shr_1_m by auto using shr_1_nonneg.
    rewrite !Z.div_div by lia.
    f_equal. replace (Z.pos n~1) with (1 + Z.pos n + Z.pos n) by lia.
    rewrite !Z.pow_add_r by lia. change (2 ^ 1) with 2. lia.
  - rewrite IH, IH by auto.
    rewrite !Z.div_div by lia.
    f_equal. replace (Z.pos n~0) with (Z.pos n + Z.pos n) by lia.
    rewrite !Z.pow_add_r by lia. reflexivity.
  - rewrite shr_1_m by assumption. reflexivity.
Qed.

(** A shift chosen by [fexp] leaves a positive mantissa positive, as long
    as the exponent is not below [emin]. *)
Lemma shr_fexp_pos (x : positive) (e : Z) (l : SpecFloat.location) :
  emin <= e ->
  0 < shr_m (fst (shr_fexp prec emax (Z.pos x) e l))
  /\ emin <= snd (shr_fexp prec emax (Z.pos x) e l).
Proof.
  intros He. unfold shr_fexp, shr.
  set (r := shr_record_of_loc (Z.pos x) l).
  assert (Hr : shr_m r = Z.pos x) by (destruct l as [|[]]; reflexivity).
  simpl Zdigits2.
  pose proof (digits2_pos_lower x) as Hd.
  set (d := Z.pos (digits2_pos x)) in *.
  unfold fexp.
  destruct (Z.max (d + e - prec) emin - e) as [|n|n] eqn:En; simpl.
  - rewrite Hr. lia.
  - rewrite iter_pos_shr_1_m, Hr by lia.
    split; [|lia].
    assert (Z.pos n <= d - 1) as Hn.
    { pose proof (eq_refl : prec = 53) as Hp. lia. }
    assert (2 ^ Z.pos n <= 2 ^ (d - 1)) by (apply Z.pow_le_mono_r; lia).
    apply Z.div_str_pos. lia.
  - rewrite Hr. lia.
Qed.

Lemma round_nearest_even_pos (m : Z) (l : SpecFloat.location) :
  0 < m -> 0 < round_nearest_even m l.
Proof.
  intros Hm. destruct l as [|[]]; simpl; try lia.
  destruct (Z.even m); lia.
Qed.

Lemma binary_round_aux_not_zero (s : bool) (x : positive) (e : Z)
    (l : SpecFloat.location) (s' : bool) :
  emin <= e ->
  binary_round_aux prec emax s (Z.pos x) e l <> S754_zero s'.
Proof.
  intros He. unfold binary_round_aux.
  destruct (shr_fexp_pos x e l He) as [H1 H1e].
  destruct (shr_fexp prec emax (Z.pos x) e l) as [mrs' e']. simpl in H1, H1e.
  pose proof (round_nearest_even_pos _ (loc_of_shr_record mrs') H1) as Hr.
  destruct (round_nearest_even (shr_m mrs') (loc_of_shr_record mrs'))
    as [|y|y]; try lia.
  destruct (shr_fexp_pos y e' loc_Exact H1e) as [H2 _].
  destruct (shr_fexp prec emax (Z.pos y) e' loc_Exact) as [mrs'' e''].
  simpl in H2.
  destruct (shr_m mrs''); try lia.
  destruct (e'' <=? emax - prec); discriminate.
Qed.

Lemma binary_round_not_zero (s : bool) (m : positive) (e : Z) (s' : bool) :
  emin <= e -> binary_round prec emax s m e <> S754_zero s'.
Proof.
  intros He. unfold binary_round, shl_align.
  set (f := fexp prec emax (Z.pos (digits2_pos m) + e)).
  assert (emin <= f) by (unfold f, fexp; lia).
  destruct (f - e) eqn:Ef; apply binary_round_aux_not_zero; lia.
Qed.

(** The exponent of a valid finite float is not below [emin]. *)
Lemma valid_binary_emin (s : bool) (m : positive) (e : Z) :
  valid_binary (S754_finite s m e) = true -> emin <= e.
Proof.
  simpl. unfold bounded, canonical_mantissa, fexp.
  intros H. apply andb_prop in H as [H _]. apply Z.eqb_eq in H. lia.
Qed.

(** A sum with a summand of sign [+] is never the negative zero. *)
Lemma SFadd_not_neg_zero (x t : spec_float) :
  valid_binary x = true -> valid_binary t = true ->
  sf_signed false t -> SFadd prec emax x t <> S754_zero true.
Proof.
  intros Vx Vt Ht.
  destruct x as [sx|sx| |sx mx ex], t as [st|st| |st mt et];
    simpl in Ht; subst; try contradiction;
    try (simpl; discriminate); try (destruct sx; simpl; discriminate).
  apply valid_binary_emin in Vx, Vt.
  unfold SFadd.
  match goal with
  | |- binary_normalize _ _ ?sum ?e _ <> _ => destruct sum as [|z|z]; simpl
  end.
  - discriminate.
  - pose proof (binary_round_signed prec emax false z (Z.min ex et)) as Hs.
    intros E. rewrite E in Hs. discriminate.
  - apply binary_round_not_zero. lia.
Qed.

(* ===================================================================== *)
(** * Conversions that stay finite *)
(* ===================================================================== *)

Lemma digits2_pos_upper (m : positive) :
  Z.pos m < 2 ^ Z.pos (digits2_pos m).
Proof.
  induction m as [m IH|m IH|]; simpl digits2_pos;
    rewrite ?Pos2Z.inj_succ, ?Z.pow_succ_r by lia; lia.
Qed.

Lemma Zdigits2_nonneg (x : Z) : 0 <= Zdigits2 x.
Proof. destruct x; simpl; lia. Qed.

Lemma Zdigits2_le (x k : Z) : 0 <= k -> 0 <= x < 2 ^ k -> Zdigits2 x <= k.
Proof.
  intros Hk [Hx Hlt]. destruct x as [|m|m]; simpl; try lia.
  pose proof (digits2_pos_lower m) as Hl.
  destruct (Z.le_gt_cases (Z.pos (digits2_pos m)) k) as [|Hgt]; [assumption|].
  assert (2 ^ k <= 2 ^ (Z.pos (digits2_pos m) - 1))
    by (apply Z.pow_le_mono_r; lia).
  lia.
Qed.

Lemma Zdigits2_upper (x : Z) : 0 <= x -> x < 2 ^ Zdigits2 x.
Proof.
  destruct x as [|m|m]; simpl; intros; try lia. apply digits2_pos_upper.
Qed.

Lemma digits2_pos_shift (m k : positive) :
  digits2_pos (Pos.iter xO m k) = (digits2_pos m + k)%positive.
Proof.
  induction k as [|k IH] using Pos.peano_ind.
  - simpl. lia.
  - rewrite Pos.iter_succ. simpl. rewrite IH. lia.
Qed.

(** Where a shift chosen by [fexp] leaves the mantissa and the exponent. *)
Lemma shr_fexp_bounds (x e : Z) (l : SpecFloat.location) :
  0 <= x ->
  let r := shr_fexp prec emax x e l in
  0 <= shr_m r.1
  /\ Zdigits2 (shr_m r.1) + r.2 <= Z.max (Zdigits2 x + e) emin
  /\ r.2 <= Z.max e (Z.max (Zdigits2 x + e - prec) emin).
Proof.
  intros Hx. pose proof (shr_fexp_nonneg prec emax x e l Hx) as Hnn.
  split; [exact Hnn|]. revert Hnn. unfold shr_fexp, shr, fexp.
  set (r0 := shr_record_of_loc x l).
  assert (Hr : shr_m r0 = x) by (destruct l as [|[]]; reflexivity).
  pose proof (Zdigits2_nonneg x) as Hd0.
  pose proof (Zdigits2_upper x Hx) as Hup.
  set (d := Zdigits2 x) in *.
  pose proof (eq_refl : prec = 53) as Hp.
  destruct (Z.max (d + e - prec) emin - e) as [|n|n] eqn:En; simpl;
    rewrite ?Hr; fold d; try lia.
  rewrite iter_pos_shr_1_m, Hr by lia. intros _.
  split; [|lia].
  destruct (Z.le_gt_cases (Z.pos n) d) as [Hle|Hgt].
  - assert (Zdigits2 (x / 2 ^ Z.pos n) <= d - Z.pos n); [|lia].
    apply Zdigits2_le; [lia|]. split; [apply Z.div_pos; lia|].
    apply Z.div_lt_upper_bound; [lia|].
    rewrite <- Z.pow_add_r by lia.
    now replace (Z.pos n + (d - Z.pos n)) with d by lia.
  - assert (x / 2 ^ Z.pos n = 0) as ->; [|simpl; lia].
    apply Z.div_small. split; [assumption|].
    assert (2 ^ d <= 2 ^ Z.pos n) by (apply Z.pow_le_mono_r; lia). lia.
Qed.

Lemma round_nearest_even_digits (m : Z) (l : SpecFloat.location) :
  0 <= m -> Zdigits2 (round_nearest_even m l) <= Zdigits2 m + 1.
Proof.
  intros Hm. pose proof (Zdigits2_upper m Hm) as Hup.
  pose proof (Zdigits2_nonneg m) as Hd0.
  apply Zdigits2_le; [lia|].
  rewrite Z.pow_add_r, Z.pow_1_r by lia.
  destruct l as [|[]]; simpl; try lia.
  destruct (Z.even m); lia.
Qed.

(** Rounding stays finite when the value lies below [2^1023]. *)
Lemma binary_round_aux_below (s : bool) (mx ex : Z) (l : SpecFloat.location) :
  0 <= mx -> ex <= 971 -> Zdigits2 mx + ex <= 1023 ->
  sf_below (Z.max (Zdigits2 mx + ex) emin + 1)
    (binary_round_aux prec emax s mx ex l).
Proof.
  intros Hm He HD. unfold binary_round_aux.
  pose proof (shr_fexp_bounds mx ex l Hm) as H1.
  destruct (shr_fexp prec emax mx ex l) as [r1 e1].
  simpl in H1. destruct H1 as (Hn1 & Hd1 & He1).
  set (m2 := round_nearest_even (shr_m r1) (loc_of_shr_record r1)).
  pose proof (round_nearest_even_nonneg (shr_m r1) (loc_of_shr_record r1) Hn1)
    as Hn2.
  pose proof (round_nearest_even_digits (shr_m r1) (loc_of_shr_record r1) Hn1)
    as Hd2.
  fold m2 in Hn2, Hd2.
  pose proof (shr_fexp_bounds m2 e1 loc_Exact Hn2) as H3.
  destruct (shr_fexp prec emax m2 e1 loc_Exact) as [r3 e3].
  simpl in H3. destruct H3 as (Hn3 & Hd3 & He3).
  pose proof (eq_refl : prec = 53) as Hp.
  pose proof (eq_refl : emax = 1024) as Hx.
  pose proof (eq_refl : emin = -1074) as Hmin.
  destruct (shr_m r3) as [|m3|m3]; simpl; try lia.
  destruct (Z.leb_spec e3 (emax - prec)); simpl in *; lia.
Qed.

Lemma binary_round_below (s : bool) (m : positive) (e : Z) :
  e <= 971 -> Z.pos (digits2_pos m) + e <= 1023 ->
  sf_below (Z.max (Z.pos (digits2_pos m) + e) emin + 1)
    (binary_round prec emax s m e).
Proof.
  intros He HD. unfold binary_round, shl_align.
  set (f := fexp prec emax (Z.pos (digits2_pos m) + e)).
  destruct (f - e) as [|k|k] eqn:Ek.
  - apply (binary_round_aux_below s (Z.pos m) e); simpl; lia.
  - apply (binary_round_aux_below s (Z.pos m) e); simpl; lia.
  - replace (Z.pos (digits2_pos m) + e)
      with (Zdigits2 (Z.pos (Pos.iter xO m k)) + f)
      by (simpl; rewrite digits2_pos_shift; lia).
    apply binary_round_aux_below; simpl; rewrite ?digits2_pos_shift; lia.
Qed.

Lemma sf_below_exponent (b : Z) (s : bool) (m : positive) (e : Z) :
  sf_below b (S754_finite s m e) -> e <= b - 1.
Proof. simpl. lia. Qed.

(** A float read back from a finite specification is not an infinity. *)
Lemma SF2Prim_below (x : spec_float) :
  sf_below 900 x -> is_infinity (SF2Prim x) = false.
Proof.
  destruct x as [s|s| |s m e]; simpl; try contradiction.
  - intros _. destruct s; vm_compute; reflexivity.
  - intros He.
    set (u := Uint63.to_Z (Uint63.of_Z (Z.pos m))).
    assert (sf_below 1024
              (Prim2SF (Z.ldexp (of_uint63 (Uint63.of_Z (Z.pos m))) e))) as Hf.
    { rewrite Z_ldexp_spec, of_uint63_spec. fold u.
      pose proof (Uint63.to_Z_bounded (Uint63.of_Z (Z.pos m))) as Hu.
      fold u in Hu. change Uint63.wB with (2 ^ 63) in Hu.
      pose proof (digits2_pos_lower m) as Hl.
      pose proof (eq_refl : emin = -1074) as Hmin.
      destruct u as [|v|v]; simpl; try lia.
      assert (Z.pos (digits2_pos v) <= 63) as Hv
        by (apply (Zdigits2_le (Z.pos v)); lia).
      pose proof (binary_round_below false v 0 ltac:(lia) ltac:(lia)) as Hb.
      destruct (binary_round prec emax false v 0) as [s1|s1| |s1 m1 e1];
        simpl in *; try contradiction; try exact I.
      pose proof (binary_round_below s1 m1 (e1 + e) ltac:(lia) ltac:(lia))
        as Hb2.
      destruct (binary_round prec emax s1 m1 (e1 + e));
        simpl in *; try contradiction; try exact I; lia. }
    assert (forall f, sf_below 1024 (Prim2SF f) -> is_infinity f = false)
      as Hinf.
    { intros f Hb. unfold is_infinity. rewrite FloatAxioms.eqb_spec, abs_spec.
      destruct (Prim2SF f); simpl in *; try contradiction; reflexivity. }
    destruct s; apply Hinf; [|exact Hf].
    rewrite opp_spec.
    destruct (Prim2SF (Z.ldexp _ e)); simpl in *; try contradiction;
      assumption.
Qed.

(** Every integer below [2^899] in absolute value converts to a float. *)
Lemma float_of_int_total (z : Z) :
  Z.abs z < 2 ^ 899 -> Py.float_of_int z = Some (Py.float_of_Z z).
Proof.
  intros Hz. unfold Py.float_of_int.
  assert (is_infinity (Py.float_of_Z z) = false) as ->; [|reflexivity].
  apply SF2Prim_below.
  pose proof (eq_refl : emin = -1074) as Hmin.
  destruct z as [|m|m]; simpl; try exact I.
  all: assert (Z.pos (digits2_pos m) <= 899) as Hd
         by (apply (Zdigits2_le (Z.pos m)); lia).
  all: pose proof (binary_round_below false m 0 ltac:(lia) ltac:(lia)) as Hb.
  all: pose proof (binary_round_below true m 0 ltac:(lia) ltac:(lia)) as Hb'.
  - destruct (binary_round prec emax false m 0); simpl in *;
      try contradiction; try exact I; lia.
  - destruct (binary_round prec emax true m 0); simpl in *;
      try contradiction; try exact I; lia.
Qed.

(* ===================================================================== *)
(** * The risk scorer *)
(* ===================================================================== *)

Lemma Prim2SF_0 : Prim2SF 0 = S754_zero false.
Proof. vm_compute. reflexivity. Qed.

Lemma fnonneg_add (x y : float) :
  fnonneg x -> fnonneg y -> fnonneg (x + y).
Proof.
  unfold fnonneg. rewrite add_spec. apply SFadd_nonneg.
Qed.

Lemma fnonneg_mul (x c : float) (m : positive) (e : Z) :
  Prim2SF c = S754_finite false m e -> fnonneg x -> fnonneg (x * c).
Proof.
  unfold fnonneg. intros Hc Hx. rewrite mul_spec, Hc.
  now apply SFmul_signed.
Qed.

Lemma fnonneg_float_of_Z (z : Z) : 0 <= z -> fnonneg (Py.float_of_Z z).
Proof.
  intros Hz. apply SF2Prim_signed. now apply binary_normalize_nonneg.
Qed.

Lemma fnonneg_not_neg_zero (x : float) : fnonneg x -> not_neg_zero x.
Proof.
  unfold fnonneg, not_neg_zero. destruct (Prim2SF x); simpl; congruence.
Qed.

Lemma not_neg_zero_add (x t : float) : fnonneg t -> not_neg_zero (x + t).
Proof.
  unfold fnonneg, not_neg_zero. rewrite add_spec.
  apply SFadd_not_neg_zero; apply Prim2SF_valid.
Qed.

Lemma add_0_r (x : float) : not_neg_zero x -> (x + 0)%float = x.
Proof.
  unfold not_neg_zero. intros Hx. apply Prim2SF_inj.
  rewrite add_spec, Prim2SF_0.
  destruct (Prim2SF x) as [[]|[]| |s m e]; simpl; congruence.
Qed.

(** The accumulator's initial [0.0] does not show in the sum once a term
    of sign [+] is added. *)
Lemma add_0_l_absorbed (y t : float) :
  fnonneg t -> (0 + y + t)%float = (y + t)%float.
Proof.
  unfold fnonneg. intros Ht. apply Prim2SF_inj.
  rewrite !add_spec, Prim2SF_0.
  destruct (Prim2SF y) as [[]|[]| |s m e], (Prim2SF t) as [st|st| |st mt et];
    simpl in Ht; subst; try contradiction; reflexivity.
Qed.

Lemma SFmul_comm (x y : spec_float) : SFmul prec emax x y = SFmul prec emax y x.
Proof.
  destruct x as [sx|sx| |sx mx ex], y as [sy|sy| |sy my ey]; simpl;
    rewrite ?(xorb_comm sx sy); try reflexivity.
  now rewrite Pos.mul_comm, Z.add_comm.
Qed.

Lemma mul_comm (x y : float) : (x * y)%float = (y * x)%float.
Proof.
  apply Prim2SF_inj. rewrite !mul_spec. apply SFmul_comm.
Qed.

Lemma dt_weekday_range (t : datetime) : 0 <= dt_weekday t < 7.
Proof. unfold dt_weekday. apply Z.mod_pos_bound. lia. Qed.

Lemma fnonneg_result_bonus (r : AccessResult) : fnonneg (result_bonus r).
Proof. destruct r; vm_compute; reflexivity. Qed.

Lemma fnonneg_hour_bonus (h : Z) : fnonneg (hour_bonus h).
Proof.
  unfold hour_bonus. destruct (_ || _); vm_compute; reflexivity.
Qed.

Lemma fnonneg_weekend_bonus (d : Z) : fnonneg (weekend_bonus d).
Proof.
  unfold weekend_bonus. destruct (_ || _); vm_compute; reflexivity.
Qed.

Lemma fnonneg_len_term (n : nat) : fnonneg (0.3 * Py.float_of_len n).
Proof.
  rewrite mul_comm.
  apply (fnonneg_mul _ 0.3 5404319552844595 (-54)).
  - vm_compute. reflexivity.
  - apply fnonneg_float_of_Z. lia.
Qed.

(** The scorer is the specification's formula wherever the conversion of
    [failed_attempts] succeeds. *)
Lemma calculate_risk_score_formula (log : UserAccessLog) (fa : float) :
  Py.float_of_int (failed_attempts log) = Some fa ->
  calculate_risk_score log = Some (risk_score_formula fa log).
Proof.
  intros Hfa. unfold calculate_risk_score, risk_score_formula.
  rewrite Hfa. do 2 f_equal.
  rewrite (mul_comm fa 0.2), (mul_comm (Py.float_of_len _) 0.3).
  rewrite add_0_l_absorbed by apply fnonneg_len_term.
  set (s2 := (0.2 * fa + 0.3 * Py.float_of_len _)%float).
  assert (not_neg_zero s2) as H2
    by apply not_neg_zero_add, fnonneg_len_term.
  set (s3 := (s2 + result_bonus (access_result log))%float).
  assert (not_neg_zero s3) as H3
    by apply not_neg_zero_add, fnonneg_result_bonus.
  assert (match access_result log with
          | FAILED => (s2 + 0.5)%float
          | SUSPICIOUS => (s2 + 0.8)%float
          | SUCCESS => s2
          end = s3) as ->.
  { unfold s3. destruct (access_result log); simpl; try reflexivity.
    symmetry. now apply add_0_r. }
  set (h := dt_hour (access_time log)).
  set (s4 := (s3 + hour_bonus h)%float).
  assert (not_neg_zero s4) as H4
    by apply not_neg_zero_add, fnonneg_hour_bonus.
  assert ((if off_hours h then (s3 + 0.3)%float else s3) = s4) as ->.
  { unfold s4, hour_bonus, off_hours. destruct (_ || _); try reflexivity.
    symmetry. now apply add_0_r. }
  pose proof (dt_weekday_range (access_time log)) as Hw.
  set (w := dt_weekday (access_time log)) in *.
  unfold weekend_bonus.
  replace ((w =? 5) || (w =? 6)) with (5 <=? w).
  2:{ destruct (Z.leb_spec 5 w), (Z.eqb_spec w 5), (Z.eqb_spec w 6);
      simpl; try reflexivity; lia. }
  destruct (5 <=? w); try reflexivity.
  symmetry. now apply add_0_r.
Qed.

Lemma fnonneg_leb_0 (x : float) : fnonneg x -> (0 <=? x)%float = true.
Proof.
  unfold fnonneg. intros Hx. rewrite leb_spec, Prim2SF_0.
  destruct (Prim2SF x); simpl in *; subst; try contradiction; reflexivity.
Qed.

Lemma fnonneg_fkey (x : float) :
  fnonneg x -> exists c e m, fkey x = Some (c, e, m) /\ 0 <= c.
Proof.
  unfold fnonneg, fkey. destruct (Prim2SF x); simpl; intros; subst;
    try contradiction; do 3 eexists; (split; [reflexivity|lia]).
Qed.

(** [min(score, 1.0)] of a score of sign [+] lies between 0 and 1. *)
Lemma min_1_range (x : float) :
  fnonneg x ->
  (0 <=? Py.min x 1)%float = true /\ (Py.min x 1 <=? 1)%float = true.
Proof.
  intros Hx. unfold Py.min.
  destruct (1 <? x)%float eqn:E; [split; vm_compute; reflexivity|].
  split; [now apply fnonneg_leb_0|].
  destruct (fnonneg_fkey x Hx) as (c & e & m & Hk & Hc).
  rewrite ltb_key, fkey_1, Hk in E. rewrite leb_key, fkey_1, Hk.
  now rewrite E.
Qed.

Create HintDb fnonneg discriminated.
#[local] Hint Resolve fnonneg_add fnonneg_len_term fnonneg_result_bonus
  fnonneg_hour_bonus fnonneg_weekend_bonus : fnonneg.

Lemma fnonneg_formula_sum (log : UserAccessLog) (fa : float) :
  fnonneg fa ->
  fnonneg (0.2 * fa
     + 0.3 * Py.float_of_len (length (privilege_changes log))
     + result_bonus (access_result log)
     + hour_bonus (dt_hour (access_time log))
     + weekend_bonus (dt_weekday (access_time log))).
Proof.
  intros Hfa.
  assert (fnonneg (0.2 * fa)) as H2; [|auto 6 with fnonneg].
  rewrite mul_comm.
  apply (fnonneg_mul _ 0.2 7205759403792794 (-55)); [|assumption].
  vm_compute. reflexivity.
Qed.

Lemma float_of_int_Some (z : Z) (f : float) :
  Py.float_of_int z = Some f -> f = Py.float_of_Z z.
Proof.
  unfold Py.float_of_int. destruct (is_infinity _); congruence.
Qed.

(** Claim C3, as amended.  For every access-log record whose
    [failed_attempts] converts to a float, the scorer returns exactly
    [min(0.2 * failed_attempts + 0.3 * len(privilege_changes) + result
    bonus + off-hours bonus + weekend bonus, 1.0)], the sum taken from the
    left in binary64; when moreover [failed_attempts >= 0] the result
    lies in [[0, 1]]. *)
Theorem calculate_risk_score_spec (log : UserAccessLog) (fa : float) :
  Py.float_of_int (failed_attempts log) = Some fa ->
  calculate_risk_score log = Some (risk_score_formula fa log)
  /\ (0 <= failed_attempts log ->
      (0 <=? risk_score_formula fa log)%float = true
      /\ (risk_score_formula fa log <=? 1)%float = true).
Proof.
  intros Hfa. split; [now apply calculate_risk_score_formula|].
  intros Hpos. apply min_1_range, fnonneg_formula_sum.
  rewrite (float_of_int_Some _ _ Hfa). now apply fnonneg_float_of_Z.
Qed.

(** The amended claim C3 at a record with three failed attempts. *)
Lemma calculate_risk_score_spec_witness :
  Py.float_of_int (failed_attempts busy_log) = Some 3%float
  /\ calculate_risk_score busy_log = Some (risk_score_formula 3 busy_log)
  /\ (0 <= failed_attempts busy_log ->
      (0 <=? risk_score_formula 3 busy_log)%float = true
      /\ (risk_score_formula 3 busy_log <=? 1)%float = true).
Proof.
  split; [vm_compute; reflexivity|].
  apply (calculate_risk_score_spec busy_log 3). vm_compute. reflexivity.
Defined.

(** The scorer has no result exactly where the conversion overflows. *)
Lemma calculate_risk_score_None (log : UserAccessLog) :
  calculate_risk_score log = None
  <-> Py.float_of_int (failed_attempts log) = None.
Proof.
  unfold calculate_risk_score.
  destruct (Py.float_of_int (failed_attempts log)); split; congruence.
Qed.

(** Below [2^899] failed attempts the scorer always has a result. *)
Lemma calculate_risk_score_total (log : UserAccessLog) :
  Z.abs (failed_attempts log) < 2 ^ 899 ->
  calculate_risk_score log
  = Some (risk_score_formula (Py.float_of_Z (failed_attempts log)) log).
Proof.
  intros H. now apply calculate_risk_score_formula, float_of_int_total.
Qed.

(** Claim C3 as stated fails: on a record with [failed_attempts = 2^1024]
    the scorer raises [OverflowError], so it returns no score in
    [[0, 1]], although [failed_attempts >= 0]. *)
Lemma calculate_risk_score_overflow :
  0 <= failed_attempts overflow_log
  /\ calculate_risk_score overflow_log = None.
Proof. split; [vm_compute; discriminate|vm_compute; reflexivity]. Qed.

(** The largest integers that still convert. *)
Lemma float_of_int_boundary :
  Py.float_of_int (2 ^ 1024 - 2 ^ 970 - 1)
    = Some 0x1.fffffffffffffp+1023%float
  /\ Py.float_of_int (2 ^ 1024 - 2 ^ 970) = None.
Proof. split; vm_compute; reflexivity. Qed.

(* ===================================================================== *)
(** * The sample-data generator: facts *)
(* ===================================================================== *)

(** ** datetime *)

Lemma dt_hour_replace (t h m : Z) :
  0 <= h < 24 -> 0 <= m < 60 ->
  dt_hour (dt_replace_hour_minute t h m) = h.
Proof.
  intros Hh Hm. unfold dt_hour, dt_replace_hour_minute.
  unfold us_per_day, us_per_hour, us_per_minute.
  pose proof (Z.mod_pos_bound t 60000000 ltac:(lia)) as Hs.
  pose proof (Z.div_mod t 86400000000 ltac:(lia)) as Hd.
  set (q := t / 86400000000) in *.
  replace (t - t mod 86400000000 + h * 3600000000 + m * 60000000
           + t mod 60000000)
    with ((m * 60000000 + t mod 60000000) + (24 * q + h) * 3600000000)
    by lia.
  rewrite Z.div_add by lia.
  rewrite (Z.div_small (m * 60000000 + t mod 60000000)) by lia.
  rewrite Z.add_0_l, Z.add_comm, Z.mul_comm, Z.mod_add by lia.
  apply Z.mod_small. lia.
Qed.

(** ** The sample-data generator *)

Lemma calculate_risk_score_fields (l l' : UserAccessLog) :
  failed_attempts l = failed_attempts l' ->
  privilege_changes l = privilege_changes l' ->
  access_result l = access_result l' ->
  access_time l = access_time l' ->
  calculate_risk_score l = calculate_risk_score l'.
Proof.
  unfold calculate_risk_score. intros -> -> -> ->. reflexivity.
Qed.

Lemma violation_rule_spec (score : float) (fa : Z) (pc : list string)
    (r : AccessResult) :
  violation_rule score fa pc r = true <->
  (0.6 <? score)%float = true \/ 3 < fa \/ pc <> [] \/ r = SUSPICIOUS.
Proof.
  unfold violation_rule.
  rewrite !orb_true_iff, !Z.ltb_lt, bool_decide_eq_true.
  destruct pc; simpl; intuition (try congruence; try lia).
Qed.

(** What [generate_log] leaves in the record. *)
Lemma generate_log_inv (now : datetime) (d : Draw) (log : UserAccessLog)
    (v : option AccessViolation) :
  generate_log now d = Some (log, v) ->
  calculate_risk_score log = Some (risk_score log)
  /\ access_time log
     = dt_replace_hour_minute (now - timedelta_days (d_days d)) (d_hour d)
         (d_minute d)
  /\ is_violation log
     = violation_rule (risk_score log) (failed_attempts log)
         (privilege_changes log) (access_result log)
  /\ (if is_violation log then
        violation_type log
        = Some (violation_type_rule (failed_attempts log)
                  (privilege_changes log) (access_result log) (d_hour d))
        /\ exists v', v = Some v'
           /\ log_id v' = ual_id log
           /\ Some (av_violation_type v') = violation_type log
           /\ severity v' = determine_risk_level (risk_score log)
           /\ resolved v' = false
      else violation_type log = None /\ v = None).
Proof.
  unfold generate_log.
  match goal with
  | |- context [calculate_risk_score ?l] =>
      set (l0 := l); destruct (calculate_risk_score l0) as [score|] eqn:Hs
  end; [|discriminate].
  match goal with
  | |- context [violation_rule ?a ?b ?c ?e] =>
      destruct (violation_rule a b c e) eqn:Hv
  end; intros [= <- <-]; simpl; rewrite ?Hv.
  - repeat split; try reflexivity.
    + rewrite <- Hs. now apply calculate_risk_score_fields.
    + eexists. repeat split; reflexivity.
  - repeat split; try reflexivity.
    rewrite <- Hs. now apply calculate_risk_score_fields.
Qed.

(** On the ranges the generator draws from, every iteration yields a
    record. *)
Lemma generate_log_total (now : datetime) (d : Draw) :
  valid_draw d = true -> exists log v, generate_log now d = Some (log, v).
Proof.
  intros Hd. unfold valid_draw, between in Hd.
  repeat (apply andb_prop in Hd as [Hd ?]).
  assert (exists f,
    Py.float_of_int
      match d_access_result d with
      | SUCCESS => 0 | _ => d_attempts d
      end = Some f) as [f Hf].
  { eexists. apply float_of_int_total.
    assert (2 ^ 4 <= 2 ^ 899) by (apply Z.pow_le_mono_r; lia).
    destruct (d_access_result d); lia. }
  unfold generate_log, calculate_risk_score. simpl.
  replace (match d_access_result d with
           | SUCCESS => 0 | FAILED => d_attempts d
           | SUSPICIOUS => d_attempts d end)
    with (match d_access_result d with
          | SUCCESS => 0 | _ => d_attempts d end)
    by (destruct (d_access_result d); reflexivity).
  rewrite Hf.
  match goal with
  | |- context [violation_rule ?a ?b ?c ?e] =>
      destruct (violation_rule a b c e)
  end; eauto.
Qed.

(** The fields of a generated record that the draw fixes. *)
Lemma generate_log_fields (now : datetime) (d : Draw) (log : UserAccessLog)
    (v : option AccessViolation) :
  generate_log now d = Some (log, v) ->
  access_result log = d_access_result d
  /\ failed_attempts log
     = match d_access_result d with SUCCESS => 0 | _ => d_attempts d end
  /\ privilege_changes log = (if d_privilege d then d_sample d else [])
  /\ session_duration_minutes log
     = match d_access_result d with
       | SUCCESS => Some (d_session d)
       | _ => None
       end
  /\ user_id log = su_id (d_user d)
  /\ ual_id log = d_log_id d.
Proof.
  unfold generate_log.
  destruct (calculate_risk_score _) as [score|]; [|discriminate].
  destruct (violation_rule _ _ _ _); intros [= <- <-]; simpl;
    destruct (d_access_result d); repeat split; reflexivity.
Qed.

(** Claim C4.  Every record that the loop body of the generator yields,
    whatever the values drawn, carries the result, the failed attempts and
    the privilege changes of its draw and the scorer's score of them, and
    is flagged as a violation if and only if its score exceeds 0.6
    strictly, or [failed_attempts > 3], or [privilege_changes] is
    non-empty, or the result is suspicious.  A record scoring exactly 0.6
    that meets none of the other three conditions is not flagged.  A
    violation document is written exactly for the flagged records. *)
Theorem violation_flag_rule (now : datetime) (d : Draw)
    (log : UserAccessLog) (v : option AccessViolation) :
  generate_log now d = Some (log, v) ->
  access_result log = d_access_result d
  /\ failed_attempts log
     = match d_access_result d with SUCCESS => 0 | _ => d_attempts d end
  /\ privilege_changes log = (if d_privilege d then d_sample d else [])
  /\ calculate_risk_score log = Some (risk_score log)
  /\ (is_violation log = true <->
      (0.6 <? risk_score log)%float = true
      \/ 3 < failed_attempts log
      \/ privilege_changes log <> []
      \/ access_result log = SUSPICIOUS)
  /\ (risk_score log = 0.6%float ->
      failed_attempts log <= 3 ->
      privilege_changes log = [] ->
      access_result log <> SUSPICIOUS ->
      is_violation log = false)
  /\ (is_violation log = true <-> is_Some v).
Proof.
  intros Hg.
  destruct (generate_log_inv _ _ _ _ Hg) as (Hs & _ & Hv & Ht).
  destruct (generate_log_fields _ _ _ _ Hg) as (Hr & Hf & Hp & _).
  split; [exact Hr|]. split; [exact Hf|]. split; [exact Hp|].
  split; [exact Hs|]. split; [|split].
  - rewrite Hv. apply violation_rule_spec.
  - intros H6 Hfa Hpc Hres.
    destruct (is_violation log) eqn:E; [|reflexivity].
    symmetry in Hv. apply violation_rule_spec in Hv.
    rewrite H6 in Hv.
    destruct Hv as [Hv|[Hv|[Hv|Hv]]];
      [vm_compute in Hv; discriminate | lia | contradiction | contradiction].
  - destruct (is_violation log).
    + destruct Ht as (_ & v' & -> & _). split; eauto.
    + destruct Ht as (_ & ->). split; [discriminate|].
      intros [? [=]].
Qed.

(** Claim C4 at the boundary: the draw of a failed access at 22:00 on a
    Tuesday with [-1] attempts yields a record that scores exactly 0.6,
    has no more than 3 failed attempts, no privilege change and no
    suspicious result; it is not flagged and no violation is written. *)
Lemma violation_flag_rule_witness :
  generate_log now0 boundary_draw = Some (boundary_log, None)
  /\ risk_score boundary_log = 0.6%float
  /\ is_violation boundary_log = false
  /\ access_result boundary_log = d_access_result boundary_draw
  /\ failed_attempts boundary_log
     = match d_access_result boundary_draw with
       | SUCCESS => 0
       | _ => d_attempts boundary_draw
       end
  /\ privilege_changes boundary_log
     = (if d_privilege boundary_draw then d_sample boundary_draw else [])
  /\ calculate_risk_score boundary_log = Some (risk_score boundary_log)
  /\ (is_violation boundary_log = true <->
      (0.6 <? risk_score boundary_log)%float = true
      \/ 3 < failed_attempts boundary_log
      \/ privilege_changes boundary_log <> []
      \/ access_result boundary_log = SUSPICIOUS)
  /\ (risk_score boundary_log = 0.6%float ->
      failed_attempts boundary_log <= 3 ->
      privilege_changes boundary_log = [] ->
      access_result boundary_log <> SUSPICIOUS ->
      is_violation boundary_log = false)
  /\ (is_violation boundary_log = true <-> is_Some (@None AccessViolation)).
Proof.
  assert (generate_log now0 boundary_draw = Some (boundary_log, None)) as H
    by (vm_compute; reflexivity).
  split; [exact H|]. split; [reflexivity|]. split; [reflexivity|].
  apply (violation_flag_rule now0 boundary_draw boundary_log None H).
Defined.

(** Claim C5.  On every flagged record the violation type is the first
    match in the order: privilege changes present, privilege escalation;
    else [failed_attempts > 3], failed authentication; else suspicious
    result, unusual activity; else hour before 7 or after 19,
    unauthorized access; else segregation-of-duty conflict.  A record
    with a privilege change and ten failed attempts is a privilege
    escalation, not a failed authentication.  The hour tested is the hour
    of the record's access time, and the violation document carries the
    same type. *)
Theorem violation_type_priority (now : datetime) (d : Draw)
    (log : UserAccessLog) (v : option AccessViolation) :
  generate_log now d = Some (log, v) ->
  is_violation log = true ->
  let fa := failed_attempts log in
  let pc := privilege_changes log in
  let r := access_result log in
  let hour := d_hour d in
  (pc <> [] -> violation_type log = Some PRIVILEGE_ESCALATION)
  /\ (pc = [] -> 3 < fa ->
      violation_type log = Some FAILED_AUTHENTICATION)
  /\ (pc = [] -> fa <= 3 -> r = SUSPICIOUS ->
      violation_type log = Some UNUSUAL_ACTIVITY)
  /\ (pc = [] -> fa <= 3 -> r <> SUSPICIOUS -> hour < 7 \/ 19 < hour ->
      violation_type log = Some UNAUTHORIZED_ACCESS)
  /\ (pc = [] -> fa <= 3 -> r <> SUSPICIOUS -> 7 <= hour <= 19 ->
      violation_type log = Some SEGREGATION_DUTY_CONFLICT)
  /\ (pc <> [] -> fa = 10 ->
      violation_type log = Some PRIVILEGE_ESCALATION
      /\ violation_type log <> Some FAILED_AUTHENTICATION)
  /\ (0 <= hour < 24 -> 0 <= d_minute d < 60 ->
      dt_hour (access_time log) = hour)
  /\ (exists v', v = Some v'
        /\ Some (av_violation_type v') = violation_type log).
Proof.
  intros Hg Hv. destruct (generate_log_inv _ _ _ _ Hg) as (_ & Ha & _ & Ht).
  rewrite Hv in Ht. destruct Ht as (Ht & v' & -> & _ & Hvt & _).
  cbv zeta. rewrite Ht. unfold violation_type_rule, off_hours.
  repeat split.
  - intros Hpc. destruct (privilege_changes log); [contradiction|reflexivity].
  - intros -> Hfa. simpl. now rewrite (proj2 (Z.ltb_lt _ _) Hfa).
  - intros -> Hfa ->. simpl. now rewrite (proj2 (Z.ltb_ge _ _) Hfa).
  - intros -> Hfa Hr Hh. simpl. rewrite (proj2 (Z.ltb_ge _ _) Hfa).
    rewrite bool_decide_eq_false_2 by assumption.
    destruct (Z.ltb_spec (d_hour d) 7), (Z.ltb_spec 19 (d_hour d));
      simpl; try reflexivity; lia.
  - intros -> Hfa Hr Hh. simpl. rewrite (proj2 (Z.ltb_ge _ _) Hfa).
    rewrite bool_decide_eq_false_2 by assumption.
    destruct (Z.ltb_spec (d_hour d) 7), (Z.ltb_spec 19 (d_hour d));
      simpl; try reflexivity; lia.
  - destruct (privilege_changes log); [contradiction|reflexivity].
  - destruct (privilege_changes log); [contradiction|discriminate].
  - intros Hh Hm. rewrite Ha. now apply dt_hour_replace.
  - eexists. split; [reflexivity|]. now rewrite Hvt, Ht.
Qed.

(** Claim C5 at the record with one privilege change and ten failed
    attempts. *)
Lemma violation_type_priority_witness :
  generate_log now0 escalation_draw
    = Some (escalation_log, Some escalation_violation)
  /\ is_violation escalation_log = true
  /\ (let fa := failed_attempts escalation_log in
      let pc := privilege_changes escalation_log in
      let r := access_result escalation_log in
      let hour := d_hour escalation_draw in
      (pc <> [] -> violation_type escalation_log = Some PRIVILEGE_ESCALATION)
      /\ (pc = [] -> 3 < fa ->
          violation_type escalation_log = Some FAILED_AUTHENTICATION)
      /\ (pc = [] -> fa <= 3 -> r = SUSPICIOUS ->
          violation_type escalation_log = Some UNUSUAL_ACTIVITY)
      /\ (pc = [] -> fa <= 3 -> r <> SUSPICIOUS -> hour < 7 \/ 19 < hour ->
          violation_type escalation_log = Some UNAUTHORIZED_ACCESS)
      /\ (pc = [] -> fa <= 3 -> r <> SUSPICIOUS -> 7 <= hour <= 19 ->
          violation_type escalation_log = Some SEGREGATION_DUTY_CONFLICT)
      /\ (pc <> [] -> fa = 10 ->
          violation_type escalation_log = Some PRIVILEGE_ESCALATION
          /\ violation_type escalation_log <> Some FAILED_AUTHENTICATION)
      /\ (0 <= hour < 24 -> 0 <= d_minute escalation_draw < 60 ->
          dt_hour (access_time escalation_log) = hour)
      /\ (exists v', Some escalation_violation = Some v'
            /\ Some (av_violation_type v') = violation_type escalation_log)).
Proof.
  assert (generate_log now0 escalation_draw
          = Some (escalation_log, Some escalation_violation)) as Hg
    by (vm_compute; reflexivity).
  split; [exact Hg|]. split; [reflexivity|].
  exact (violation_type_priority now0 escalation_draw escalation_log
           (Some escalation_violation) Hg eq_refl).
Defined.

(* ===================================================================== *)
(** * The store and the handlers: facts *)
(* ===================================================================== *)

(** ** The store *)

Lemma with_violations_id (s : db) : with_violations (fun _ => violations s) s = s.
Proof. destruct s; reflexivity. Qed.

Lemma set_resolved_id (v : AccessViolation) :
  resolved v = true -> set_resolved v = v.
Proof. destruct v; simpl; intros ->; reflexivity. Qed.

Lemma update_one_no_match (vid : string) (vs : list AccessViolation) :
  (forall v, In v vs -> av_id v <> vid) ->
  update_one_resolved vid vs = (vs, 0).
Proof.
  induction vs as [|v vs IH]; intros H; simpl; [reflexivity|].
  destruct (String.eqb_spec (av_id v) vid) as [E|_].
  - exfalso. apply (H v); [now left|exact E].
  - rewrite IH; [reflexivity|]. intros v' Hv'. apply H. now right.
Qed.

Lemma update_one_match (vid : string) (vs : list AccessViolation) :
  (exists v, In v vs /\ av_id v = vid) ->
  exists vs', update_one_resolved vid vs = (vs', 1).
Proof.
  induction vs as [|v vs IH]; intros (w & Hw & E); simpl; [destruct Hw|].
  destruct (String.eqb_spec (av_id v) vid) as [_|N]; [eauto|].
  destruct Hw as [->|Hw]; [contradiction|].
  destruct IH as [vs' ->]; eauto.
Qed.

Lemma update_one_twice (vid : string) (vs : list AccessViolation) :
  update_one_resolved vid (update_one_resolved vid vs).1
  = update_one_resolved vid vs.
Proof.
  induction vs as [|v vs IH]; simpl; [reflexivity|].
  destruct (String.eqb_spec (av_id v) vid) as [E|N]; simpl.
  - rewrite (proj2 (String.eqb_eq _ _) E). reflexivity.
  - destruct (update_one_resolved vid vs) as [vs' n] eqn:Hu. simpl in *.
    rewrite (proj2 (String.eqb_neq _ _) N), IH. reflexivity.
Qed.

Lemma update_one_resolved_already (vid : string) (vs : list AccessViolation) :
  (forall v, In v vs -> av_id v = vid -> resolved v = true) ->
  (update_one_resolved vid vs).1 = vs.
Proof.
  induction vs as [|v vs IH]; intros H; simpl; [reflexivity|].
  destruct (String.eqb_spec (av_id v) vid) as [E|N]; simpl.
  - f_equal. apply set_resolved_id, H; [now left|exact E].
  - destruct (update_one_resolved vid vs) as [vs' n] eqn:Hu. simpl in *.
    f_equal. apply IH. intros v' Hv'. apply H. now right.
Qed.

(** The update touches nothing but the flag, and only upwards. *)
Lemma update_one_pointwise (vid : string) (vs : list AccessViolation)
    (i : nat) (v : AccessViolation) :
  vs !! i = Some v ->
  exists v', (update_one_resolved vid vs).1 !! i = Some v'
    /\ (v' = v \/ v' = set_resolved v).
Proof.
  revert i. induction vs as [|w vs IH]; intros i Hi; [discriminate|].
  simpl. destruct (String.eqb_spec (av_id w) vid) as [E|N]; simpl.
  - destruct i; simpl in *; [injection Hi as ->|]; eauto.
  - destruct (update_one_resolved vid vs) as [vs' n] eqn:Hu. simpl in *.
    destruct i; simpl in *; [injection Hi as ->; eauto|].
    now apply IH.
Qed.

(** ** [resolve_violation] *)

Lemma resolve_violation_run (vid : string) (s : db) :
  resolve_violation vid s =
  let '(vs', n) := update_one_resolved vid (violations s) in
  (with_violations (fun _ => vs') s,
   if n =? 0 then Raise (HTTPException 500 "404: Violation not found")
   else Ok "Violation resolved successfully").
Proof.
  unfold resolve_violation, try_except_Exception, mbind, handler_bind,
    bind, gets, modify, raise, mret, handler_ret, ret.
  simpl. destruct (update_one_resolved vid (violations s)) as [vs' n].
  simpl. destruct (n =? 0); reflexivity.
Qed.

(** Claim C1, what the handler does instead.  For a violation id that no
    stored document carries, the store is left unchanged, but the
    [HTTPException(404)] raised inside the [try] block is caught by
    [except Exception] and replaced: the client receives status 500,
    not 404. *)
Theorem resolve_unknown_id_is_500 (vid : string) (s : db) :
  (forall v, In v (violations s) -> av_id v <> vid) ->
  resolve_violation vid s
  = (s, Raise (HTTPException 500 "404: Violation not found"))
  /\ status_of (resolve_violation vid s).2 = 500.
Proof.
  intros H. rewrite resolve_violation_run, update_one_no_match by exact H.
  simpl. rewrite with_violations_id. split; reflexivity.
Qed.

(** The unknown id ["missing"] on the empty store. *)
Lemma resolve_unknown_id_is_500_witness :
  (forall v, In v (violations empty_db) -> av_id v <> "missing")
  /\ resolve_violation "missing" empty_db
     = (empty_db, Raise (HTTPException 500 "404: Violation not found"))
  /\ status_of (resolve_violation "missing" empty_db).2 = 500.
Proof.
  assert (forall v, In v (violations empty_db) -> av_id v <> "missing")
    as H by (simpl; intros v []).
  split; [exact H|].
  apply (resolve_unknown_id_is_500 "missing" empty_db H).
Defined.

(** Claim C9.  For a violation id that a stored document carries, the
    resolve operation succeeds, and resolving again succeeds and leaves
    the store as the first resolve left it; when the matching documents
    are already resolved, the store does not change at all.  The
    operation only writes the [resolved] flag of violation documents, and
    a flag that is [true] stays [true]. *)
Theorem resolve_violation_idempotent (vid : string) (s : db) :
  (exists v, In v (violations s) /\ av_id v = vid) ->
  exists s1,
    resolve_violation vid s = (s1, Ok "Violation resolved successfully")
    /\ resolve_violation vid s1 = (s1, Ok "Violation resolved successfully")
    /\ ((forall v, In v (violations s) -> av_id v = vid -> resolved v = true)
        -> s1 = s)
    /\ access_logs s1 = access_logs s
    /\ risk_assessments s1 = risk_assessments s
    /\ length (violations s1) = length (violations s)
    /\ (forall i v, violations s !! i = Some v ->
          exists v', violations s1 !! i = Some v'
            /\ (v' = v \/ v' = set_resolved v)
            /\ (resolved v = true -> resolved v' = true)).
Proof.
  intros Hm. destruct (update_one_match _ _ Hm) as [vs' Hu].
  exists (with_violations (fun _ => vs') s).
  assert (vs' = (update_one_resolved vid (violations s)).1) as Hvs'
    by now rewrite Hu.
  split; [|split; [|split; [|split; [|split; [|split]]]]].
  - rewrite resolve_violation_run, Hu. reflexivity.
  - rewrite resolve_violation_run. simpl violations.
    rewrite Hvs', update_one_twice, Hu. simpl. destruct s; reflexivity.
  - intros Hall. rewrite Hvs', update_one_resolved_already by exact Hall.
    apply with_violations_id.
  - reflexivity.
  - reflexivity.
  - simpl. rewrite Hvs'. clear.
    induction (violations s) as [|w vs IH]; simpl; [reflexivity|].
    destruct (String.eqb (av_id w) vid); simpl; [reflexivity|].
    destruct (update_one_resolved vid vs); simpl in *. now rewrite IH.
  - intros i v Hi. simpl. rewrite Hvs'.
    destruct (update_one_pointwise vid _ i v Hi) as (v' & Hv' & Hor).
    exists v'. repeat split; try assumption.
    destruct Hor as [->| ->]; [tauto|reflexivity].
Qed.

(** Claim C9 on a store whose violation ["V1"] is already resolved. *)
Lemma resolve_violation_idempotent_witness :
  (exists v, In v (violations resolved_db) /\ av_id v = "V1")
  /\ exists s1,
       resolve_violation "V1" resolved_db
         = (s1, Ok "Violation resolved successfully")
       /\ resolve_violation "V1" s1
          = (s1, Ok "Violation resolved successfully")
       /\ ((forall v, In v (violations resolved_db) -> av_id v = "V1" ->
                      resolved v = true)
           -> s1 = resolved_db)
       /\ access_logs s1 = access_logs resolved_db
       /\ risk_assessments s1 = risk_assessments resolved_db
       /\ length (violations s1) = length (violations resolved_db)
       /\ (forall i v, violations resolved_db !! i = Some v ->
             exists v', violations s1 !! i = Some v'
               /\ (v' = v \/ v' = set_resolved v)
               /\ (resolved v = true -> resolved v' = true)).
Proof.
  assert (exists v, In v (violations resolved_db) /\ av_id v = "V1") as H
    by (eexists; split; [left; reflexivity|reflexivity]).
  split; [exact H|].
  apply (resolve_violation_idempotent "V1" resolved_db H).
Defined.

(** ** [execute_sql_query] *)

(** Claim C2, what the handler does instead.  For a request whose
    [query_type] is none of the five named tags (a different string, a
    value that is not a string, or no value), the
    [HTTPException(400, "Invalid query type")] raised inside the [try]
    block is caught by [except Exception] and replaced: the client
    receives status 500, not 400, and the store is unchanged. *)
Theorem unknown_query_type_is_500 (query_request : gmap string json) (s : db) :
  (forall tag, query_request !! "query_type" = Some (JStr tag) ->
               ~ In tag named_query_types) ->
  execute_sql_query query_request s
  = (s, Raise (HTTPException 500
                 "Query execution failed: 400: Invalid query type"))
  /\ status_of (execute_sql_query query_request s).2 = 500.
Proof.
  intros H.
  assert (forall tag, In tag named_query_types ->
            query_type_is (query_request !! "query_type") tag = false) as Hq.
  { intros tag Hin. unfold query_type_is.
    destruct (query_request !! "query_type") as [[]|] eqn:E; try reflexivity.
    apply String.eqb_neq. intros ->. now apply (H tag). }
  unfold execute_sql_query, try_except_Exception, mbind, handler_bind, bind,
    gets.
  simpl.
  rewrite !Hq by (unfold named_query_types; simpl; tauto).
  simpl. split; reflexivity.
Qed.

(** The request [{"query_type": "bogus"}]. *)
Lemma unknown_query_type_is_500_witness :
  (forall tag, bogus_request !! "query_type" = Some (JStr tag) ->
               ~ In tag named_query_types)
  /\ execute_sql_query bogus_request empty_db
     = (empty_db,
        Raise (HTTPException 500
                 "Query execution failed: 400: Invalid query type"))
  /\ status_of (execute_sql_query bogus_request empty_db).2 = 500.
Proof.
  assert (forall tag, bogus_request !! "query_type" = Some (JStr tag) ->
                      ~ In tag named_query_types) as H.
  { intros tag E. vm_compute in E. injection E as <-.
    simpl. intros [Hc|[Hc|[Hc|[Hc|[Hc|[]]]]]]; discriminate. }
  split; [exact H|].
  apply (unknown_query_type_is_500 bogus_request empty_db H).
Defined.

(** Each of the five named tags is served. *)
Lemma named_query_types_served (tag : string) (s : db) :
  In tag named_query_types ->
  exists r, execute_sql_query {[ "query_type" := JStr tag ]} s = (s, Ok r)
    /\ sq_query_type r = Some (JStr tag)
    /\ results_count r = Z.of_nat (length (results r)).
Proof.
  unfold named_query_types. simpl.
  intros [<-|[<-|[<-|[<-|[<-|[]]]]]];
    unfold execute_sql_query, try_except_Exception, mbind, handler_bind,
      bind, gets; simpl; eexists; (split; [reflexivity|]);
    split; reflexivity.
Qed.

(** ** Dashboard statistics *)

Lemma count_documents_all {A} (docs : list A) :
  count_documents (fun _ => true) docs = Z.of_nat (length docs).
Proof.
  unfold count_documents. f_equal. f_equal.
  induction docs; simpl; congruence.
Qed.

Lemma max0_nonneg (x : float) : fnonneg x -> Py.max0 x = x.
Proof.
  unfold fnonneg, Py.max0. intros Hx.
  destruct (0 <? x)%float eqn:E; [reflexivity|].
  apply Prim2SF_inj. rewrite ltb_spec, Prim2SF_0 in E. rewrite Prim2SF_0.
  destruct (Prim2SF x) as [[]|[]| |[] m e]; cbv in E, Hx;
    try contradiction; congruence.
Qed.

Lemma max0_nonpos (x : float) : sf_signed true (Prim2SF x) -> Py.max0 x = 0%float.
Proof.
  unfold Py.max0. intros Hx. rewrite ltb_spec, Prim2SF_0.
  destruct (Prim2SF x) as [[]|[]| |[] m e]; cbv in Hx;
    try contradiction; try congruence; reflexivity.
Qed.

Lemma Prim2SF_100 : Prim2SF 100 = S754_finite false 7036874417766400 (-46).
Proof. vm_compute. reflexivity. Qed.

Lemma int_truediv_signed (a b : Z) :
  0 < b -> sf_signed (a <? 0) (Prim2SF (Py.int_truediv a b * 100)).
Proof.
  intros Hb. rewrite mul_spec, Prim2SF_100.
  apply SFmul_signed, SF2Prim_signed, SFdiv_int_signed, Hb.
Qed.

Lemma int_truediv_0 (b : Z) : 0 < b -> Py.int_truediv 0 b = 0%float.
Proof.
  intros Hb. destruct b as [|p|p]; try lia.
  unfold Py.int_truediv. simpl. reflexivity.
Qed.

(** An integer divided by itself is exactly [1.0]. *)
Lemma int_truediv_self (b : Z) : 0 < b -> Py.int_truediv b b = 1%float.
Proof.
  intros Hb. destruct b as [|p|p]; try lia.
  unfold Py.int_truediv, Py.SF_of_int, SFdiv, SFdiv_core_binary.
  replace (Zdigits2 (Z.pos p) + 0 - (Zdigits2 (Z.pos p) + 0)) with 0 by lia.
  change (Z.min (fexp prec emax 0) (0 - 0)) with (-53).
  change (0 - 0 - -53) with 53.
  cbv beta iota zeta.
  assert (Z.div_eucl (Z.shiftl (Z.pos p) 53) (Z.pos p) = (2 ^ 53, 0)) as ->.
  { rewrite Z.shiftl_mul_pow2 by lia.
    pose proof (Z_div_mod (Z.pos p * 2 ^ 53) (Z.pos p) ltac:(lia)) as H.
    destruct (Z.div_eucl (Z.pos p * 2 ^ 53) (Z.pos p)) as [q r].
    destruct H as [H1 H2].
    assert (q = 2 ^ 53) by nia. subst q.
    f_equal. lia. }
  unfold new_location, new_location_even, new_location_odd.
  change (0 =? 0) with true. cbv iota.
  destruct (Z.even (Z.pos p)); vm_compute; reflexivity.
Qed.

Lemma round1_nonneg (x : float) : fnonneg x -> fnonneg (Py.round1 x).
Proof.
  unfold fnonneg, Py.round1. intros Hx.
  destruct (Prim2SF x) as [s|s| |s m e] eqn:E; simpl in Hx; subst;
    try contradiction; try (rewrite E; exact eq_refl).
  destruct (Py.dec_scaled 1 m e) as [|k|k].
  - vm_compute. reflexivity.
  - apply SF2Prim_signed.
    apply (SFdiv_int_signed prec emax (Z.pos k) 10). lia.
  - vm_compute. reflexivity.
Qed.

Lemma forall_below_spec (n : nat) (p : Z -> bool) :
  forall_below n p = true -> forall z, 0 <= z < Z.of_nat n -> p z = true.
Proof.
  induction n as [|n IH]; simpl; intros H z Hz; [lia|].
  apply andb_prop in H as [H0 H1].
  destruct (Z.eq_dec z (Z.of_nat n)) as [->|Hne]; [exact H0|].
  apply IH; [exact H1|lia].
Qed.

(** Every pair of counts up to 200 records, by evaluation. *)
Lemma within_a_tenth_200 :
  forall_below 201
    (fun total => forall_below (Z.to_nat total + 1) (within_a_tenth total))
  = true.
Proof. vm_cast_no_check (eq_refl true). Qed.

Lemma get_dashboard_stats_compliance (now : datetime) (s : db) :
  exists stats,
    get_dashboard_stats now s = (s, Ok stats)
    /\ total_access_logs stats = Z.of_nat (length (access_logs s))
    /\ active_violations stats
       = Z.of_nat
           (length (List.filter (fun v => negb (resolved v)) (violations s)))
    /\ compliance_score stats
       = compliance_of_counts (total_access_logs stats)
           (active_violations stats).
Proof.
  unfold get_dashboard_stats, try_except_Exception, mbind, handler_bind,
    bind, gets, mret, handler_ret, ret.
  cbv beta iota zeta. rewrite count_documents_all.
  eexists. split; [reflexivity|].
  cbn [total_access_logs active_violations compliance_score].
  split; [reflexivity|]. split; reflexivity.
Qed.

(** Claim C7, as amended.  On every store the dashboard statistics are
    returned; [total] counts the access-log records and [active] the
    violations with [resolved = false].  The compliance score is 100.0 on
    an empty collection and otherwise Python's
    [round(max(0, (total - active) / total * 100), 1)] as binary64
    evaluates it: the correctly rounded quotient, its product with 100,
    the clamp at 0, the rounding to one decimal.  It is never negative,
    it is 100.0 when no violation is active, 0.0 whenever the active
    violations are as many as the records or more, and 70.0 for
    [total = 10], [active = 3].  It is the float of a decimal with one
    place within one tenth of the specification's
    [100 * (total - active) / total] rounded to one decimal for every
    pair of counts with [active <= total <= 200]. *)
Theorem compliance_score_spec (now : datetime) (s : db) :
  let total := Z.of_nat (length (access_logs s)) in
  let active :=
    Z.of_nat
      (length (List.filter (fun v => negb (resolved v)) (violations s))) in
  exists stats,
    get_dashboard_stats now s = (s, Ok stats)
    /\ total_access_logs stats = total
    /\ active_violations stats = active
    /\ (total = 0 -> compliance_score stats = 100%float)
    /\ (0 < total ->
        compliance_score stats
        = Py.round1
            (Py.max0 (Py.int_truediv (total - active) total * 100))%float)
    /\ (0 <=? compliance_score stats)%float = true
    /\ (0 < total -> active = 0 -> compliance_score stats = 100%float)
    /\ (0 < total <= active -> compliance_score stats = 0%float)
    /\ (active <= total <= 200 ->
        exists k,
          compliance_score stats = tenths_float k
          /\ Z.abs (k - exact_compliance_tenths total active) <= 1)
    /\ (total = 10 -> active = 3 -> compliance_score stats = 70%float).
Proof.
  intros total active.
  destruct (get_dashboard_stats_compliance now s)
    as (stats & Hrun & Ht & Ha & Hc).
  fold total in Ht. fold active in Ha. rewrite Ht, Ha in Hc.
  exists stats. split; [exact Hrun|]. split; [exact Ht|]. split; [exact Ha|].
  rewrite Hc. unfold compliance_of_counts.
  assert (Hact : 0 <= active) by (unfold active; lia).
  split; [|split; [|split; [|split; [|split; [|split]]]]].
  - intros ->. vm_compute. reflexivity.
  - intros Hpos. rewrite (proj2 (Z.ltb_lt _ _) Hpos). reflexivity.
  - apply fnonneg_leb_0, round1_nonneg.
    destruct (Z.ltb_spec 0 total) as [Hpos|_]; [|vm_compute; reflexivity].
    pose proof (int_truediv_signed (total - active) total Hpos) as Hs.
    destruct (Z.ltb_spec (total - active) 0) as [Hneg|Hnn].
    + rewrite max0_nonpos by exact Hs. vm_compute. reflexivity.
    + rewrite max0_nonneg by exact Hs. exact Hs.
  - intros Hpos ->. rewrite (proj2 (Z.ltb_lt _ _) Hpos).
    replace (total - 0) with total by lia.
    rewrite int_truediv_self by exact Hpos. vm_compute. reflexivity.
  - intros [Hpos Hle]. rewrite (proj2 (Z.ltb_lt _ _) Hpos).
    destruct (Z.eq_dec active total) as [->|Hne].
    + rewrite Z.sub_diag, int_truediv_0 by exact Hpos.
      vm_compute. reflexivity.
    + rewrite max0_nonpos; [vm_compute; reflexivity|].
      pose proof (int_truediv_signed (total - active) total Hpos) as Hs.
      now rewrite (proj2 (Z.ltb_lt _ _)) in Hs by lia.
  - intros [Hle H200].
    assert (Htot : 0 <= total) by (unfold total; lia).
    pose proof (forall_below_spec _ _ within_a_tenth_200 total
                  ltac:(simpl; lia)) as H1.
    cbv beta in H1.
    pose proof (forall_below_spec _ _ H1 active ltac:(lia)) as H2.
    unfold within_a_tenth, compliance_of_counts in H2.
    set (k := exact_compliance_tenths total active) in *.
    apply orb_prop in H2 as [H2|H2]; [apply orb_prop in H2 as [H2|H2]|];
      apply Leibniz.eqb_spec in H2; rewrite H2;
      eexists; (split; [reflexivity|]); lia.
  - intros Ht10 Ha3. rewrite Ht10, Ha3. vm_compute. reflexivity.
Qed.

(** Claim C7 as stated fails twice.  On a store with one record and two
    unresolved violations the specification's figure is -100.0 and the
    dashboard reports 0.0.  On a store with 80 records and 29 unresolved
    violations the specification's figure is 63.75 rounded to one
    decimal, 63.8, and the dashboard reports 63.7: the product of the
    rounded quotient with 100 lies below 63.75. *)
Lemma compliance_score_not_the_formula :
  (exists stats,
     get_dashboard_stats now0 outnumbered_db = (outnumbered_db, Ok stats)
     /\ total_access_logs stats = 1
     /\ active_violations stats = 2
     /\ exact_compliance_tenths 1 2 = -1000
     /\ compliance_score stats = 0%float
     /\ compliance_score stats <> tenths_float (-1000))
  /\ (exists stats,
        get_dashboard_stats now0 rounding_db = (rounding_db, Ok stats)
        /\ total_access_logs stats = 80
        /\ active_violations stats = 29
        /\ exact_compliance_tenths 80 29 = 638
        /\ compliance_score stats = tenths_float 637
        /\ compliance_score stats = 63.7%float
        /\ tenths_float 638 = 63.8%float
        /\ compliance_score stats <> tenths_float 638).
Proof.
  split.
  - eexists. split; [vm_compute; reflexivity|]. simpl.
    repeat split; try (vm_compute; reflexivity).
    intros E. apply (f_equal Prim2SF) in E. vm_compute in E. discriminate.
  - eexists. split; [vm_compute; reflexivity|]. simpl.
    repeat split; try (vm_compute; reflexivity).
    intros E. apply (f_equal Prim2SF) in E. vm_compute in E. discriminate.
Qed.

(** ** Sorting, skipping and limiting *)

Lemma insert_desc_In {A} (key : A -> Z) (x y : A) (l : list A) :
  In y (insert_desc key x l) <-> y = x \/ In y l.
Proof.
  induction l as [|z l IH]; simpl; [intuition congruence|].
  destruct (key z <=? key x); simpl; rewrite ?IH; intuition congruence.
Qed.

Lemma sort_desc_In {A} (key : A -> Z) (y : A) (l : list A) :
  In y (sort_desc key l) <-> In y l.
Proof.
  induction l as [|x l IH]; simpl; [tauto|].
  rewrite insert_desc_In, IH. intuition congruence.
Qed.

Lemma insert_desc_length {A} (key : A -> Z) (x : A) (l : list A) :
  length (insert_desc key x l) = S (length l).
Proof.
  induction l as [|z l IH]; simpl; [reflexivity|].
  destruct (key z <=? key x); simpl; congruence.
Qed.

Lemma sort_desc_length {A} (key : A -> Z) (l : list A) :
  length (sort_desc key l) = length l.
Proof.
  induction l as [|x l IH]; simpl; [reflexivity|].
  now rewrite insert_desc_length, IH.
Qed.

Lemma filter_length_le {A} (p : A -> bool) (l : list A) :
  (length (List.filter p l) <= length l)%nat.
Proof.
  induction l as [|x l IH]; simpl; [lia|].
  destruct (p x); simpl; lia.
Qed.

(** With no skip and a limit that covers the collection, the documents a
    query returns are the documents that match. *)
Lemma find_sorted_all {A} (p : A -> bool) (key : A -> Z) (docs : list A)
    (s : db) :
  exists found,
    find_sorted p key 0 (Z.of_nat (length docs)) docs s = (s, Ok found)
    /\ forall x, In x found <-> In x docs /\ p x = true.
Proof.
  unfold find_sorted. change (0 <? 0) with false. cbv iota.
  rewrite (proj2 (Z.ltb_ge _ _)) by lia.
  eexists. split; [reflexivity|]. intros x.
  rewrite Nat2Z.id. change (Z.to_nat 0) with 0%nat. rewrite drop_0.
  rewrite take_ge.
  - rewrite sort_desc_In. apply filter_In.
  - rewrite sort_desc_length. apply filter_length_le.
Qed.

(** Claim C10.  For every stored record whose risk score lies in
    [[0, 1]] and every requested level, the numeric band that
    [GET /access-logs] puts into its query holds of the score if and only
    if the classifier maps the score to that level; with no other filter,
    no skip and a limit that covers the collection, the record is among
    the returned ones exactly in that case. *)
Theorem risk_level_filter_agrees (s : db) (lvl : RiskLevel)
    (log : UserAccessLog) :
  In log (access_logs s) ->
  (0 <=? risk_score log)%float = true ->
  (risk_score log <=? 1)%float = true ->
  (risk_score_query lvl (risk_score log) = true
   <-> determine_risk_level (risk_score log) = lvl)
  /\ exists logs,
       get_access_logs (Z.of_nat (length (access_logs s))) 0 false
         (Some lvl) s = (s, Ok logs)
       /\ (In log logs <-> determine_risk_level (risk_score log) = lvl).
Proof.
  intros Hin H0 H1.
  pose proof (risk_score_query_level (risk_score log) lvl H0 H1) as Hq.
  split; [exact Hq|].
  unfold get_access_logs, try_except_Exception, mbind, handler_bind, bind,
    gets.
  destruct (find_sorted_all (access_logs_query false (Some lvl)) access_time
              (access_logs s) s) as (found & -> & Hf).
  exists found. split; [reflexivity|].
  rewrite Hf, <- Hq. unfold access_logs_query. simpl. tauto.
Qed.

(** Claim C10 at a stored record scoring exactly 0.6 and the level high. *)
Lemma risk_level_filter_agrees_witness :
  In (stored_log "L1" "USR001" now0 0.6) (access_logs boundary_db)
  /\ (0 <=? risk_score (stored_log "L1" "USR001" now0 0.6))%float = true
  /\ (risk_score (stored_log "L1" "USR001" now0 0.6) <=? 1)%float = true
  /\ (risk_score_query HIGH (risk_score (stored_log "L1" "USR001" now0 0.6))
      = true
      <-> determine_risk_level (risk_score (stored_log "L1" "USR001" now0 0.6))
          = HIGH)
  /\ exists logs,
       get_access_logs (Z.of_nat (length (access_logs boundary_db))) 0 false
         (Some HIGH) boundary_db = (boundary_db, Ok logs)
       /\ (In (stored_log "L1" "USR001" now0 0.6) logs
           <-> determine_risk_level
                 (risk_score (stored_log "L1" "USR001" now0 0.6)) = HIGH).
Proof.
  assert (In (stored_log "L1" "USR001" now0 0.6) (access_logs boundary_db))
    as Hin by (left; reflexivity).
  split; [exact Hin|].
  split; [vm_compute; reflexivity|].
  split; [vm_compute; reflexivity|].
  apply (risk_level_filter_agrees boundary_db HIGH
           (stored_log "L1" "USR001" now0 0.6) Hin);
    vm_compute; reflexivity.
Defined.

(** ** The risk assessment *)

Lemma filter_nil_iff {A} (p : A -> bool) (l : list A) :
  List.filter p l = [] <-> forall x, In x l -> p x = false.
Proof.
  induction l as [|x l IH]; simpl; [tauto|].
  destruct (p x) eqn:E.
  - split; [discriminate|]. intros H. specialize (H x (or_introl eq_refl)).
    congruence.
  - rewrite IH. split; [intros H y [<-|Hy]; auto|intros H y Hy; auto].
Qed.

Lemma div_eucl_exact (a b : Z) : 0 < b -> Z.div_eucl (a * b) b = (a, 0).
Proof.
  intros Hb.
  pose proof (Z_div_mod (a * b) b ltac:(lia)) as H.
  destruct (Z.div_eucl (a * b) b) as [q r]. destruct H as [H1 H2].
  assert (q = a) by nia. subst q. f_equal. lia.
Qed.

(** Division by [1.0] is exact. *)
Lemma div_1_r (x : float) : (x / 1)%float = x.
Proof.
  apply Prim2SF_inj. rewrite div_spec. unfold SF64div.
  change (Prim2SF 1) with (S754_finite false 4503599627370496 (-52)).
  pose proof (Prim2SF_valid x) as Hv.
  destruct (Prim2SF x) as [s|s| |s m e];
    try (destruct s; reflexivity); try reflexivity.
  simpl in Hv. unfold bounded, canonical_mantissa in Hv.
  apply andb_prop in Hv as [Hc Hb].
  apply Z.eqb_eq in Hc. apply Z.leb_le in Hb.
  pose proof (eq_refl : prec = 53) as Hp.
  pose proof (eq_refl : emax = 1024) as Hx.
  pose proof (eq_refl : emin = -1074) as Hn.
  unfold SFdiv, SFdiv_core_binary.
  change (Zdigits2 (Z.pos m)) with (Z.pos (digits2_pos m)).
  change (Zdigits2 4503599627370496) with 53.
  set (d := Z.pos (digits2_pos m)) in *.
  unfold fexp in Hc.
  assert (Hnl : new_location 4503599627370496 0 = loc_Exact) by reflexivity.
  assert (Hs : xorb s false = s) by (destruct s; reflexivity).
  destruct (Z_lt_le_dec emin (d + e - 53)) as [Hnorm|Hsub].
  - (* normal: the quotient is [2 * m] at [e - 1] *)
    assert (Z.min (fexp prec emax (d + e - (53 + -52))) (e - -52) = e - 1)
      as -> by (unfold fexp; lia).
    replace (e - -52 - (e - 1)) with 53 by lia.
    cbv beta iota zeta.
    rewrite Z.shiftl_mul_pow2 by lia.
    replace (Z.pos m * 2 ^ 53) with (Z.pos m~0 * 4503599627370496) by lia.
    rewrite div_eucl_exact by lia. rewrite Hnl.
    unfold binary_round_aux, shr_fexp.
    change (Zdigits2 (Z.pos m~0)) with (Z.pos (Pos.succ (digits2_pos m))).
    rewrite Pos2Z.inj_succ. fold d.
    replace (fexp prec emax (Z.succ d + (e - 1)) - (e - 1)) with 1
      by (unfold fexp; lia).
    simpl shr. cbn [round_nearest_even loc_of_shr_record shr_r shr_s shr_m].
    change (Zdigits2 (Z.pos m)) with d.
    replace (fexp prec emax (d + (e - 1 + 1)) - (e - 1 + 1)) with 0
      by (unfold fexp; lia).
    simpl shr. cbv beta iota zeta. simpl shr_m.
    replace (e - 1 + 1) with e by lia.
    rewrite (proj2 (Z.leb_le _ _) Hb), Hs. reflexivity.
  - (* subnormal: the quotient is [m] at [e] *)
    assert (Z.min (fexp prec emax (d + e - (53 + -52))) (e - -52) = e)
      as -> by (unfold fexp; lia).
    replace (e - -52 - e) with 52 by lia.
    cbv beta iota zeta.
    rewrite Z.shiftl_mul_pow2 by lia.
    change (2 ^ 52) with 4503599627370496.
    rewrite div_eucl_exact by lia. rewrite Hnl.
    unfold binary_round_aux, shr_fexp.
    change (Zdigits2 (Z.pos m)) with d.
    replace (fexp prec emax (d + e) - e) with 0 by (unfold fexp; lia).
    simpl shr. cbn [round_nearest_even loc_of_shr_record shr_r shr_s shr_m].
    change (Zdigits2 (Z.pos m)) with d.
    replace (fexp prec emax (d + e) - e) with 0 by (unfold fexp; lia).
    simpl shr. cbv beta iota zeta. simpl shr_m.
    rewrite (proj2 (Z.leb_le _ _) Hb), Hs. reflexivity.
Qed.

Lemma add_0_l (x : float) : not_neg_zero x -> (0 + x)%float = x.
Proof.
  unfold not_neg_zero. intros Hx. apply Prim2SF_inj.
  rewrite add_spec, Prim2SF_0.
  destruct (Prim2SF x) as [[]|[]| |s m e]; simpl; congruence.
Qed.

(** Claim C8, as amended.  The bound of the query is the clock less seven
    days with the microseconds below the millisecond dropped, and the
    query has no upper end: the window of a user is the user's records
    with [access_time >= bound], records dated after the request
    included.  The risk-assessment operation answers 404 if and only if
    the window is empty; so a 404 means that the user has no record in
    the trailing seven days, and not the other way round.  Otherwise it
    stores and returns an assessment whose overall score is Python's
    [sum] of the risk scores of the first 100 records of the window, in
    the store's order, divided by their number, both in binary64, and
    whose level is the classifier's level of that score; with at most 100
    records in the window these are all its records, and with a single
    record the score is that record's (a negative zero apart). *)
Theorem risk_assessment_spec (now : datetime) (new_id : string)
    (llm : DataSummary -> option string) (uid : string) (s : db) :
  let bound := bson_datetime (now - timedelta_days 7) in
  let window := List.filter (in_window now uid) (access_logs s) in
  let run := get_user_risk_assessment now new_id llm uid s in
  (status_of run.2 = 404 <-> window = [])
  /\ (window = [] <->
      forall l, In l (access_logs s) -> user_id l = uid ->
                access_time l < bound)
  /\ now - timedelta_days 7 - 1000 < bound <= now - timedelta_days 7
  /\ (status_of run.2 = 404 ->
      forall l, In l (access_logs s) -> in_trailing_window now uid l = false)
  /\ (window = [] ->
      run = (s, Raise (HTTPException 404 "No recent activity found for user")))
  /\ (window <> [] ->
      exists a,
        run = (with_risk_assessments (fun old => old ++ [a]) s, Ok a)
        /\ overall_risk_score a
           = (Py.sum (map risk_score (take 100 window))
              / Py.float_of_len (length (take 100 window)))%float
        /\ risk_level a = determine_risk_level (overall_risk_score a)
        /\ ((length window <= 100)%nat -> take 100 window = window)
        /\ (forall l, window = [l] -> not_neg_zero (risk_score l) ->
              overall_risk_score a = risk_score l)).
Proof.
  intros bound window run.
  assert (Hnil : window = [] ->
    run = (s, Raise (HTTPException 404 "No recent activity found for user"))).
  { intros Hw. unfold run, get_user_risk_assessment,
      try_except_HTTPException_Exception, mbind, handler_bind, bind, gets.
    unfold recent_user_logs. fold (in_window now uid). fold window.
    rewrite Hw. reflexivity. }
  assert (Hcons : window <> [] ->
    exists a,
      run = (with_risk_assessments (fun old => old ++ [a]) s, Ok a)
      /\ overall_risk_score a
         = (Py.sum (map risk_score (take 100 window))
            / Py.float_of_len (length (take 100 window)))%float
      /\ risk_level a = determine_risk_level (overall_risk_score a)).
  { intros Hw. unfold run, get_user_risk_assessment,
      try_except_HTTPException_Exception, mbind, handler_bind, bind, gets.
    unfold recent_user_logs. fold (in_window now uid). fold window.
    destruct window as [|l w]; [contradiction|].
    change (take 100 (l :: w)) with (l :: take 99 w).
    cbv beta iota zeta.
    eexists. split; [reflexivity|]. split; reflexivity. }
  assert (H404 : status_of run.2 = 404 <-> window = []).
  { split.
    - intros H4. destruct window as [|l w] eqn:E; [reflexivity|].
      destruct Hcons as (a & Ha & _); [discriminate|].
      unfold run in H4. fold run in H4. rewrite Ha in H4. discriminate.
    - intros Hw. rewrite (Hnil Hw). reflexivity. }
  assert (Hempty : window = [] <->
      forall l, In l (access_logs s) -> user_id l = uid ->
                access_time l < bound).
  { unfold window. rewrite filter_nil_iff. unfold in_window. fold bound.
    split; intros H l Hl.
    - intros Hu. specialize (H l Hl).
      rewrite (proj2 (String.eqb_eq _ _) Hu) in H. simpl in H.
      now apply Z.leb_gt in H.
    - destruct (String.eqb_spec (user_id l) uid) as [Hu|]; [|reflexivity].
      simpl. apply Z.leb_gt. now apply H. }
  assert (Hbound : now - timedelta_days 7 - 1000 < bound
                   <= now - timedelta_days 7).
  { unfold bound, bson_datetime.
    pose proof (Z.mod_pos_bound (now - timedelta_days 7) 1000 ltac:(lia)).
    lia. }
  split; [exact H404|]. split; [exact Hempty|]. split; [exact Hbound|].
  split; [|split].
  - intros H4 l Hl.
    pose proof (proj1 Hempty (proj1 H404 H4)) as Hall.
    unfold in_trailing_window.
    destruct (String.eqb_spec (user_id l) uid) as [Hu|]; [|reflexivity].
    specialize (Hall l Hl Hu). simpl.
    rewrite (proj2 (Z.leb_gt _ _)) by lia. reflexivity.
  - exact Hnil.
  - intros Hw. destruct (Hcons Hw) as (a & Ha & Hm & Hl).
    exists a. split; [exact Ha|]. split; [exact Hm|]. split; [exact Hl|].
    split.
    + intros Hlen. apply take_ge. exact Hlen.
    + intros l Hone Hnz. rewrite Hm, Hone.
      change (take 100 [l]) with [l]. unfold Py.sum. simpl.
      change (Py.float_of_len 1) with 1%float.
      rewrite add_0_l by exact Hnz. apply div_1_r.
Qed.

(** Claim C8 as stated fails in four ways.  A record dated after the
    request, or dated less than a millisecond before the trailing seven
    days begin, lies outside the trailing window and is yet assessed: the
    answer is 200, not 404.  Of 101 records in the window the handler
    reads 100, all scoring 0, and reports 0.0, which is not the mean of
    the 101 scores.  And ten records that all score 0.6 have the mean 0.6,
    of level high, but their binary64 sum from the left is
    5.999999999999999: the handler reports 0.5999999999999999 and the
    level medium. *)
Lemma risk_assessment_not_the_mean :
  (List.filter (in_trailing_window now0 "USR001") (access_logs future_db)
   = []
   /\ status_of
        (get_user_risk_assessment now0 "A1" (fun _ => None) "USR001"
           future_db).2 = 200)
  /\ (List.filter (in_trailing_window late_clock "USR001")
        (access_logs edge_db) = []
      /\ status_of
           (get_user_risk_assessment late_clock "A1" (fun _ => None)
              "USR001" edge_db).2 = 200)
  /\ (length
        (List.filter (in_trailing_window now0 "USR001")
           (access_logs crowded_db)) = 101%nat
      /\ exists a,
           (get_user_risk_assessment now0 "A1" (fun _ => None) "USR001"
              crowded_db).2 = Ok a
           /\ overall_risk_score a = 0%float
           /\ is_arithmetic_mean (overall_risk_score a)
                (map risk_score
                   (List.filter (in_trailing_window now0 "USR001")
                      (access_logs crowded_db))) = false)
  /\ (length
        (List.filter (in_trailing_window now0 "USR001")
           (access_logs even_db)) = 10%nat
      /\ is_arithmetic_mean 0.6
           (map risk_score
              (List.filter (in_trailing_window now0 "USR001")
                 (access_logs even_db))) = true
      /\ determine_risk_level 0.6 = HIGH
      /\ exists a,
           (get_user_risk_assessment now0 "A1" (fun _ => None) "USR001"
              even_db).2 = Ok a
           /\ overall_risk_score a = 0.5999999999999999%float
           /\ risk_level a = MEDIUM
           /\ is_arithmetic_mean (overall_risk_score a)
                (map risk_score
                   (List.filter (in_trailing_window now0 "USR001")
                      (access_logs even_db))) = false).
Proof.
  split; [split; vm_compute; reflexivity|].
  split; [split; vm_compute; reflexivity|].
  split.
  - split; [vm_compute; reflexivity|].
    eexists. split; [vm_compute; reflexivity|]. simpl.
    split; vm_compute; reflexivity.
  - split; [vm_compute; reflexivity|].
    split; [vm_compute; reflexivity|].
    split; [vm_compute; reflexivity|].
    eexists. split; [vm_compute; reflexivity|]. simpl.
    split; [vm_compute; reflexivity|].
    split; vm_compute; reflexivity.
Qed.

(* ===================================================================== *)
(** * Which handlers write *)
(* ===================================================================== *)

Lemma find_sorted_state {A} (p : A -> bool) (key : A -> Z) (skip limit : Z)
    (docs : list A) (s : db) :
  (find_sorted p key skip limit docs s).1 = s.
Proof.
  unfold find_sorted. destruct (skip <? 0), (limit <? 0); reflexivity.
Qed.

Lemma try_except_Exception_state {A} (body : handler A)
    (detail : exn -> string) (s : db) :
  (try_except_Exception body detail s).1 = (body s).1.
Proof.
  unfold try_except_Exception. destruct (body s) as [s' []]; reflexivity.
Qed.

(** The reading routes leave the store as it is. *)
Lemma reading_routes_keep_store (now : datetime) (limit skip : Z)
    (flag : bool) (lvl : option RiskLevel) (req : gmap string json) (s : db) :
  (get_dashboard_stats now s).1 = s
  /\ (get_access_logs limit skip flag lvl s).1 = s
  /\ (get_violations limit flag s).1 = s
  /\ (execute_sql_query req s).1 = s.
Proof.
  split; [|split; [|split]].
  - reflexivity.
  - unfold get_access_logs. rewrite try_except_Exception_state.
    apply find_sorted_state.
  - unfold get_violations. rewrite try_except_Exception_state.
    apply find_sorted_state.
  - unfold execute_sql_query. rewrite try_except_Exception_state.
    unfold mbind, handler_bind, bind, gets.
    repeat match goal with
    | |- context [if ?b then _ else _] => destruct b
    end;
    match goal with
    | |- context [find_sorted ?p ?k ?sk ?li ?d s] =>
        pose proof (find_sorted_state p k sk li d s) as Hs;
        destruct (find_sorted p k sk li d s) as [s' []]; simpl in *;
        now subst
    | |- _ => reflexivity
    end.
Qed.

(** The assessment route writes its own collection only. *)
Lemma risk_assessment_keeps_violations (now : datetime) (new_id : string)
    (llm : DataSummary -> option string) (uid : string) (s : db) :
  violations (get_user_risk_assessment now new_id llm uid s).1
  = violations s
  /\ access_logs (get_user_risk_assessment now new_id llm uid s).1
     = access_logs s.
Proof.
  unfold get_user_risk_assessment, try_except_HTTPException_Exception,
    mbind, handler_bind, bind, gets.
  destruct (recent_user_logs now uid (access_logs s)); split; reflexivity.
Qed.

Lemma generate_logs_unresolved (now : datetime) (draws : list Draw) :
  forall logs vs, generate_logs now draws = Some (logs, vs) ->
    length logs = length draws
    /\ (length vs <= length logs)%nat
    /\ Forall (fun v => resolved v = false) vs.
Proof.
  induction draws as [|d draws IH]; simpl; intros logs vs H.
  - injection H as <- <-. split; [reflexivity|].
    split; [simpl; lia|constructor].
  - destruct (generate_log now d) as [[log v]|] eqn:Hg; [|discriminate].
    destruct (generate_logs now draws) as [[logs' vs']|]; [|discriminate].
    injection H as <- <-.
    destruct (IH _ _ eq_refl) as (Hl & Hle & Hall).
    destruct (generate_log_inv _ _ _ _ Hg) as (_ & _ & _ & Hv).
    destruct (is_violation log).
    + destruct Hv as (_ & v' & -> & _ & _ & _ & Hr).
      simpl. split; [lia|]. split; [lia|]. now constructor.
    + destruct Hv as (_ & ->). simpl. split; [lia|]. split; [lia|].
      assumption.
Qed.

(** Regeneration replaces the collections: one log per draw, at most one
    violation per log, every violation unresolved. *)
Lemma generate_sample_data_fresh (now : datetime) (draws : list Draw)
    (s : db) :
  Forall (fun d => valid_draw d = true) draws ->
  exists logs vs,
    generate_sample_data_endpoint now draws s
    = ({| access_logs := logs; violations := vs; risk_assessments := [] |},
       Ok (Z.of_nat (length logs), Z.of_nat (length vs)))
    /\ length logs = length draws
    /\ (length vs <= length logs)%nat
    /\ Forall (fun v => resolved v = false) vs.
Proof.
  intros Hd.
  assert (exists logs vs, generate_logs now draws = Some (logs, vs))
    as (logs & vs & Hg).
  { induction Hd as [|d draws Hv _ IH]; simpl; [eauto|].
    destruct (generate_log_total now d Hv) as (log & v & ->).
    destruct IH as (logs & vs & ->). eauto. }
  exists logs, vs. split; [|exact (generate_logs_unresolved _ _ _ _ Hg)].
  unfold generate_sample_data_endpoint, generate_sample_data,
    try_except_Exception, mbind, handler_bind, bind, modify.
  simpl. rewrite Hg. reflexivity.
Qed.

(* ===================================================================== *)
(** * The generator's records *)
(* ===================================================================== *)

Lemma between_spec (lo hi x : Z) : between lo hi x = true <-> lo <= x <= hi.
Proof. unfold between. rewrite andb_true_iff, !Z.leb_le. tauto. Qed.

Lemma valid_draw_ranges (d : Draw) :
  valid_draw d = true ->
  0 <= d_days d <= 30
  /\ 0 <= d_hour d < 24
  /\ 0 <= d_minute d < 60
  /\ match d_access_result d with
     | FAILED => 1 <= d_attempts d <= 5
     | SUSPICIOUS => 3 <= d_attempts d <= 8
     | SUCCESS => True
     end
  /\ (d_privilege d = true -> (1 <= length (d_sample d) <= 2)%nat)
  /\ 5 <= d_session d <= 240.
Proof.
  unfold valid_draw. rewrite !andb_true_iff, !between_spec.
  intros ((((((((_ & _) & _) & Hdays) & Hhour) & Hmin) & Hatt) & Hpriv)
          & Hsess).
  split; [exact Hdays|]. split; [|split; [lia|split; [|split; [|exact Hsess]]]].
  - destruct (d_business d).
    + apply between_spec in Hhour. lia.
    + unfold mem_Z, off_hours_choices in Hhour. simpl in Hhour.
      repeat (apply orb_prop in Hhour as [Hhour|Hhour];
              [apply Z.eqb_eq in Hhour; lia|]).
      discriminate.
  - destruct (d_access_result d); [exact I| |];
      apply between_spec in Hatt; exact Hatt.
  - intros Hp. rewrite Hp in Hpriv.
    rewrite !andb_true_iff, between_spec in Hpriv. lia.
Qed.

Lemma dt_replace_span (t h m : Z) :
  0 <= h < 24 -> 0 <= m < 60 ->
  t - us_per_day < dt_replace_hour_minute t h m < t + us_per_day.
Proof.
  intros Hh Hm. unfold dt_replace_hour_minute, us_per_day, us_per_hour,
    us_per_minute.
  pose proof (Z.mod_pos_bound t 86400000000 ltac:(lia)).
  pose proof (Z.mod_pos_bound t 60000000 ltac:(lia)).
  lia.
Qed.

(** Property X1.  Every iteration of the generator's loop whose random
    draws lie in the generator's tables and ranges yields a record with a
    risk score in [[0, 1]], between 0 and 8 failed attempts, at most two
    privilege changes, the drawn hour as the hour of its access time, and
    an access time less than 31 days before and less than one day after
    the clock; the record has a session duration exactly when the access
    succeeded, and a successful access has no failed attempts. *)
Theorem generated_record_ranges (now : datetime) (d : Draw) :
  valid_draw d = true ->
  exists log v,
    generate_log now d = Some (log, v)
    /\ (0 <=? risk_score log)%float = true
    /\ (risk_score log <=? 1)%float = true
    /\ 0 <= failed_attempts log <= 8
    /\ (length (privilege_changes log) <= 2)%nat
    /\ dt_hour (access_time log) = d_hour d
    /\ now - timedelta_days 31 < access_time log < now + timedelta_days 1
    /\ (access_result log = SUCCESS <->
        session_duration_minutes log <> None)
    /\ (access_result log = SUCCESS -> failed_attempts log = 0).
Proof.
  intros Hd. destruct (generate_log_total now d Hd) as (log & v & Hg).
  exists log, v. split; [exact Hg|].
  destruct (valid_draw_ranges d Hd) as (Hdays & Hh & Hm & Hfa & Hp & Hs).
  destruct (generate_log_inv _ _ _ _ Hg) as (Hsc & Hat & _ & _).
  destruct (generate_log_fields _ _ _ _ Hg) as (Hr & Hf & Hpc & Hse & _).
  assert (0 <= failed_attempts log <= 8) as Hfa'.
  { rewrite Hf. destruct (d_access_result d); lia. }
  assert (Z.abs (failed_attempts log) < 2 ^ 899) as Hsmall.
  { assert (2 ^ 4 <= 2 ^ 899) by (apply Z.pow_le_mono_r; lia). lia. }
  rewrite (calculate_risk_score_total log Hsmall) in Hsc.
  injection Hsc as Hsc.
  assert ((0 <=? risk_score log)%float = true
          /\ (risk_score log <=? 1)%float = true) as [H0 H1].
  { rewrite <- Hsc. apply min_1_range, fnonneg_formula_sum.
    apply fnonneg_float_of_Z. lia. }
  split; [exact H0|]. split; [exact H1|]. split; [exact Hfa'|].
  split; [|split; [|split; [|split]]].
  - rewrite Hpc. destruct (d_privilege d); [|simpl; lia].
    now apply Hp.
  - rewrite Hat. now apply dt_hour_replace.
  - rewrite Hat.
    pose proof (dt_replace_span (now - timedelta_days (d_days d))
                  (d_hour d) (d_minute d) Hh Hm) as Hspan.
    unfold timedelta_days in *. unfold us_per_day in *. lia.
  - rewrite Hr, Hse. destruct (d_access_result d); split;
      congruence.
  - rewrite Hr, Hf. intros ->. reflexivity.
Qed.

(** Property X1 at the draw of two failed attempts at 10:30. *)
Lemma generated_record_ranges_witness :
  valid_draw failed_draw = true
  /\ exists log v,
       generate_log now0 failed_draw = Some (log, v)
       /\ (0 <=? risk_score log)%float = true
       /\ (risk_score log <=? 1)%float = true
       /\ 0 <= failed_attempts log <= 8
       /\ (length (privilege_changes log) <= 2)%nat
       /\ dt_hour (access_time log) = d_hour failed_draw
       /\ now0 - timedelta_days 31 < access_time log
          < now0 + timedelta_days 1
       /\ (access_result log = SUCCESS <->
           session_duration_minutes log <> None)
       /\ (access_result log = SUCCESS -> failed_attempts log = 0).
Proof.
  split; [vm_compute; reflexivity|].
  apply (generated_record_ranges now0 failed_draw).
  vm_compute. reflexivity.
Defined.

(** The scores the generator's ranges allow, by enumeration. *)
Lemma generated_scores (log : UserAccessLog) (s : float) :
  0 <= failed_attempts log <= 8 ->
  (length (privilege_changes log) <= 2)%nat ->
  calculate_risk_score log = Some s ->
  (access_result log = SUSPICIOUS -> 3 <= failed_attempts log -> s = 1%float)
  /\ (access_result log = FAILED -> 1 <= failed_attempts log ->
      (0.6 <? s)%float = true)
  /\ (access_result log = SUCCESS -> failed_attempts log = 0 ->
      privilege_changes log = [] ->
      (s <=? 0.5)%float = true /\ (0.6 <? s)%float = false).
Proof.
  intros Hfa Hlen Hsc. unfold calculate_risk_score in Hsc.
  assert (failed_attempts log = 0 \/ failed_attempts log = 1
          \/ failed_attempts log = 2 \/ failed_attempts log = 3
          \/ failed_attempts log = 4 \/ failed_attempts log = 5
          \/ failed_attempts log = 6 \/ failed_attempts log = 7
          \/ failed_attempts log = 8) as Hcase by lia.
  destruct (privilege_changes log) as [|c1 [|c2 [|c3 pcs]]];
    simpl in Hlen; try lia;
    destruct (access_result log);
    destruct (off_hours (dt_hour (access_time log)));
    destruct (5 <=? dt_weekday (access_time log));
    repeat (destruct Hcase as [Hcase|Hcase]);
    rewrite Hcase in *; vm_compute in Hsc; injection Hsc as <-;
    (split; [|split]); intros; try lia; try discriminate;
    try split; vm_compute; reflexivity.
Qed.

(** What a valid draw leaves to know about a record, for the two
    properties that follow. *)
Lemma generated_record_facts (now : datetime) (d : Draw) (log : UserAccessLog)
    (v : option AccessViolation) :
  valid_draw d = true ->
  generate_log now d = Some (log, v) ->
  dt_hour (access_time log) = d_hour d
  /\ (access_result log = SUSPICIOUS ->
      3 <= failed_attempts log /\ risk_score log = 1%float)
  /\ (access_result log = FAILED ->
      1 <= failed_attempts log /\ (0.6 <? risk_score log)%float = true)
  /\ (access_result log = SUCCESS ->
      failed_attempts log = 0
      /\ (privilege_changes log = [] ->
          (risk_score log <=? 0.5)%float = true
          /\ (0.6 <? risk_score log)%float = false)).
Proof.
  intros Hd Hg.
  destruct (valid_draw_ranges d Hd) as (_ & Hh & Hm & Hfa & Hp & _).
  destruct (generate_log_inv _ _ _ _ Hg) as (Hsc & Hat & _ & _).
  destruct (generate_log_fields _ _ _ _ Hg) as (Hr & Hf & Hpc & _).
  assert (length (privilege_changes log) <= 2)%nat as Hlen.
  { rewrite Hpc. destruct (d_privilege d); [|simpl; lia]. now apply Hp. }
  assert (0 <= failed_attempts log <= 8) as Hrange
    by (rewrite Hf; destruct (d_access_result d); lia).
  destruct (generated_scores log _ Hrange Hlen Hsc) as (Hsus & Hfail & Hok).
  assert (access_result log = SUSPICIOUS -> 3 <= failed_attempts log) as H3
    by (rewrite Hr, Hf; intros E; rewrite E in *; lia).
  assert (access_result log = FAILED -> 1 <= failed_attempts log) as H1
    by (rewrite Hr, Hf; intros E; rewrite E in *; lia).
  assert (access_result log = SUCCESS -> failed_attempts log = 0) as H0
    by (rewrite Hr, Hf; intros E; rewrite E; reflexivity).
  split; [rewrite Hat; now apply dt_hour_replace|].
  split; [|split]; intros E; (split; [auto|auto]).
Qed.

(** Property X2.  On the generator's ranges the violation flag follows
    from the outcome of the access alone: a record is flagged exactly when
    the access did not succeed or privileges changed.  Every suspicious
    access scores exactly 1.0 and its violation has severity critical,
    every failed access scores above 0.6, and a successful access without
    privilege changes scores at most 0.5. *)
Theorem generated_flag_by_result (now : datetime) (d : Draw) :
  valid_draw d = true ->
  exists log v,
    generate_log now d = Some (log, v)
    /\ (is_violation log = true <->
        access_result log <> SUCCESS \/ privilege_changes log <> [])
    /\ (access_result log = SUSPICIOUS ->
        risk_score log = 1%float
        /\ exists v', v = Some v' /\ severity v' = CRITICAL)
    /\ (access_result log = FAILED ->
        (0.6 <? risk_score log)%float = true)
    /\ (access_result log = SUCCESS -> privilege_changes log = [] ->
        (risk_score log <=? 0.5)%float = true).
Proof.
  intros Hd. destruct (generate_log_total now d Hd) as (log & v & Hg).
  exists log, v. split; [exact Hg|].
  destruct (generated_record_facts now d log v Hd Hg)
    as (_ & Hsus & Hfail & Hok).
  destruct (generate_log_inv _ _ _ _ Hg) as (_ & _ & Hv & Hty).
  assert (Hflag : is_violation log = true <->
          access_result log <> SUCCESS \/ privilege_changes log <> []).
  { rewrite Hv. rewrite violation_rule_spec. split.
    - intros [H6|[H|[H|H]]].
      + destruct (access_result log) eqn:E; try (left; discriminate).
        destruct (privilege_changes log) eqn:Epc; [|right; discriminate].
        destruct (Hok eq_refl) as [_ Hlow].
        destruct (Hlow eq_refl) as [_ Hn]. congruence.
      + left. intros E. destruct (Hok E) as [H0 _]. lia.
      + now right.
      + left. congruence.
    - intros [H|H]; [|tauto].
      destruct (access_result log) eqn:E; [congruence| |tauto].
      left. now apply Hfail. }
  split; [exact Hflag|]. split; [|split].
  - intros E. destruct (Hsus E) as [_ Hone]. split; [exact Hone|].
    assert (is_violation log = true) as Hiv
      by (apply Hflag; left; congruence).
    rewrite Hiv in Hty. destruct Hty as (_ & v' & -> & _ & _ & Hsev & _).
    exists v'. split; [reflexivity|]. rewrite Hsev, Hone.
    vm_compute. reflexivity.
  - intros E. now apply Hfail.
  - intros E Epc. destruct (Hok E) as [_ Hlow]. now apply Hlow.
Qed.

(** Property X2 at the draw of two failed attempts at 10:30. *)
Lemma generated_flag_by_result_witness :
  valid_draw failed_draw = true
  /\ exists log v,
       generate_log now0 failed_draw = Some (log, v)
       /\ (is_violation log = true <->
           access_result log <> SUCCESS \/ privilege_changes log <> [])
       /\ (access_result log = SUSPICIOUS ->
           risk_score log = 1%float
           /\ exists v', v = Some v' /\ severity v' = CRITICAL)
       /\ (access_result log = FAILED ->
           (0.6 <? risk_score log)%float = true)
       /\ (access_result log = SUCCESS -> privilege_changes log = [] ->
           (risk_score log <=? 0.5)%float = true).
Proof.
  split; [vm_compute; reflexivity|].
  apply (generated_flag_by_result now0 failed_draw).
  vm_compute. reflexivity.
Defined.

(** Property X3.  On the generator's ranges the violation type of a
    record is decided by its fields: no type exactly for a successful
    access without privilege changes; privilege escalation exactly when
    privileges changed; otherwise failed authentication exactly for more
    than 3 failed attempts, unusual activity exactly for a suspicious
    access with 3 failed attempts, and for a failed access with at most 3
    failed attempts unauthorized access outside the hours 7 to 19 and
    segregation-of-duty conflict inside them. *)
Theorem generated_violation_types (now : datetime) (d : Draw) :
  valid_draw d = true ->
  exists log v,
    generate_log now d = Some (log, v)
    /\ (violation_type log = None <->
        access_result log = SUCCESS /\ privilege_changes log = [])
    /\ (violation_type log = Some PRIVILEGE_ESCALATION <->
        privilege_changes log <> [])
    /\ (violation_type log = Some FAILED_AUTHENTICATION <->
        privilege_changes log = [] /\ 3 < failed_attempts log)
    /\ (violation_type log = Some UNUSUAL_ACTIVITY <->
        privilege_changes log = [] /\ access_result log = SUSPICIOUS
        /\ failed_attempts log = 3)
    /\ (violation_type log = Some UNAUTHORIZED_ACCESS <->
        privilege_changes log = [] /\ access_result log = FAILED
        /\ failed_attempts log <= 3
        /\ (dt_hour (access_time log) < 7 \/ 19 < dt_hour (access_time log)))
    /\ (violation_type log = Some SEGREGATION_DUTY_CONFLICT <->
        privilege_changes log = [] /\ access_result log = FAILED
        /\ failed_attempts log <= 3
        /\ 7 <= dt_hour (access_time log) <= 19).
Proof.
  intros Hd. destruct (generate_log_total now d Hd) as (log & v & Hg).
  exists log, v. split; [exact Hg|].
  destruct (generated_record_facts now d log v Hd Hg)
    as (Hhour & Hsus & Hfail & Hok).
  destruct (generate_log_inv _ _ _ _ Hg) as (_ & _ & Hv & Hty).
  rewrite Hhour. rewrite Hv in Hty. clear Hv Hg Hd Hhour.
  unfold violation_rule, violation_type_rule, off_hours in Hty.
  destruct (privilege_changes log) as [|c pcs] eqn:Epc;
    destruct (access_result log) eqn:Er;
    try (destruct (Hok eq_refl) as [H0 Hlow];
         try (destruct (Hlow eq_refl) as [_ Hlow']; rewrite Hlow' in Hty));
    try (destruct (Hfail eq_refl) as [H1 Hhigh]; rewrite Hhigh in Hty);
    try (destruct (Hsus eq_refl) as [H3 _]);
    simpl in Hty;
    repeat match type of Hty with
    | context [?a <? ?b] => destruct (Z.ltb_spec a b)
    | context [(?a <? ?b)%float] => destruct (a <? b)%float
    end; simpl in Hty;
    try (destruct Hty as [Hty _]); rewrite Hty;
    repeat split; intros; try discriminate; try congruence; try lia;
    repeat match goal with
    | H : _ /\ _ |- _ => destruct H
    end; try congruence; try lia.
Qed.

(** Property X3 at the draw of two failed attempts at 10:30. *)
Lemma generated_violation_types_witness :
  valid_draw failed_draw = true
  /\ exists log v,
       generate_log now0 failed_draw = Some (log, v)
       /\ (violation_type log = None <->
           access_result log = SUCCESS /\ privilege_changes log = [])
       /\ (violation_type log = Some PRIVILEGE_ESCALATION <->
           privilege_changes log <> [])
       /\ (violation_type log = Some FAILED_AUTHENTICATION <->
           privilege_changes log = [] /\ 3 < failed_attempts log)
       /\ (violation_type log = Some UNUSUAL_ACTIVITY <->
           privilege_changes log = [] /\ access_result log = SUSPICIOUS
           /\ failed_attempts log = 3)
       /\ (violation_type log = Some UNAUTHORIZED_ACCESS <->
           privilege_changes log = [] /\ access_result log = FAILED
           /\ failed_attempts log <= 3
           /\ (dt_hour (access_time log) < 7
               \/ 19 < dt_hour (access_time log)))
       /\ (violation_type log = Some SEGREGATION_DUTY_CONFLICT <->
           privilege_changes log = [] /\ access_result log = FAILED
           /\ failed_attempts log <= 3
           /\ 7 <= dt_hour (access_time log) <= 19).
Proof.
  split; [vm_compute; reflexivity|].
  apply (generated_violation_types now0 failed_draw).
  vm_compute. reflexivity.
Defined.

(** ** Regeneration *)

Lemma generate_logs_violations (now : datetime) (draws : list Draw) :
  forall logs vs, generate_logs now draws = Some (logs, vs) ->
    Forall2 violation_of (List.filter is_violation logs) vs.
Proof.
  induction draws as [|d draws IH]; simpl; intros logs vs H.
  - injection H as <- <-. constructor.
  - destruct (generate_log now d) as [[log v]|] eqn:Hg; [|discriminate].
    destruct (generate_logs now draws) as [[logs' vs']|]; [|discriminate].
    injection H as <- <-. specialize (IH _ _ eq_refl).
    destruct (generate_log_inv _ _ _ _ Hg) as (_ & _ & _ & Hv).
    simpl. destruct (is_violation log).
    + destruct Hv as (_ & v' & -> & H1 & H2 & H3 & H4).
      constructor; [repeat split; assumption|exact IH].
    + destruct Hv as (_ & ->). exact IH.
Qed.

(** Property X4.  Generating sample data with draws inside the
    generator's ranges succeeds whatever the store held: it replaces the
    access logs by one record per draw, in the order of the draws, empties
    the risk assessments, and replaces the violations by one unresolved
    document for each flagged record, in the same order, that names the
    record, repeats its violation type and carries the classifier's level
    of its score as severity; the two counts it returns are the sizes of
    the two collections. *)
Theorem generate_sample_data_regenerates (now : datetime)
    (draws : list Draw) (s : db) :
  Forall (fun d => valid_draw d = true) draws ->
  exists logs vs,
    generate_sample_data_endpoint now draws s
    = ({| access_logs := logs; violations := vs; risk_assessments := [] |},
       Ok (Z.of_nat (length logs), Z.of_nat (length vs)))
    /\ length logs = length draws
    /\ Forall2 violation_of (List.filter is_violation logs) vs.
Proof.
  intros Hd.
  destruct (generate_sample_data_fresh now draws s Hd)
    as (logs & vs & Hrun & Hlen & _).
  exists logs, vs. split; [exact Hrun|]. split; [exact Hlen|].
  apply (generate_logs_violations now draws).
  revert Hrun.
  unfold generate_sample_data_endpoint, generate_sample_data,
    try_except_Exception, mbind, handler_bind, bind, modify.
  simpl. destruct (generate_logs now draws) as [[logs' vs']|]; simpl.
  - intros [= <- <-]. reflexivity.
  - discriminate.
Qed.

(** Property X4 at a single draw, on a store that holds other data. *)
Lemma generate_sample_data_regenerates_witness :
  Forall (fun d => valid_draw d = true) [failed_draw]
  /\ exists logs vs,
       generate_sample_data_endpoint now0 [failed_draw] outnumbered_db
       = ({| access_logs := logs; violations := vs;
             risk_assessments := [] |},
          Ok (Z.of_nat (length logs), Z.of_nat (length vs)))
       /\ length logs = length [failed_draw]
       /\ Forall2 violation_of (List.filter is_violation logs) vs.
Proof.
  assert (Forall (fun d => valid_draw d = true) [failed_draw]) as H
    by (constructor; [vm_compute; reflexivity|constructor]).
  split; [exact H|].
  apply (generate_sample_data_regenerates now0 [failed_draw] outnumbered_db H).
Defined.

(* ===================================================================== *)
(** * The dashboard's counters *)
(* ===================================================================== *)

Lemma get_dashboard_stats_run (now : datetime) (s : db) :
  exists stats,
    get_dashboard_stats now s = (s, Ok stats)
    /\ total_access_logs stats = Z.of_nat (length (access_logs s))
    /\ active_violations stats
       = count_documents (fun v => negb (resolved v)) (violations s)
    /\ high_risk_users stats
       = Z.of_nat (size (high_risk_user_ids (access_logs s))).
Proof.
  unfold get_dashboard_stats, try_except_Exception, mbind, handler_bind,
    bind, gets, mret, handler_ret, ret.
  cbv beta iota zeta. rewrite count_documents_all.
  eexists. split; [reflexivity|]. split; [reflexivity|].
  split; reflexivity.
Qed.

Lemma filter_all {A} (p : A -> bool) (l : list A) :
  Forall (fun x => p x = true) l -> List.filter p l = l.
Proof.
  induction 1 as [|x l Hx _ IH]; simpl; [reflexivity|].
  now rewrite Hx, IH.
Qed.

(** Property X5.  Right after sample data was generated from draws inside
    the generator's ranges, the dashboard reports as total access logs and
    as active violations the two counts the generation returned: one log
    per draw, and at most as many violations as logs. *)
Theorem generation_then_dashboard (now now' : datetime) (draws : list Draw)
    (s : db) :
  Forall (fun d => valid_draw d = true) draws ->
  exists logs_generated violations_generated s1 stats,
    generate_sample_data_endpoint now draws s
    = (s1, Ok (logs_generated, violations_generated))
    /\ get_dashboard_stats now' s1 = (s1, Ok stats)
    /\ total_access_logs stats = logs_generated
    /\ active_violations stats = violations_generated
    /\ logs_generated = Z.of_nat (length draws)
    /\ 0 <= violations_generated <= logs_generated.
Proof.
  intros Hd.
  destruct (generate_sample_data_fresh now draws s Hd)
    as (logs & vs & Hrun & Hlen & Hle & Hun).
  destruct (get_dashboard_stats_run now'
              {| access_logs := logs; violations := vs;
                 risk_assessments := [] |})
    as (stats & Hst & Ht & Ha & _).
  simpl in Ht, Ha.
  exists (Z.of_nat (length logs)), (Z.of_nat (length vs)),
    {| access_logs := logs; violations := vs; risk_assessments := [] |},
    stats.
  split; [exact Hrun|]. split; [exact Hst|]. split; [exact Ht|].
  split; [|split; [now rewrite Hlen|lia]].
  rewrite Ha. unfold count_documents. rewrite filter_all; [reflexivity|].
  eapply Forall_impl; [|exact Hun]. intros v ->. reflexivity.
Qed.

(** Property X5 at a single draw. *)
Lemma generation_then_dashboard_witness :
  Forall (fun d => valid_draw d = true) [failed_draw]
  /\ exists logs_generated violations_generated s1 stats,
       generate_sample_data_endpoint now0 [failed_draw] empty_db
       = (s1, Ok (logs_generated, violations_generated))
       /\ get_dashboard_stats now0 s1 = (s1, Ok stats)
       /\ total_access_logs stats = logs_generated
       /\ active_violations stats = violations_generated
       /\ logs_generated = Z.of_nat (length [failed_draw])
       /\ 0 <= violations_generated <= logs_generated.
Proof.
  assert (Forall (fun d => valid_draw d = true) [failed_draw]) as H
    by (constructor; [vm_compute; reflexivity|constructor]).
  split; [exact H|].
  apply (generation_then_dashboard now0 now0 [failed_draw] empty_db H).
Defined.

(** ** High-risk users are counted once *)

Lemma elem_of_high_risk_user_ids (uid : string) (logs : list UserAccessLog) :
  uid ∈ high_risk_user_ids logs <->
  exists l, In l logs /\ user_id l = uid
            /\ (0.6 <? risk_score l)%float = true.
Proof.
  unfold high_risk_user_ids. rewrite elem_of_list_to_set, list_elem_of_In.
  rewrite in_map_iff. split.
  - intros (l & Hu & Hl). apply filter_In in Hl as [Hl Hs]. eauto.
  - intros (l & Hl & Hu & Hs). exists l. split; [exact Hu|].
    apply filter_In. auto.
Qed.

Lemma high_risk_user_ids_app (logs : list UserAccessLog) (l : UserAccessLog) :
  high_risk_user_ids (logs ++ [l])
  = if (0.6 <? risk_score l)%float
    then high_risk_user_ids logs ∪ {[ user_id l ]}
    else high_risk_user_ids logs.
Proof.
  unfold high_risk_user_ids. rewrite filter_app, map_app. simpl.
  destruct (0.6 <? risk_score l)%float; simpl.
  - rewrite list_to_set_app_L. simpl. f_equal. set_solver.
  - now rewrite app_nil_r.
Qed.

Lemma size_list_to_set_le (l : list string) :
  (size (list_to_set l : gset string) <= length l)%nat.
Proof.
  induction l as [|x l IH].
  - rewrite list_to_set_nil, size_empty. simpl. lia.
  - rewrite list_to_set_cons, size_union_alt, size_singleton. simpl.
    pose proof (subseteq_size (list_to_set l ∖ {[x]})
                  (list_to_set l : gset string)) as Hs.
    specialize (Hs ltac:(set_solver)). lia.
Qed.

(** Property X6.  The dashboard counts high-risk users, not high-risk
    records: storing one more access log raises the total by one, and
    raises the number of high-risk users by one exactly when the record
    scores above 0.6 and no stored record of the same user does so
    already; the number of high-risk users never exceeds the total. *)
Theorem high_risk_users_counts_users (now : datetime) (s : db)
    (l : UserAccessLog) :
  let known :=
    existsb
      (fun l' => String.eqb (user_id l') (user_id l)
                 && (0.6 <? risk_score l')%float) (access_logs s) in
  exists stats stats',
    get_dashboard_stats now s = (s, Ok stats)
    /\ get_dashboard_stats now (with_access_logs (fun old => old ++ [l]) s)
       = (with_access_logs (fun old => old ++ [l]) s, Ok stats')
    /\ total_access_logs stats' = total_access_logs stats + 1
    /\ high_risk_users stats'
       = high_risk_users stats
         + (if (0.6 <? risk_score l)%float && negb known then 1 else 0)
    /\ 0 <= high_risk_users stats <= total_access_logs stats.
Proof.
  intros known.
  destruct (get_dashboard_stats_run now s) as (st & Hst & Ht & _ & Hh).
  destruct (get_dashboard_stats_run now
              (with_access_logs (fun old => old ++ [l]) s))
    as (st' & Hst' & Ht' & _ & Hh').
  exists st, st'. split; [exact Hst|]. split; [exact Hst'|].
  simpl in Ht', Hh'.
  split; [rewrite Ht', Ht, length_app; simpl; lia|].
  split.
  - rewrite Hh', Hh, high_risk_user_ids_app.
    assert (known = true <-> user_id l ∈ high_risk_user_ids (access_logs s))
      as Hk.
    { unfold known. rewrite existsb_exists, elem_of_high_risk_user_ids.
      split.
      - intros (l' & Hl' & Hb). apply andb_prop in Hb as [Hu Hs].
        apply String.eqb_eq in Hu. eauto.
      - intros (l' & Hl' & Hu & Hs). exists l'. split; [exact Hl'|].
        now rewrite Hu, String.eqb_refl. }
    destruct (0.6 <? risk_score l)%float; simpl; [|lia].
    destruct known.
    + replace (high_risk_user_ids (access_logs s) ∪ {[user_id l]})
        with (high_risk_user_ids (access_logs s)); [simpl; lia|].
      pose proof (proj1 Hk eq_refl) as Hin. set_solver.
    + rewrite size_union, size_singleton; [simpl; lia|].
      assert (user_id l ∉ high_risk_user_ids (access_logs s))
        by (intros Hin; apply Hk in Hin; discriminate).
      set_solver.
  - rewrite Hh, Ht. split; [lia|].
    unfold high_risk_user_ids.
    pose proof (size_list_to_set_le
      (map user_id
         (List.filter (fun l0 => (0.6 <? risk_score l0)%float)
            (access_logs s)))) as H1.
    rewrite length_map in H1.
    pose proof (filter_length_le
      (fun l0 => (0.6 <? risk_score l0)%float) (access_logs s)).
    lia.
Qed.

(** ** Resolving and the count of active violations *)

Lemma update_one_active (vid : string) (vs : list AccessViolation) :
  count_documents (fun v => negb (resolved v)) (update_one_resolved vid vs).1
  = count_documents (fun v => negb (resolved v)) vs
    - match List.find (fun v => String.eqb (av_id v) vid) vs with
      | Some v => if resolved v then 0 else 1
      | None => 0
      end.
Proof.
  unfold count_documents.
  induction vs as [|v vs IH]; simpl; [reflexivity|].
  destruct (String.eqb (av_id v) vid); simpl.
  - destruct (resolved v); simpl; lia.
  - destruct (update_one_resolved vid vs) as [vs' n]. simpl in *.
    destruct (resolved v); simpl; lia.
Qed.

(** Property X7.  A resolve request lowers the dashboard's count of
    active violations by exactly one when the first stored violation with
    that id was unresolved, and leaves it as it was when that violation
    was resolved already or no violation has the id; the total of access
    logs is not touched. *)
Theorem resolve_then_dashboard (now : datetime) (vid : string) (s : db) :
  exists stats stats',
    get_dashboard_stats now s = (s, Ok stats)
    /\ get_dashboard_stats now (resolve_violation vid s).1
       = ((resolve_violation vid s).1, Ok stats')
    /\ total_access_logs stats' = total_access_logs stats
    /\ active_violations stats'
       = active_violations stats
         - match List.find (fun v => String.eqb (av_id v) vid) (violations s)
           with
           | Some v => if resolved v then 0 else 1
           | None => 0
           end.
Proof.
  destruct (get_dashboard_stats_run now s) as (st & Hst & Ht & Ha & _).
  destruct (get_dashboard_stats_run now (resolve_violation vid s).1)
    as (st' & Hst' & Ht' & Ha' & _).
  exists st, st'. split; [exact Hst|]. split; [exact Hst'|].
  rewrite resolve_violation_run in Ht', Ha'.
  pose proof (update_one_active vid (violations s)) as Hu.
  destruct (update_one_resolved vid (violations s)) as [vs' n].
  simpl in *. split; [congruence|]. rewrite Ha', Ha. exact Hu.
Qed.

(* ===================================================================== *)
(** * Listings *)
(* ===================================================================== *)

(** ** Sorted, bounded and made of stored documents *)

Lemma insert_desc_Forall {A} (key : A -> Z) (P : A -> Prop) (x : A)
    (l : list A) :
  P x -> Forall P l -> Forall P (insert_desc key x l).
Proof.
  intros Hx Hl. induction Hl as [|y l Hy Hl IH]; simpl.
  - constructor; [exact Hx|constructor].
  - destruct (key y <=? key x); repeat constructor; assumption.
Qed.

Lemma insert_desc_sorted {A} (key : A -> Z) (x : A) (l : list A) :
  StronglySorted (fun a b => key b <= key a) l ->
  StronglySorted (fun a b => key b <= key a) (insert_desc key x l).
Proof.
  induction 1 as [|y l Hs IH Hy]; simpl.
  - repeat constructor.
  - destruct (Z.leb_spec (key y) (key x)) as [Hle|Hgt].
    + constructor; [constructor; assumption|].
      constructor; [exact Hle|].
      eapply Forall_impl; [|exact Hy]. simpl. intros; lia.
    + constructor; [exact IH|].
      apply insert_desc_Forall; [lia|exact Hy].
Qed.

Lemma sort_desc_sorted {A} (key : A -> Z) (l : list A) :
  StronglySorted (fun a b => key b <= key a) (sort_desc key l).
Proof.
  induction l as [|x l IH]; simpl; [constructor|].
  now apply insert_desc_sorted.
Qed.

Lemma StronglySorted_drop {A} (R : A -> A -> Prop) (n : nat) (l : list A) :
  StronglySorted R l -> StronglySorted R (drop n l).
Proof.
  intros Hl. revert n. induction Hl as [|x l Hs IH Hx]; intros [|n]; simpl;
    try constructor; auto.
Qed.

Lemma StronglySorted_take {A} (R : A -> A -> Prop) (n : nat) (l : list A) :
  StronglySorted R l -> StronglySorted R (take n l).
Proof.
  intros Hl. revert n. induction Hl as [|x l Hs IH Hx]; intros [|n]; simpl;
    try constructor; auto.
  now apply Forall_take.
Qed.

Lemma In_take {A} (x : A) (n : nat) (l : list A) : In x (take n l) -> In x l.
Proof.
  revert n. induction l as [|y l IH]; intros [|n]; simpl; try tauto.
  intros [->|H]; [now left|right; eauto].
Qed.

Lemma In_drop {A} (x : A) (n : nat) (l : list A) : In x (drop n l) -> In x l.
Proof.
  revert n. induction l as [|y l IH]; intros [|n]; simpl; try tauto.
  intros H. right. eauto.
Qed.

(** What [find_sorted] returns on a valid skip and limit. *)
Lemma find_sorted_shape {A} (p : A -> bool) (key : A -> Z) (skip limit : Z)
    (docs : list A) (s : db) :
  0 <= skip -> 0 <= limit ->
  exists found,
    find_sorted p key skip limit docs s = (s, Ok found)
    /\ found
       = take (Z.to_nat limit)
           (drop (Z.to_nat skip) (sort_desc key (List.filter p docs)))
    /\ Z.of_nat (length found) <= limit
    /\ (forall x, In x found -> In x docs /\ p x = true)
    /\ StronglySorted (fun a b => key b <= key a) found.
Proof.
  intros Hs Hl. unfold find_sorted.
  rewrite (proj2 (Z.ltb_ge _ _) Hs), (proj2 (Z.ltb_ge _ _) Hl).
  eexists. split; [reflexivity|]. split; [reflexivity|]. split; [|split].
  - rewrite length_take. lia.
  - intros x Hx. apply In_take, In_drop in Hx.
    apply sort_desc_In in Hx. now apply filter_In in Hx.
  - apply StronglySorted_take, StronglySorted_drop, sort_desc_sorted.
Qed.

(** Property X8.  With a skip and a limit that are not negative, the
    access-log listing succeeds and leaves the store as it is; it returns
    at most [limit] records, every one of them a stored record that
    satisfies the requested filters (flagged when only violations are
    asked for, inside the band of the requested risk level), ordered from
    the latest access time to the earliest. *)
Theorem access_logs_listing (limit skip : Z) (violations_only : bool)
    (risk_level : option RiskLevel) (s : db) :
  0 <= skip -> 0 <= limit ->
  exists logs,
    get_access_logs limit skip violations_only risk_level s = (s, Ok logs)
    /\ Z.of_nat (length logs) <= limit
    /\ (forall l, In l logs ->
          In l (access_logs s)
          /\ (violations_only = true -> is_violation l = true)
          /\ (forall lvl, risk_level = Some lvl ->
                risk_score_query lvl (risk_score l) = true))
    /\ StronglySorted (fun a b => access_time b <= access_time a) logs.
Proof.
  intros Hs Hl.
  destruct (find_sorted_shape (access_logs_query violations_only risk_level)
              access_time skip limit (access_logs s) s Hs Hl)
    as (found & Hrun & _ & Hlen & Hin & Hsorted).
  exists found. split.
  - unfold get_access_logs, try_except_Exception, mbind, handler_bind, bind,
      gets. now rewrite Hrun.
  - split; [exact Hlen|]. split; [|exact Hsorted].
    intros l Hlin. destruct (Hin l Hlin) as [Hst Hq].
    split; [exact Hst|]. unfold access_logs_query in Hq.
    apply andb_prop in Hq as [Hv Hr]. split.
    + intros ->. exact Hv.
    + intros lvl ->. exact Hr.
Qed.

(** Property X8 at the first ten high-risk records of a one-record
    store. *)
Lemma access_logs_listing_witness :
  0 <= 0 /\ 0 <= 10
  /\ exists logs,
       get_access_logs 10 0 false (Some HIGH) boundary_db
       = (boundary_db, Ok logs)
       /\ Z.of_nat (length logs) <= 10
       /\ (forall l, In l logs ->
             In l (access_logs boundary_db)
             /\ (false = true -> is_violation l = true)
             /\ (forall lvl, Some HIGH = Some lvl ->
                   risk_score_query lvl (risk_score l) = true))
       /\ StronglySorted (fun a b => access_time b <= access_time a) logs.
Proof.
  split; [lia|]. split; [lia|].
  apply (access_logs_listing 10 0 false (Some HIGH) boundary_db); lia.
Defined.

Lemma insert_desc_Permutation {A} (key : A -> Z) (x : A) (l : list A) :
  Permutation (insert_desc key x l) (x :: l).
Proof.
  induction l as [|y l IH]; simpl; [reflexivity|].
  destruct (key y <=? key x); [reflexivity|].
  rewrite IH. apply perm_swap.
Qed.

Lemma sort_desc_Permutation {A} (key : A -> Z) (l : list A) :
  Permutation (sort_desc key l) l.
Proof.
  induction l as [|x l IH]; simpl; [reflexivity|].
  now rewrite insert_desc_Permutation, IH.
Qed.

Lemma NoDup_take_list {A} (n : nat) (l : list A) :
  NoDup l -> NoDup (take n l).
Proof.
  intros Hl. revert n. induction Hl as [|x l Hx Hl IH]; intros [|n]; simpl;
    try constructor; auto.
  intros Hin. apply Hx. eapply In_take, Hin.
Qed.

Lemma map_take_list {A B} (f : A -> B) (n : nat) (l : list A) :
  map f (take n l) = take n (map f l).
Proof.
  revert n. induction l as [|x l IH]; intros [|n]; simpl; congruence.
Qed.

Lemma NoDup_map_inj_in {A B} (f : A -> B) (l : list A) (x y : A) :
  NoDup (map f l) -> In x l -> In y l -> f x = f y -> x = y.
Proof.
  induction l as [|z l IH]; simpl; intros Hnd Hx Hy E; [destruct Hx|].
  inversion Hnd as [|? ? Hnot Hnd']; subst.
  destruct Hx as [->|Hx], Hy as [->|Hy].
  - reflexivity.
  - exfalso. apply Hnot. rewrite E. now apply in_map.
  - exfalso. apply Hnot. rewrite <- E. now apply in_map.
  - now apply IH.
Qed.

Lemma NoDup_app_disjoint {A} (l1 l2 : list A) (x : A) :
  NoDup (l1 ++ l2) -> In x l1 -> ~ In x l2.
Proof.
  induction l1 as [|y l1 IH]; simpl; intros Hnd Hin; [destruct Hin|].
  inversion Hnd as [|? ? Hnot Hnd']; subst.
  destruct Hin as [->|Hin]; [|now apply IH].
  intros Hx. apply Hnot, in_or_app. now right.
Qed.

(** With distinct keys a collection has one descending order. *)
Lemma sorted_desc_unique {A} (key : A -> Z) (l1 l2 : list A) :
  NoDup (map key l1) ->
  Permutation l1 l2 ->
  StronglySorted (fun a b => key b <= key a) l1 ->
  StronglySorted (fun a b => key b <= key a) l2 ->
  l1 = l2.
Proof.
  revert l2. induction l1 as [|x l1 IH]; intros l2 Hnd Hp H1 H2.
  - apply Permutation_nil in Hp. now subst.
  - destruct l2 as [|y l2];
      [apply Permutation_sym, Permutation_nil in Hp; discriminate|].
    assert (x = y) as ->.
    { apply (NoDup_map_inj_in key (x :: l1)); [exact Hnd|now left| |].
      - apply (Permutation_in y (Permutation_sym Hp)). now left.
      - apply Z.le_antisymm.
        + assert (In x (y :: l2)) as Hx
            by (apply (Permutation_in x Hp); now left).
          destruct Hx as [->|Hx]; [lia|].
          inversion H2 as [|? ? _ Hall]; subst.
          rewrite Forall_forall in Hall. now apply Hall.
        + assert (In y (x :: l1)) as Hy
            by (apply (Permutation_in y (Permutation_sym Hp)); now left).
          destruct Hy as [->|Hy]; [lia|].
          inversion H1 as [|? ? _ Hall]; subst.
          rewrite Forall_forall in Hall. now apply Hall. }
    f_equal. apply IH.
    + now inversion Hnd.
    + now apply Permutation_cons_inv in Hp.
    + now inversion H1.
    + now inversion H2.
Qed.

Lemma NoDup_map_filter {A B} (f : A -> B) (p : A -> bool) (l : list A) :
  NoDup (map f l) -> NoDup (map f (List.filter p l)).
Proof.
  induction l as [|x l IH]; simpl; intros Hnd; [constructor|].
  inversion Hnd as [|? ? Hnot Hnd']; subst.
  destruct (p x); simpl; [|now apply IH].
  constructor; [|now apply IH].
  intros Hin. apply Hnot. apply in_map_iff in Hin as (y & E & Hy).
  apply filter_In in Hy as [Hy _]. rewrite <- E. now apply in_map.
Qed.

(** Property X9.  On a store whose records have distinct access times,
    paging composes: with the same filters on an unchanged store, the
    page of [a] records after [skip] followed by the page of [b] records
    after [skip + a] is the page of [a + b] records after [skip], and no
    record is on both pages.  The pages do not depend on how the store
    orders what it sorts: they are cut from the one descending order that
    the matching records have. *)
Theorem access_logs_pages (skip a b : Z) (violations_only : bool)
    (risk_level : option RiskLevel) (s : db) :
  NoDup (map access_time (access_logs s)) ->
  0 <= skip -> 0 <= a -> 0 <= b ->
  exists page1 page2 both,
    get_access_logs a skip violations_only risk_level s = (s, Ok page1)
    /\ get_access_logs b (skip + a) violations_only risk_level s
       = (s, Ok page2)
    /\ get_access_logs (a + b) skip violations_only risk_level s
       = (s, Ok both)
    /\ both = page1 ++ page2
    /\ (forall l, In l page1 -> ~ In l page2)
    /\ (forall order,
          Permutation order
            (List.filter (access_logs_query violations_only risk_level)
               (access_logs s)) ->
          StronglySorted (fun x y => access_time y <= access_time x) order ->
          page1 = take (Z.to_nat a) (drop (Z.to_nat skip) order)
          /\ page2 = take (Z.to_nat b) (drop (Z.to_nat (skip + a)) order)).
Proof.
  intros Hnd Hs Ha Hb.
  set (q := access_logs_query violations_only risk_level).
  destruct (find_sorted_shape q access_time skip a (access_logs s) s Hs Ha)
    as (p1 & H1 & E1 & _).
  destruct (find_sorted_shape q access_time (skip + a) b (access_logs s) s
              ltac:(lia) Hb) as (p2 & H2 & E2 & _).
  destruct (find_sorted_shape q access_time skip (a + b) (access_logs s) s
              Hs ltac:(lia)) as (p3 & H3 & E3 & _).
  exists p1, p2, p3.
  unfold get_access_logs, try_except_Exception, mbind, handler_bind, bind,
    gets. fold q. rewrite H1, H2, H3.
  split; [reflexivity|]. split; [reflexivity|]. split; [reflexivity|].
  set (sorted := sort_desc access_time (List.filter q (access_logs s))) in *.
  assert (Hboth : p3 = p1 ++ p2).
  { rewrite E1, E2, E3.
    rewrite !Z2Nat.inj_add by lia. rewrite <- drop_drop.
    symmetry. apply take_take_drop. }
  assert (Hnd' : NoDup (map access_time sorted)).
  { unfold sorted.
    rewrite (Permutation_map access_time
               (sort_desc_Permutation access_time _)).
    now apply NoDup_map_filter. }
  split; [exact Hboth|]. split.
  - intros l Hl1 Hl2.
    assert (NoDup (map access_time p3)) as Hnd3.
    { rewrite E3, map_take_list. apply NoDup_take_list.
      rewrite <- (take_drop (Z.to_nat skip) sorted), map_app in Hnd'.
      now apply NoDup_app_remove_l in Hnd'. }
    rewrite Hboth, map_app in Hnd3.
    apply (NoDup_app_disjoint _ _ (access_time l) Hnd3); now apply in_map.
  - intros order Hperm Hsorted.
    assert (order = sorted) as ->.
    { symmetry. apply (sorted_desc_unique access_time).
      - exact Hnd'.
      - unfold sorted. rewrite sort_desc_Permutation. now symmetry.
      - apply sort_desc_sorted.
      - exact Hsorted. }
    split; [exact E1|exact E2].
Qed.

(** Property X9 at two pages of one record over a store of three. *)
Lemma access_logs_pages_witness :
  NoDup (map access_time (access_logs staggered_db))
  /\ 0 <= 0 /\ 0 <= 1 /\ 0 <= 1
  /\ exists page1 page2 both,
       get_access_logs 1 0 false None staggered_db = (staggered_db, Ok page1)
       /\ get_access_logs 1 (0 + 1) false None staggered_db
          = (staggered_db, Ok page2)
       /\ get_access_logs (1 + 1) 0 false None staggered_db
          = (staggered_db, Ok both)
       /\ both = page1 ++ page2
       /\ (forall l, In l page1 -> ~ In l page2)
       /\ (forall order,
             Permutation order
               (List.filter (access_logs_query false None)
                  (access_logs staggered_db)) ->
             StronglySorted (fun x y => access_time y <= access_time x)
               order ->
             page1 = take (Z.to_nat 1) (drop (Z.to_nat 0) order)
             /\ page2 = take (Z.to_nat 1) (drop (Z.to_nat (0 + 1)) order)).
Proof.
  assert (NoDup (map access_time (access_logs staggered_db))) as H.
  { vm_compute. repeat constructor; simpl; intuition discriminate. }
  split; [exact H|]. split; [lia|]. split; [lia|]. split; [lia|].
  apply (access_logs_pages 0 1 1 false None staggered_db H); lia.
Defined.

(** ** The violations listing *)

Lemma insert_desc_head {A} (key : A -> Z) (x : A) (l : list A) :
  Forall (fun y => key y <= key x) l -> insert_desc key x l = x :: l.
Proof.
  intros [|y l' Hy _]; simpl; [reflexivity|].
  now rewrite (proj2 (Z.leb_le _ _) Hy).
Qed.

Lemma Forall_filter_list {A} (P : A -> Prop) (p : A -> bool) (l : list A) :
  Forall P l -> Forall P (List.filter p l).
Proof.
  induction 1 as [|x l Hx _ IH]; simpl; [constructor|].
  destruct (p x); [constructor|]; assumption.
Qed.

(** Filtering a sorted list commutes with inserting into it. *)
Lemma filter_insert_desc {A} (key : A -> Z) (p : A -> bool) (x : A)
    (l : list A) :
  StronglySorted (fun a b => key b <= key a) l ->
  List.filter p (insert_desc key x l)
  = if p x then insert_desc key x (List.filter p l) else List.filter p l.
Proof.
  induction 1 as [|y l Hs IH Hy]; simpl.
  - destruct (p x); reflexivity.
  - destruct (Z.leb_spec (key y) (key x)) as [Hle|Hgt]; simpl.
    + destruct (p x) eqn:Px; [|reflexivity].
      destruct (p y) eqn:Py; simpl.
      * now rewrite (proj2 (Z.leb_le _ _) Hle).
      * symmetry. apply insert_desc_head, Forall_filter_list.
        eapply Forall_impl; [|exact Hy]. simpl. intros; lia.
    + rewrite IH. destruct (p x) eqn:Px, (p y) eqn:Py; simpl;
        try reflexivity.
      now rewrite (proj2 (Z.leb_gt _ _) Hgt).
Qed.

Lemma sort_desc_filter {A} (key : A -> Z) (p : A -> bool) (l : list A) :
  sort_desc key (List.filter p l) = List.filter p (sort_desc key l).
Proof.
  induction l as [|x l IH]; simpl; [reflexivity|].
  rewrite filter_insert_desc by apply sort_desc_sorted.
  destruct (p x); simpl; now rewrite IH.
Qed.

Lemma filter_filter_list {A} (p q : A -> bool) (l : list A) :
  List.filter p (List.filter q l) = List.filter (fun x => q x && p x) l.
Proof.
  induction l as [|x l IH]; simpl; [reflexivity|].
  destruct (q x); simpl; [destruct (p x)|]; now rewrite IH.
Qed.

Lemma filter_ext_in_list {A} (p q : A -> bool) (l : list A) :
  (forall x, In x l -> p x = q x) -> List.filter p l = List.filter q l.
Proof.
  induction l as [|x l IH]; simpl; intros H; [reflexivity|].
  rewrite (H x (or_introl eq_refl)), IH; [reflexivity|].
  intros; apply H; now right.
Qed.

(** With distinct ids, resolving takes exactly the document of that id
    out of the unresolved ones. *)
Lemma update_one_unresolved (vid : string) (vs : list AccessViolation) :
  NoDup (map av_id vs) ->
  List.filter (fun v => negb (resolved v)) (update_one_resolved vid vs).1
  = List.filter (fun v => negb (String.eqb (av_id v) vid))
      (List.filter (fun v => negb (resolved v)) vs).
Proof.
  induction vs as [|v vs IH]; simpl; intros Hnd; [reflexivity|].
  inversion Hnd as [|? ? Hnot Hnd']; subst.
  destruct (String.eqb_spec (av_id v) vid) as [E|N]; simpl.
  - assert (List.filter (fun v => negb (String.eqb (av_id v) vid))
              (List.filter (fun v => negb (resolved v)) vs)
            = List.filter (fun v => negb (resolved v)) vs) as Hrest.
    { rewrite filter_filter_list. apply filter_ext_in_list.
      intros w Hw. destruct (String.eqb_spec (av_id w) vid) as [Ew|_];
        [|now rewrite andb_true_r].
      exfalso. apply Hnot. rewrite E, <- Ew. now apply in_map. }
    destruct (resolved v); simpl.
    + now rewrite Hrest.
    + rewrite (proj2 (String.eqb_eq _ _) E). simpl. now rewrite Hrest.
  - destruct (update_one_resolved vid vs) as [vs' n] eqn:Hu. simpl in *.
    rewrite IH by exact Hnd'.
    destruct (resolved v); simpl; [reflexivity|].
    now rewrite (proj2 (String.eqb_neq _ _) N).
Qed.

Lemma get_violations_run (limit : Z) (active_only : bool) (s : db) :
  0 <= limit ->
  get_violations limit active_only s
  = (s, Ok (take (Z.to_nat limit)
              (sort_desc detected_at
                 (List.filter
                    (fun v => if active_only then negb (resolved v) else true)
                    (violations s))))).
Proof.
  intros Hl.
  unfold get_violations, try_except_Exception, mbind, handler_bind, bind,
    gets, find_sorted.
  change (0 <? 0) with false. cbv iota.
  rewrite (proj2 (Z.ltb_ge _ _) Hl). reflexivity.
Qed.

(** Property X10.  With a limit that is not negative, the violations
    listing succeeds and leaves the store as it is; it returns at most
    [limit] stored violations, unresolved ones only when active ones are
    asked for, ordered from the latest detection to the earliest; when
    the limit covers the collection it returns every stored violation
    that passes the filter. *)
Theorem violations_listing (limit : Z) (active_only : bool) (s : db) :
  0 <= limit ->
  exists vs,
    get_violations limit active_only s = (s, Ok vs)
    /\ Z.of_nat (length vs) <= limit
    /\ (forall v, In v vs ->
          In v (violations s)
          /\ (active_only = true -> resolved v = false))
    /\ StronglySorted (fun a b => detected_at b <= detected_at a) vs
    /\ (Z.of_nat (length (violations s)) <= limit ->
        forall v, In v (violations s) ->
          (active_only = true -> resolved v = false) -> In v vs).
Proof.
  intros Hl. rewrite get_violations_run by exact Hl.
  eexists. split; [reflexivity|]. split; [|split; [|split]].
  - rewrite length_take. lia.
  - intros v Hv. apply In_take, sort_desc_In, filter_In in Hv.
    destruct Hv as [Hin Hp]. split; [exact Hin|].
    intros ->. now apply negb_true_iff in Hp.
  - apply StronglySorted_take, sort_desc_sorted.
  - intros Hcover v Hin Hact. rewrite take_ge.
    + apply sort_desc_In, filter_In. split; [exact Hin|].
      destruct active_only; [|reflexivity].
      now rewrite Hact.
    + rewrite sort_desc_length.
      pose proof (filter_length_le
        (fun v => if active_only then negb (resolved v) else true)
        (violations s)). lia.
Qed.

(** Property X10 at the first 50 active violations of a store with two. *)
Lemma violations_listing_witness :
  0 <= 50
  /\ exists vs,
       get_violations 50 true outnumbered_db = (outnumbered_db, Ok vs)
       /\ Z.of_nat (length vs) <= 50
       /\ (forall v, In v vs ->
             In v (violations outnumbered_db)
             /\ (true = true -> resolved v = false))
       /\ StronglySorted (fun a b => detected_at b <= detected_at a) vs
       /\ (Z.of_nat (length (violations outnumbered_db)) <= 50 ->
           forall v, In v (violations outnumbered_db) ->
             (true = true -> resolved v = false) -> In v vs).
Proof.
  split; [lia|].
  apply (violations_listing 50 true outnumbered_db). lia.
Defined.

(** Property X11.  On a store whose violations have distinct ids, a
    resolve request takes the violation of that id out of the listing of
    active violations and nothing else: after it no listed violation has
    the id and every listed violation is a stored one that was unresolved
    before; with a limit that covers the collection, the violations
    listed after it are exactly those listed before it with another
    id. *)
Theorem resolved_leaves_active_listing (vid : string) (limit : Z) (s : db) :
  NoDup (map av_id (violations s)) ->
  0 <= limit ->
  exists before after,
    get_violations limit true s = (s, Ok before)
    /\ get_violations limit true (resolve_violation vid s).1
       = ((resolve_violation vid s).1, Ok after)
    /\ (forall v, In v after -> av_id v <> vid)
    /\ (forall v, In v after -> In v (violations s) /\ resolved v = false)
    /\ (Z.of_nat (length (violations s)) <= limit ->
        forall v, In v after <-> In v before /\ av_id v <> vid).
Proof.
  intros Hnd Hl. rewrite !get_violations_run by exact Hl.
  eexists _, _. split; [reflexivity|]. split; [reflexivity|].
  rewrite resolve_violation_run.
  destruct (update_one_resolved vid (violations s)) as [vs' n] eqn:Hu.
  simpl violations.
  assert (vs' = (update_one_resolved vid (violations s)).1) as ->
    by now rewrite Hu.
  rewrite update_one_unresolved by exact Hnd.
  rewrite sort_desc_filter.
  set (active := sort_desc detected_at
                   (List.filter (fun v => negb (resolved v)) (violations s))).
  assert (Hafter : forall v,
            In v (take (Z.to_nat limit)
                    (List.filter
                       (fun v => negb (String.eqb (av_id v) vid)) active)) ->
            In v active /\ av_id v <> vid).
  { intros v Hv. apply In_take, filter_In in Hv. destruct Hv as [Hv Hp].
    split; [exact Hv|]. now apply negb_true_iff, String.eqb_neq in Hp. }
  split; [|split].
  - intros v Hv. now apply Hafter.
  - intros v Hv. apply Hafter in Hv as [Hv _].
    apply sort_desc_In, filter_In in Hv. destruct Hv as [Hin Hp].
    split; [exact Hin|]. now apply negb_true_iff in Hp.
  - intros Hcover v.
    assert (length active <= Z.to_nat limit)%nat as Hlen.
    { unfold active. rewrite sort_desc_length.
      pose proof (filter_length_le (fun v => negb (resolved v))
                    (violations s)). lia. }
    rewrite (take_ge active) by exact Hlen.
    rewrite take_ge.
    + rewrite filter_In, negb_true_iff, String.eqb_neq. tauto.
    + pose proof (filter_length_le
                    (fun v => negb (String.eqb (av_id v) vid)) active). lia.
Qed.

(** Property X11 at the violation ["V1"] of a store that holds ["V1"] and
    ["V2"], both unresolved. *)
Lemma resolved_leaves_active_listing_witness :
  NoDup (map av_id (violations outnumbered_db))
  /\ 0 <= 50
  /\ exists before after,
       get_violations 50 true outnumbered_db = (outnumbered_db, Ok before)
       /\ get_violations 50 true (resolve_violation "V1" outnumbered_db).1
          = ((resolve_violation "V1" outnumbered_db).1, Ok after)
       /\ (forall v, In v after -> av_id v <> "V1")
       /\ (forall v, In v after ->
             In v (violations outnumbered_db) /\ resolved v = false)
       /\ (Z.of_nat (length (violations outnumbered_db)) <= 50 ->
           forall v, In v after <-> In v before /\ av_id v <> "V1").
Proof.
  assert (NoDup (map av_id (violations outnumbered_db))) as H.
  { simpl. repeat constructor; simpl; intuition discriminate. }
  split; [exact H|]. split; [lia|].
  apply (resolved_leaves_active_listing "V1" 50 outnumbered_db H). lia.
Defined.

(* ===================================================================== *)
(** * The risk assessment: factors, history and the language model *)
(* ===================================================================== *)

Lemma existsb_filter_length {A} (p : A -> bool) (l : list A) :
  existsb p l = (0 <? Z.of_nat (length (List.filter p l))).
Proof.
  induction l as [|x l IH]; simpl; [reflexivity|].
  destruct (p x); simpl; [|exact IH].
  symmetry. apply Z.ltb_lt. lia.
Qed.

(** Property X12.  For a user with a record in the last seven days the
    assessment succeeds, and its lists say what the records show: each of
    the four risk factors is named exactly when some record read has more
    than 3 failed attempts, a privilege change, an access hour before 7 or
    after 19, or the violation flag; additional authentication is
    recommended exactly when the mean score exceeds 0.6, a password reset
    exactly when some record has more than 5 failed attempts, training
    exactly when at least three factors are named, and continued
    monitoring exactly when nothing else is recommended.  No entry is
    repeated and the recommendations are never empty. *)
Theorem risk_assessment_lists (now : datetime) (new_id : string)
    (llm : DataSummary -> option string) (uid : string) (s : db) :
  recent_user_logs now uid (access_logs s) <> [] ->
  let logs := recent_user_logs now uid (access_logs s) in
  exists a,
    (get_user_risk_assessment now new_id llm uid s).2 = Ok a
    /\ recommendations a <> []
    /\ NoDup (recommendations a) /\ NoDup (risk_factors a)
    /\ (In "Multiple failed login attempts" (risk_factors a)
        <-> exists l, In l logs /\ 3 < failed_attempts l)
    /\ (In "Recent privilege changes" (risk_factors a)
        <-> exists l, In l logs /\ privilege_changes l <> [])
    /\ (In "Off-hours access detected" (risk_factors a)
        <-> exists l, In l logs
              /\ (dt_hour (access_time l) < 7
                  \/ 19 < dt_hour (access_time l)))
    /\ (In "Recent security violations" (risk_factors a)
        <-> exists l, In l logs /\ is_violation l = true)
    /\ (In "Implement additional authentication factors" (recommendations a)
        <-> (0.6 <? overall_risk_score a)%float = true)
    /\ (In "Review account security and reset password" (recommendations a)
        <-> exists l, In l logs /\ 5 < failed_attempts l)
    /\ (In "Conduct security awareness training" (recommendations a)
        <-> (3 <= length (risk_factors a))%nat)
    /\ (In "Continue monitoring user activity" (recommendations a)
        <-> recommendations a = ["Continue monitoring user activity"]).
Proof.
  unfold get_user_risk_assessment, try_except_HTTPException_Exception,
    mbind, handler_bind, bind, gets, modify, mret, handler_ret, ret, raise.
  cbv beta zeta.
  destruct (recent_user_logs now uid (access_logs s)) as [|l0 logs0];
    [contradiction|].
  intros _. cbv beta iota zeta. generalize (l0 :: logs0). clear l0 logs0.
  intros logs. eexists. split; [reflexivity|].
  cbn [recommendations risk_factors overall_risk_score].
  rewrite <- (existsb_filter_length is_violation logs).
  set (b1 := existsb (fun l => 3 <? failed_attempts l) logs).
  set (b2 := existsb (fun l => negb (bool_decide (privilege_changes l = [])))
               logs).
  set (b3 := existsb (fun l => off_hours (dt_hour (access_time l))) logs).
  set (b4 := existsb is_violation logs).
  set (c1 := (0.6 <? _)%float).
  set (c2 := existsb (fun l => 5 <? failed_attempts l) logs).
  assert (E1 : b1 = true <-> exists l, In l logs /\ 3 < failed_attempts l).
  { unfold b1. rewrite existsb_exists.
    split; intros (l & Hl & Hp); exists l; (split; [exact Hl|]);
      now apply Z.ltb_lt. }
  assert (E2 : b2 = true <-> exists l, In l logs /\ privilege_changes l <> []).
  { unfold b2. rewrite existsb_exists.
    split; intros (l & Hl & Hp); exists l; (split; [exact Hl|]).
    - apply negb_true_iff, bool_decide_eq_false in Hp. exact Hp.
    - apply negb_true_iff, bool_decide_eq_false. exact Hp. }
  assert (E3 : b3 = true <-> exists l, In l logs
            /\ (dt_hour (access_time l) < 7 \/ 19 < dt_hour (access_time l))).
  { unfold b3, off_hours. rewrite existsb_exists.
    split; intros (l & Hl & Hp); exists l; (split; [exact Hl|]).
    - apply orb_true_iff in Hp. rewrite !Z.ltb_lt in Hp. exact Hp.
    - apply orb_true_iff. rewrite !Z.ltb_lt. exact Hp. }
  assert (E4 : b4 = true <-> exists l, In l logs /\ is_violation l = true).
  { unfold b4. now rewrite existsb_exists. }
  assert (E5 : c2 = true <-> exists l, In l logs /\ 5 < failed_attempts l).
  { unfold c2. rewrite existsb_exists.
    split; intros (l & Hl & Hp); exists l; (split; [exact Hl|]);
      now apply Z.ltb_lt. }
  rewrite <- E1, <- E2, <- E3, <- E4, <- E5.
  clearbody b1 b2 b3 b4 c1 c2. clear.
  destruct b1, b2, b3, b4, c1, c2; simpl;
    repeat match goal with
    | |- _ /\ _ => split
    | |- _ <-> _ => split
    | |- NoDup _ => repeat constructor; simpl
    | |- ~ _ => intro
    | |- _ -> _ => intro
    end;
    try reflexivity; try discriminate; try lia;
    repeat match goal with
    | H : _ \/ _ |- _ => destruct H
    | H : False |- _ => destruct H
    | H : _ = _ |- _ => discriminate H
    end;
    try (simpl in *; lia); try tauto; try (simpl; tauto).
Qed.

(** Property X12 at the user of a store with one record. *)
Lemma risk_assessment_lists_witness :
  recent_user_logs now0 "USR001" (access_logs boundary_db) <> []
  /\ exists a,
       (get_user_risk_assessment now0 "A1" (fun _ => None) "USR001"
          boundary_db).2 = Ok a
       /\ recommendations a <> []
       /\ NoDup (recommendations a) /\ NoDup (risk_factors a)
       /\ (In "Multiple failed login attempts" (risk_factors a)
           <-> exists l,
                 In l (recent_user_logs now0 "USR001"
                         (access_logs boundary_db))
                 /\ 3 < failed_attempts l)
       /\ (In "Recent privilege changes" (risk_factors a)
           <-> exists l,
                 In l (recent_user_logs now0 "USR001"
                         (access_logs boundary_db))
                 /\ privilege_changes l <> [])
       /\ (In "Off-hours access detected" (risk_factors a)
           <-> exists l,
                 In l (recent_user_logs now0 "USR001"
                         (access_logs boundary_db))
                 /\ (dt_hour (access_time l) < 7
                     \/ 19 < dt_hour (access_time l)))
       /\ (In "Recent security violations" (risk_factors a)
           <-> exists l,
                 In l (recent_user_logs now0 "USR001"
                         (access_logs boundary_db))
                 /\ is_violation l = true)
       /\ (In "Implement additional authentication factors"
             (recommendations a)
           <-> (0.6 <? overall_risk_score a)%float = true)
       /\ (In "Review account security and reset password"
             (recommendations a)
           <-> exists l,
                 In l (recent_user_logs now0 "USR001"
                         (access_logs boundary_db))
                 /\ 5 < failed_attempts l)
       /\ (In "Conduct security awareness training" (recommendations a)
           <-> (3 <= length (risk_factors a))%nat)
       /\ (In "Continue monitoring user activity" (recommendations a)
           <-> recommendations a = ["Continue monitoring user activity"]).
Proof.
  assert (recent_user_logs now0 "USR001" (access_logs boundary_db) <> [])
    as H by (vm_compute; discriminate).
  split; [exact H|].
  apply (risk_assessment_lists now0 "A1" (fun _ => None) "USR001"
           boundary_db H).
Defined.

(** What one call of the assessment route does, and how a second call on
    a store with the same access logs relates to it. *)
Lemma get_user_risk_assessment_run (now : datetime) (new_id : string)
    (llm : DataSummary -> option string) (uid : string) (s : db) :
  (recent_user_logs now uid (access_logs s) = []
   /\ get_user_risk_assessment now new_id llm uid s
      = (s, Raise (HTTPException 404 "No recent activity found for user")))
  \/ (recent_user_logs now uid (access_logs s) <> []
      /\ exists a,
           get_user_risk_assessment now new_id llm uid s
           = (with_risk_assessments (fun old => old ++ [a]) s, Ok a)
           /\ ra_id a = new_id
           /\ ra_user_id a = uid
           /\ assessment_date a = now
           /\ ai_analysis a
              = Some (ai_analyze_patterns llm
                        (recent_user_logs now uid (access_logs s)))
           /\ forall id' llm' s',
                access_logs s' = access_logs s ->
                exists a',
                  get_user_risk_assessment now id' llm' uid s'
                  = (with_risk_assessments (fun old => old ++ [a']) s', Ok a')
                  /\ ra_id a' = id'
                  /\ ra_user_id a' = ra_user_id a
                  /\ assessment_date a' = assessment_date a
                  /\ overall_risk_score a' = overall_risk_score a
                  /\ risk_level a' = risk_level a
                  /\ risk_factors a' = risk_factors a
                  /\ recommendations a' = recommendations a
                  /\ ai_analysis a'
                     = Some (ai_analyze_patterns llm'
                               (recent_user_logs now uid (access_logs s)))).
Proof.
  unfold get_user_risk_assessment, try_except_HTTPException_Exception,
    mbind, handler_bind, bind, gets, modify, mret, handler_ret, ret, raise.
  cbv beta zeta.
  destruct (recent_user_logs now uid (access_logs s)) as [|l0 logs0] eqn:E;
    [left; split; reflexivity|].
  right. split; [discriminate|].
  cbv beta iota zeta.
  eexists. split; [reflexivity|].
  cbn [ra_id ra_user_id assessment_date ai_analysis].
  repeat (split; [reflexivity|]).
  intros id' llm' s' Hs'. rewrite Hs', E. cbv beta iota zeta.
  eexists. split; [reflexivity|].
  cbn [ra_id ra_user_id assessment_date ai_analysis overall_risk_score
       risk_level risk_factors recommendations].
  repeat split; reflexivity.
Qed.

(** What the assessment route writes: the assessment it returns, after
    the stored ones, and nothing when it answers 404. *)
Lemma get_user_risk_assessment_writes (now : datetime) (new_id : string)
    (llm : DataSummary -> option string) (uid : string) (s : db) :
  let run := get_user_risk_assessment now new_id llm uid s in
  access_logs run.1 = access_logs s
  /\ violations run.1 = violations s
  /\ risk_assessments run.1
     = risk_assessments s
       ++ match run.2 with Ok a => [a] | Raise _ => [] end.
Proof.
  unfold get_user_risk_assessment, try_except_HTTPException_Exception,
    mbind, handler_bind, bind, gets, modify, mret, handler_ret, ret, raise.
  cbv beta zeta.
  destruct (recent_user_logs now uid (access_logs s)) as [|l0 logs0].
  - simpl. rewrite app_nil_r. repeat split.
  - cbv beta iota zeta. simpl. repeat split.
Qed.

(** What the assessment route reads: the access logs. *)
Lemma get_user_risk_assessment_reads (now : datetime) (new_id : string)
    (llm : DataSummary -> option string) (uid : string) (s s' : db) :
  access_logs s' = access_logs s ->
  (get_user_risk_assessment now new_id llm uid s').2
  = (get_user_risk_assessment now new_id llm uid s).2.
Proof.
  intros E.
  unfold get_user_risk_assessment, try_except_HTTPException_Exception,
    mbind, handler_bind, bind, gets, modify, mret, handler_ret, ret, raise.
  cbv beta zeta. rewrite E.
  destruct (recent_user_logs now uid (access_logs s)) as [|l0 logs0];
    reflexivity.
Qed.

(** Property X13.  The risk-assessment route keeps a history and never
    reads it.  After any request to it, a second request, for whatever
    user, at whatever clock and with whatever reply of the language
    model, has the outcome it would have had on the store before the
    first: the same 404, or the same assessment.  Each request that
    succeeds appends the assessment it returns after the stored ones, a
    request that fails appends nothing, and access logs and violations
    are left as they were. *)
Theorem risk_assessment_history (now1 now2 : datetime) (id1 id2 : string)
    (llm1 llm2 : DataSummary -> option string) (uid1 uid2 : string)
    (s : db) :
  let first := get_user_risk_assessment now1 id1 llm1 uid1 s in
  let second := get_user_risk_assessment now2 id2 llm2 uid2 first.1 in
  second.2 = (get_user_risk_assessment now2 id2 llm2 uid2 s).2
  /\ access_logs second.1 = access_logs s
  /\ violations second.1 = violations s
  /\ risk_assessments second.1
     = risk_assessments s
       ++ match first.2 with Ok a1 => [a1] | Raise _ => [] end
       ++ match second.2 with Ok a2 => [a2] | Raise _ => [] end.
Proof.
  intros first second.
  destruct (get_user_risk_assessment_writes now1 id1 llm1 uid1 s)
    as (Hl1 & Hv1 & Hr1).
  destruct (get_user_risk_assessment_writes now2 id2 llm2 uid2 first.1)
    as (Hl2 & Hv2 & Hr2).
  fold first in Hl1, Hv1, Hr1. fold second in Hl2, Hv2, Hr2.
  split; [|split; [|split]].
  - apply get_user_risk_assessment_reads. exact Hl1.
  - congruence.
  - congruence.
  - rewrite Hr2, Hr1, <- app_assoc. reflexivity.
Qed.

(** Property X14.  The language model decides the narrative and nothing
    else: whatever it answers, and also when it fails, the assessment
    route gives the same outcome as with a model that always fails: the
    same 404, or an assessment with the same id, user, date, score,
    level, factors and recommendations.  The narrative is the model's
    answer to the summary of the records read, and the fixed fallback
    text when the model fails. *)
Theorem risk_assessment_without_llm (now : datetime) (new_id : string)
    (llm : DataSummary -> option string) (uid : string) (s : db) :
  let logs := recent_user_logs now uid (access_logs s) in
  match (get_user_risk_assessment now new_id llm uid s).2,
        (get_user_risk_assessment now new_id (fun _ => None) uid s).2 with
  | Ok a, Ok b =>
      ra_id a = ra_id b
      /\ ra_user_id a = ra_user_id b
      /\ assessment_date a = assessment_date b
      /\ overall_risk_score a = overall_risk_score b
      /\ risk_level a = risk_level b
      /\ risk_factors a = risk_factors b
      /\ recommendations a = recommendations b
      /\ ai_analysis b = Some ai_fallback
      /\ ai_analysis a
         = Some (default ai_fallback (llm (data_summary logs)))
  | Raise e, Raise e' =>
      e = e' /\ e = HTTPException 404 "No recent activity found for user"
  | _, _ => False
  end.
Proof.
  intros logs.
  destruct (get_user_risk_assessment_run now new_id llm uid s)
    as [[E ->]|(_ & a & -> & Hid & _ & _ & Hai & Hnext)].
  - destruct (get_user_risk_assessment_run now new_id (fun _ => None) uid s)
      as [[_ ->]|(N & _)]; [|contradiction].
    simpl. split; reflexivity.
  - destruct (Hnext new_id (fun _ => None) s eq_refl)
      as (b & -> & H1 & H2 & H3 & H4 & H5 & H6 & H7 & H8).
    simpl. rewrite Hai, H8. unfold ai_analyze_patterns. fold logs.
    repeat split; try congruence;
      destruct (llm (data_summary logs)); reflexivity.
Qed.

(* ===================================================================== *)
(** * The named queries *)
(* ===================================================================== *)

(** Property X15.  Each of the five named queries succeeds and leaves the
    store as it is; it returns stored records only, each of which matches
    the condition of the query, ordered from the latest access time to
    the earliest, at most 100 of them for the failed logins and at most
    50 for the other queries, and the count it reports is the number of
    records it returns. *)
Theorem named_queries_select (tag : string) (s : db) :
  In tag named_query_types ->
  exists r,
    execute_sql_query {[ "query_type" := JStr tag ]} s = (s, Ok r)
    /\ results_count r = Z.of_nat (length (results r))
    /\ results_count r <= (if String.eqb tag "failed_logins" then 100 else 50)
    /\ StronglySorted (fun a b => access_time b <= access_time a) (results r)
    /\ forall l, In l (results r) ->
         In l (access_logs s)
         /\ (tag = "unauthorized_access" ->
             (access_result l = FAILED /\ 3 < failed_attempts l)
             \/ access_result l = SUSPICIOUS
             \/ (is_violation l = true
                 /\ violation_type l = Some UNAUTHORIZED_ACCESS))
         /\ (tag = "privilege_escalation" -> privilege_changes l <> [])
         /\ (tag = "segregation_conflicts" ->
             violation_type l = Some SEGREGATION_DUTY_CONFLICT)
         /\ (tag = "failed_logins" -> access_result l = FAILED)
         /\ (tag = "off_hours_access" ->
             dt_hour (access_time l) < 7 \/ 19 < dt_hour (access_time l)).
Proof.
  unfold named_query_types. simpl.
  intros [<-|[<-|[<-|[<-|[<-|[]]]]]];
    unfold execute_sql_query, try_except_Exception, mbind, handler_bind,
      bind, gets; simpl; eexists; (split; [reflexivity|]);
    cbn [results_count results]; (split; [reflexivity|]).
  all: split; [rewrite length_take; lia|].
  all: split; [apply StronglySorted_take, sort_desc_sorted|].
  all: intros l Hl; apply In_take, sort_desc_In, filter_In in Hl;
    destruct Hl as [Hin Hp]; (split; [exact Hin|]).
  all: repeat split; try discriminate; intros _.
  - unfold unauthorized_access_query in Hp.
    rewrite !orb_true_iff, !andb_true_iff, !bool_decide_eq_true, Z.ltb_lt
      in Hp. tauto.
  - apply negb_true_iff, bool_decide_eq_false in Hp. exact Hp.
  - apply bool_decide_eq_true in Hp. exact Hp.
  - apply bool_decide_eq_true in Hp. exact Hp.
  - unfold off_hours in Hp. rewrite orb_true_iff, !Z.ltb_lt in Hp. exact Hp.
Qed.

(** Property X15 at the query for failed logins. *)
Lemma named_queries_select_witness :
  In "failed_logins" named_query_types
  /\ exists r,
       execute_sql_query {[ "query_type" := JStr "failed_logins" ]}
         boundary_db = (boundary_db, Ok r)
       /\ results_count r = Z.of_nat (length (results r))
       /\ results_count r
          <= (if String.eqb "failed_logins" "failed_logins" then 100 else 50)
       /\ StronglySorted (fun a b => access_time b <= access_time a)
            (results r)
       /\ forall l, In l (results r) ->
            In l (access_logs boundary_db)
            /\ ("failed_logins" = "unauthorized_access" ->
                (access_result l = FAILED /\ 3 < failed_attempts l)
                \/ access_result l = SUSPICIOUS
                \/ (is_violation l = true
                    /\ violation_type l = Some UNAUTHORIZED_ACCESS))
            /\ ("failed_logins" = "privilege_escalation" ->
                privilege_changes l <> [])
            /\ ("failed_logins" = "segregation_conflicts" ->
                violation_type l = Some SEGREGATION_DUTY_CONFLICT)
            /\ ("failed_logins" = "failed_logins" ->
                access_result l = FAILED)
            /\ ("failed_logins" = "off_hours_access" ->
                dt_hour (access_time l) < 7
                \/ 19 < dt_hour (access_time l)).
Proof.
  assert (In "failed_logins" named_query_types) as H
    by (vm_compute; tauto).
  split; [exact H|].
  apply (named_queries_select "failed_logins" boundary_db H).
Defined.

(* ===================================================================== *)
(** * The classifier is monotone *)
(* ===================================================================== *)

(** [by_keys] for a comparison of two floats that are not constants. *)
Ltac by_keys2 a b :=
  rewrite ?ltb_key, ?leb_key in *;
  rewrite ?fkey_0, ?fkey_1, ?fkey_0_3, ?fkey_0_6, ?fkey_0_8 in *;
  destruct (fkey a) as [[[? ?] ?]|]; destruct (fkey b) as [[[? ?] ?]|];
  repeat match goal with
    | H : context [key_ltb ?x ?y] |- _ =>
        let E := fresh "E" in
        destruct (key_ltb x y) eqn:E;
        [apply key_ltb_spec in E | apply key_ltb_false in E]
    | |- context [key_ltb ?x ?y] =>
        let E := fresh "E" in
        destruct (key_ltb x y) eqn:E;
        [apply key_ltb_spec in E | apply key_ltb_false in E]
    end;
  unfold key_lt in *; simpl in *;
  try discriminate; try reflexivity; try lia.

(** Property X16.  A higher score never gets a lower level: for scores
    [a <= b] in binary64, critical for [a] gives critical for [b], high
    for [a] gives high or critical for [b], and medium for [a] gives
    anything but low for [b]. *)
Theorem determine_risk_level_monotone (a b : float) :
  (a <=? b)%float = true ->
  (determine_risk_level a = CRITICAL -> determine_risk_level b = CRITICAL)
  /\ (determine_risk_level a = HIGH ->
      determine_risk_level b = HIGH \/ determine_risk_level b = CRITICAL)
  /\ (determine_risk_level a = MEDIUM -> determine_risk_level b <> LOW).
Proof.
  unfold determine_risk_level. intros Hab.
  split; [|split]; intros H; try intros H'; by_keys2 a b;
    try congruence; auto.
Qed.

(** Property X16 at the scores 0.6 and 0.8. *)
Lemma determine_risk_level_monotone_witness :
  (0.6 <=? 0.8)%float = true
  /\ (determine_risk_level 0.6 = CRITICAL ->
      determine_risk_level 0.8 = CRITICAL)
  /\ (determine_risk_level 0.6 = HIGH ->
      determine_risk_level 0.8 = HIGH \/ determine_risk_level 0.8 = CRITICAL)
  /\ (determine_risk_level 0.6 = MEDIUM -> determine_risk_level 0.8 <> LOW).
Proof.
  split; [vm_compute; reflexivity|].
  apply (determine_risk_level_monotone 0.6 0.8).
  vm_compute. reflexivity.
Defined.

(* ===================================================================== *)
(** * Analytics *)
(* ===================================================================== *)

(** ** The risk distribution *)

(** Property X17.  The buckets of the risk distribution and the levels of
    the classifier agree below 1.0 and part at 1.0: a score in the bucket
    from 0, from 0.3, from 0.6 or from 0.8 has the level low, medium, high
    or critical; a score goes to the default bucket, which the pipeline
    labels high, exactly when it is not in [[0, 1)], and every score from
    1.0 on, the cap of the risk scorer included, lies in that default
    bucket although its level is critical. *)
Theorem risk_bucket_and_level (score : float) :
  (risk_bucket score = Bucket_0 -> determine_risk_level score = LOW)
  /\ (risk_bucket score = Bucket_0_3 -> determine_risk_level score = MEDIUM)
  /\ (risk_bucket score = Bucket_0_6 -> determine_risk_level score = HIGH)
  /\ (risk_bucket score = Bucket_0_8 ->
      determine_risk_level score = CRITICAL)
  /\ (risk_bucket score = Bucket_default <->
      (0 <=? score)%float && (score <? 1)%float = false)
  /\ ((1 <=? score)%float = true ->
      risk_bucket score = Bucket_default
      /\ determine_risk_level score = CRITICAL).
Proof.
  unfold risk_bucket, determine_risk_level.
  repeat match goal with |- _ /\ _ => split | |- _ <-> _ => split end;
    try (vm_compute; reflexivity); intros; by_keys score; split; reflexivity.
Qed.

Lemma take_4_of_5 {A} (f0 f1 f2 f3 f4 : bool) (x0 x1 x2 x3 x4 x : A) :
  let pick (f : bool) (y : A) := if f then [y] else [] in
  let l := pick f0 x0 ++ pick f1 x1 ++ pick f2 x2 ++ pick f3 x3
           ++ pick f4 x4 in
  x4 <> x0 -> x4 <> x1 -> x4 <> x2 -> x4 <> x3 ->
  (length (take 4 l) <= 4)%nat
  /\ (In x (take 4 l) -> In x l)
  /\ (x <> x4 -> In x l -> In x (take 4 l))
  /\ (In x4 (take 4 l) <-> f4 = true /\ f0 && f1 && f2 && f3 = false).
Proof.
  intros pick l. subst pick l.
  destruct f0, f1, f2, f3, f4; simpl; intros;
    repeat match goal with
    | |- _ /\ _ => split
    | |- _ <-> _ => split
    end; try lia; try tauto; intros;
    repeat match goal with
    | H : _ \/ _ |- _ => destruct H
    | H : _ /\ _ |- _ => destruct H
    end; try congruence; try tauto; auto 10.
Qed.

Lemma filter_positive_5 {A} (count : A -> Z) (x0 x1 x2 x3 x4 : A) :
  List.filter (fun g => 0 <? g.2)
    (map (fun b => (b, count b)) [x0; x1; x2; x3; x4])
  = (if 0 <? count x0 then [(x0, count x0)] else [])
    ++ (if 0 <? count x1 then [(x1, count x1)] else [])
    ++ (if 0 <? count x2 then [(x2, count x2)] else [])
    ++ (if 0 <? count x3 then [(x3, count x3)] else [])
    ++ (if 0 <? count x4 then [(x4, count x4)] else []).
Proof.
  simpl.
  destruct (0 <? count x0), (0 <? count x1), (0 <? count x2),
    (0 <? count x3), (0 <? count x4); reflexivity.
Qed.

(** Property X18.  The analytics route succeeds on every store and leaves
    it as it is.  Its risk distribution lists at most four buckets, each
    with the number of stored records whose score lies in it, and never a
    bucket without records; every numeric bucket that holds a record is
    listed, and the default bucket is listed exactly when it holds a
    record and one of the four numeric buckets is empty: when all five
    buckets hold records, the records of the default bucket are left out
    of the distribution. *)
Theorem risk_distribution_listing (now : Z -> datetime) (s : db) :
  let count b :=
    count_documents (fun l => bool_decide (risk_bucket (risk_score l) = b))
      (access_logs s) in
  exists r,
    get_analytics_trends now s = (s, Ok r)
    /\ (length (risk_distribution r) <= 4)%nat
    /\ (forall b n, In (b, n) (risk_distribution r) ->
          n = count b /\ 0 < n)
    /\ (forall b, b <> Bucket_default -> 0 < count b ->
          In (b, count b) (risk_distribution r))
    /\ (In (Bucket_default, count Bucket_default) (risk_distribution r)
        <-> 0 < count Bucket_default
            /\ (count Bucket_0 = 0 \/ count Bucket_0_3 = 0
                \/ count Bucket_0_6 = 0 \/ count Bucket_0_8 = 0)).
Proof.
  intros count.
  unfold get_analytics_trends, try_except_Exception, mbind, handler_bind,
    bind, gets, mret, handler_ret, ret.
  eexists. split; [reflexivity|]. cbn [risk_distribution].
  unfold risk_buckets. fold count.
  rewrite (filter_positive_5 count).
  assert (Hnn : forall b, 0 <= count b)
    by (intros b; unfold count, count_documents; lia).
  split; [|split; [|split]].
  - apply (take_4_of_5 (0 <? count Bucket_0) (0 <? count Bucket_0_3)
             (0 <? count Bucket_0_6) (0 <? count Bucket_0_8)
             (0 <? count Bucket_default)
             (Bucket_0, count Bucket_0) (Bucket_0_3, count Bucket_0_3)
             (Bucket_0_6, count Bucket_0_6) (Bucket_0_8, count Bucket_0_8)
             (Bucket_default, count Bucket_default)
             (Bucket_default, count Bucket_default)); congruence.
  - intros b n Hin. apply In_take in Hin.
    repeat (apply in_app_or in Hin as [Hin|Hin]);
      match type of Hin with
      | In _ (if 0 <? ?c then _ else _) =>
          destruct (Z.ltb_spec 0 c) as [Hc|Hc]
      end.
    all: simpl in Hin; try contradiction.
    all: destruct Hin as [[= <- <-]|[]]; split; [reflexivity|exact Hc].
  - intros b Hb Hc.
    apply (take_4_of_5 (0 <? count Bucket_0) (0 <? count Bucket_0_3)
             (0 <? count Bucket_0_6) (0 <? count Bucket_0_8)
             (0 <? count Bucket_default)
             (Bucket_0, count Bucket_0) (Bucket_0_3, count Bucket_0_3)
             (Bucket_0_6, count Bucket_0_6) (Bucket_0_8, count Bucket_0_8)
             (Bucket_default, count Bucket_default)
             (b, count b)); try congruence.
    apply Z.ltb_lt in Hc.
    destruct b; try congruence; rewrite Hc;
      repeat (try (left; reflexivity);
              apply in_or_app; first [left; left; reflexivity|right]).
  - pose proof (take_4_of_5 (0 <? count Bucket_0) (0 <? count Bucket_0_3)
             (0 <? count Bucket_0_6) (0 <? count Bucket_0_8)
             (0 <? count Bucket_default)
             (Bucket_0, count Bucket_0) (Bucket_0_3, count Bucket_0_3)
             (Bucket_0_6, count Bucket_0_6) (Bucket_0_8, count Bucket_0_8)
             (Bucket_default, count Bucket_default)
             (Bucket_default, count Bucket_default)
             ltac:(congruence) ltac:(congruence) ltac:(congruence)
             ltac:(congruence)) as (_ & _ & _ & Hd).
    cbv zeta in Hd. rewrite Hd. rewrite Z.ltb_lt.
    pose proof (Hnn Bucket_0). pose proof (Hnn Bucket_0_3).
    pose proof (Hnn Bucket_0_6). pose proof (Hnn Bucket_0_8).
    destruct (Z.ltb_spec 0 (count Bucket_0)),
      (Z.ltb_spec 0 (count Bucket_0_3)),
      (Z.ltb_spec 0 (count Bucket_0_6)),
      (Z.ltb_spec 0 (count Bucket_0_8)); simpl;
      split; intros [? ?]; split; try assumption; try reflexivity;
      try discriminate; try lia.
Qed.

(** ** The violation types *)

Lemma StronglySorted_app_le {A} (R : A -> A -> Prop) (l1 l2 : list A) :
  StronglySorted R (l1 ++ l2) ->
  forall x y, In x l1 -> In y l2 -> R x y.
Proof.
  induction l1 as [|z l1 IH]; simpl; intros Hs x y Hx Hy; [destruct Hx|].
  inversion Hs as [|? ? Hs' Hall]; subst.
  destruct Hx as [->|Hx]; [|now apply IH].
  rewrite Forall_forall in Hall. apply Hall, in_or_app. now right.
Qed.

Lemma map_fst_filter_keys {A} (count : A -> Z) (keys : list A) :
  NoDup keys ->
  NoDup (map fst (List.filter (fun g => 0 <? g.2)
                    (map (fun k => (k, count k)) keys))).
Proof.
  induction 1 as [|k keys Hk Hnd IH]; simpl; [constructor|].
  destruct (0 <? count k); simpl; [|exact IH].
  constructor; [|exact IH]. intros Hin. apply Hk.
  apply in_map_iff in Hin as ([k' n] & <- & Hin).
  apply filter_In in Hin as [Hin _].
  apply in_map_iff in Hin as (k'' & [= <- <-] & Hin). exact Hin.
Qed.

(** Property X19.  The top violation types of the analytics route are at
    most five, no type is listed twice, each is listed with the number of
    flagged stored records of that type, which is positive, and the list
    is ordered from the highest count to the lowest.  A type with flagged
    records is missing only when five types are listed and each of them
    has at least as many records. *)
Theorem top_violation_types_listing (now : Z -> datetime) (s : db) :
  let count k :=
    count_documents
      (fun l => is_violation l && bool_decide (violation_type l = k))
      (access_logs s) in
  exists r,
    get_analytics_trends now s = (s, Ok r)
    /\ (length (top_violation_types r) <= 5)%nat
    /\ (forall k n, In (k, n) (top_violation_types r) ->
          n = count k /\ 0 < n)
    /\ NoDup (map fst (top_violation_types r))
    /\ StronglySorted (fun a b => b.2 <= a.2) (top_violation_types r)
    /\ (forall k, 0 < count k ->
          In (k, count k) (top_violation_types r)
          \/ (length (top_violation_types r) = 5%nat
              /\ forall g, In g (top_violation_types r) -> count k <= g.2)).
Proof.
  intros count.
  unfold get_analytics_trends, try_except_Exception, mbind, handler_bind,
    bind, gets, mret, handler_ret, ret.
  eexists. split; [reflexivity|]. cbn [top_violation_types].
  set (groups := violation_type_groups (access_logs s)).
  assert (Hgroups : forall k n, In (k, n) groups <-> n = count k /\ 0 < n).
  { intros k n. unfold groups, violation_type_groups.
    rewrite filter_In, in_map_iff. simpl.
    rewrite Z.ltb_lt. split.
    - intros [(k' & [= <- <-] & _) Hpos]. now split.
    - intros [-> Hpos]. split; [|exact Hpos]. exists k. split; [reflexivity|].
      unfold violation_type_keys. destruct k as [[]|]; simpl; tauto. }
  split; [rewrite length_take; lia|].
  split; [|split; [|split]].
  - intros k n Hin. apply In_take, sort_desc_In in Hin. now apply Hgroups.
  - rewrite map_take_list. apply NoDup_take_list.
    rewrite (Permutation_map fst (sort_desc_Permutation snd groups)).
    apply (map_fst_filter_keys count). unfold violation_type_keys.
    repeat constructor; simpl; intuition discriminate.
  - apply StronglySorted_take, (sort_desc_sorted snd).
  - intros k Hpos.
    assert (In (k, count k) (sort_desc snd groups)) as Hin
      by (apply sort_desc_In, Hgroups; now split).
    rewrite <- (take_drop 5 (sort_desc snd groups)) in Hin.
    apply in_app_or in Hin as [Hin|Hin]; [now left|right].
    split.
    + rewrite length_take. destruct (Nat.le_gt_cases 5
        (length (sort_desc snd groups))) as [|Hlt]; [lia|].
      rewrite drop_ge in Hin by lia. destruct Hin.
    + intros g Hg.
      pose proof (sort_desc_sorted snd groups) as Hs.
      rewrite <- (take_drop 5 (sort_desc snd groups)) in Hs.
      exact (StronglySorted_app_le _ _ _ Hs g (k, count k) Hg Hin).
Qed.

(** ** The week *)

Lemma dt_midnight_days (t i : Z) :
  dt_midnight (t - timedelta_days i) = dt_midnight t - timedelta_days i.
Proof.
  unfold dt_midnight, timedelta_days.
  replace (t - i * us_per_day) with (t + (- i) * us_per_day) by lia.
  rewrite Z_mod_plus_full. lia.
Qed.

Lemma count_documents_nonneg {A} (p : A -> bool) (l : list A) :
  0 <= count_documents p l.
Proof. unfold count_documents. lia. Qed.

Lemma count_documents_and_le {A} (p q : A -> bool) (l : list A) :
  count_documents (fun x => p x && q x) l <= count_documents p l.
Proof.
  unfold count_documents. induction l as [|x l IH]; simpl; [lia|].
  destruct (p x), (q x); simpl; lia.
Qed.

(** Two adjoining spans count as their union. *)
Lemma count_documents_span (q : UserAccessLog -> bool) (a b c : datetime)
    (logs : list UserAccessLog) :
  a <= b <= c ->
  count_documents (fun l => in_day a b l && q l) logs
  + count_documents (fun l => in_day b c l && q l) logs
  = count_documents (fun l => in_day a c l && q l) logs.
Proof.
  intros Habc. unfold count_documents, in_day.
  induction logs as [|l logs IH]; simpl; [reflexivity|].
  destruct (Z.leb_spec a (access_time l)), (Z.ltb_spec (access_time l) b),
    (Z.leb_spec b (access_time l)), (Z.ltb_spec (access_time l) c);
    try lia; simpl; destruct (q l); simpl; lia.
Qed.

Lemma count_documents_ext {A} (p q : A -> bool) (l : list A) :
  (forall x, p x = q x) -> count_documents p l = count_documents q l.
Proof.
  intros H. unfold count_documents. f_equal. f_equal.
  induction l as [|x l IH]; simpl; [reflexivity|].
  now rewrite H, IH.
Qed.

(** Property X20.  When the seven clock readings of the loop fall on one
    day, the access trends are seven entries for seven consecutive days,
    from the day six days back to today, each with a number of violations
    between 0 and its number of accesses; the numbers of accesses add up
    to the number of stored records from midnight six days back up to,
    not including, the coming midnight, and the numbers of violations add
    up to the number of flagged records among them: every record of the
    week is counted on exactly one day. *)
Theorem access_trends_week (now : Z -> datetime) (s : db) :
  (forall i, 0 <= i < 7 -> dt_midnight (now i) = dt_midnight (now 0)) ->
  let today := dt_midnight (now 0) in
  let week l :=
    (today - timedelta_days 6 <=? access_time l)
    && (access_time l <? today + timedelta_days 1) in
  exists r,
    get_analytics_trends now s = (s, Ok r)
    /\ map trend_date (access_trends r)
       = map (fun i => today - timedelta_days i) [6; 5; 4; 3; 2; 1; 0]
    /\ Forall (fun e => 0 <= trend_violations e <= total_access e)
         (access_trends r)
    /\ fold_right Z.add 0 (map total_access (access_trends r))
       = count_documents week (access_logs s)
    /\ fold_right Z.add 0 (map trend_violations (access_trends r))
       = count_documents (fun l => week l && is_violation l) (access_logs s).
Proof.
  intros Hday today week.
  unfold get_analytics_trends, try_except_Exception, mbind, handler_bind,
    bind, gets, mret, handler_ret, ret.
  eexists. split; [reflexivity|]. cbn [access_trends].
  assert (Hstart : forall i, 0 <= i < 7 ->
            dt_midnight (now i - timedelta_days i)
            = today - timedelta_days i)
    by (intros i Hi; now rewrite dt_midnight_days, Hday).
  unfold day_trend. simpl rev. cbn [map trend_date total_access
    trend_violations fold_right].
  rewrite !Hstart by lia.
  split; [reflexivity|]. split; [|split].
  - repeat constructor; try apply count_documents_nonneg;
      apply count_documents_and_le.
  - set (logs := access_logs s).
    assert (Hone : forall a b,
              count_documents (in_day a b) logs
              = count_documents (fun l => in_day a b l && true) logs)
      by (intros; apply count_documents_ext; intros;
          now rewrite andb_true_r).
    rewrite !Hone.
    replace (count_documents week logs)
      with (count_documents
              (fun l => in_day (today - timedelta_days 6)
                          (today + timedelta_days 1) l && true) logs)
      by (apply count_documents_ext; intros; unfold in_day, week;
          now rewrite andb_true_r).
    unfold timedelta_days, us_per_day.
    repeat match goal with
    | |- context [count_documents
                    (fun l1 => in_day ?a ?b l1 && true) logs + (count_documents
                    (fun l2 => in_day ?c ?d l2 && true) logs + ?rest)] =>
        rewrite (Z.add_assoc (count_documents
                    (fun l => in_day a b l && true) logs));
        replace b with c by lia;
        rewrite (count_documents_span (fun _ => true) a c d logs) by lia
    end.
    rewrite Z.add_0_r. apply count_documents_ext. intros l.
    unfold in_day. f_equal. f_equal; f_equal; lia.
  - set (logs := access_logs s).
    replace (count_documents (fun l => week l && is_violation l) logs)
      with (count_documents
              (fun l => in_day (today - timedelta_days 6)
                          (today + timedelta_days 1) l && is_violation l)
              logs)
      by (apply count_documents_ext; intros; reflexivity).
    unfold timedelta_days, us_per_day.
    repeat match goal with
    | |- context [count_documents
                    (fun l1 => in_day ?a ?b l1 && is_violation l1) logs
                  + (count_documents
                    (fun l2 => in_day ?c ?d l2 && is_violation l2) logs
                     + ?rest)] =>
        rewrite (Z.add_assoc (count_documents
                    (fun l => in_day a b l && is_violation l) logs));
        replace b with c by lia;
        rewrite (count_documents_span is_violation a c d logs) by lia
    end.
    rewrite Z.add_0_r. apply count_documents_ext. intros l.
    unfold in_day. f_equal. f_equal; f_equal; lia.
Qed.

(** Property X20 at a clock that stands still, on a store with one
    record. *)
Lemma access_trends_week_witness :
  (forall i, 0 <= i < 7 ->
     dt_midnight (steady_clock i) = dt_midnight (steady_clock 0))
  /\ exists r,
       get_analytics_trends steady_clock boundary_db = (boundary_db, Ok r)
       /\ map trend_date (access_trends r)
          = map (fun i => dt_midnight (steady_clock 0) - timedelta_days i)
              [6; 5; 4; 3; 2; 1; 0]
       /\ Forall (fun e => 0 <= trend_violations e <= total_access e)
            (access_trends r)
       /\ fold_right Z.add 0 (map total_access (access_trends r))
          = count_documents
              (fun l =>
                 (dt_midnight (steady_clock 0) - timedelta_days 6
                  <=? access_time l)
                 && (access_time l
                     <? dt_midnight (steady_clock 0) + timedelta_days 1))
              (access_logs boundary_db)
       /\ fold_right Z.add 0 (map trend_violations (access_trends r))
          = count_documents
              (fun l =>
                 (dt_midnight (steady_clock 0) - timedelta_days 6
                  <=? access_time l)
                 && (access_time l
                     <? dt_midnight (steady_clock 0) + timedelta_days 1)
                 && is_violation l)
              (access_logs boundary_db).
Proof.
  assert (forall i, 0 <= i < 7 ->
            dt_midnight (steady_clock i) = dt_midnight (steady_clock 0))
    as H by (intros i _; reflexivity).
  split; [exact H|].
  apply (access_trends_week steady_clock boundary_db H).
Defined.

(* ===================================================================== *)
(** * Serialization *)
(* ===================================================================== *)

(** Induction on a value with the hypothesis for the members of a list
    and for the values of a [dict]. *)
Lemma pyval_nested_ind (P : pyval -> Prop) :
  P PNone -> (forall b, P (PBool b)) -> (forall z, P (PInt z)) ->
  (forall f, P (PFloat f)) -> (forall s, P (PStr s)) ->
  (forall o, P (PObjectId o)) -> (forall t, P (PDatetime t)) ->
  (forall l, Forall P l -> P (PList l)) ->
  (forall fields, Forall (fun kv => P kv.2) fields -> P (PDict fields)) ->
  forall doc, P doc.
Proof.
  intros HN HB HI HF HS HO HD HL HDict.
  fix IH 1.
  intros [|b|z|f|s|o|t|l|fields];
    [exact HN|apply HB|apply HI|apply HF|apply HS|apply HO|apply HD| |].
  - apply HL. induction l as [|x l IHl]; constructor; [apply IH|exact IHl].
  - apply HDict. induction fields as [|[k v] fields IHf]; constructor;
      [apply IH|exact IHf].
Qed.

Lemma serialize_dict_items (isoformat : datetime -> string)
    (fields : list (string * pyval)) :
  serialize_mongodb_doc isoformat (PDict fields)
  = PDict (map (fun kv => (kv.1, serialize_mongodb_doc isoformat kv.2))
             (List.filter (fun kv => negb (String.eqb kv.1 "_id")) fields)).
Proof.
  simpl. f_equal. induction fields as [|[k v] fields IH]; [reflexivity|].
  simpl. destruct (String.eqb k "_id"); simpl; now rewrite IH.
Qed.

Lemma serialize_stripped (isoformat : datetime -> string) (doc : pyval) :
  stripped (serialize_mongodb_doc isoformat doc) = true.
Proof.
  induction doc as [| | | | | | |l IH|fields IH] using pyval_nested_ind;
    try reflexivity.
  - simpl. induction IH as [|x l Hx _ IHl]; simpl; [reflexivity|].
    now rewrite Hx, IHl.
  - rewrite serialize_dict_items. simpl.
    induction IH as [|[k v] fields Hx _ IHf]; simpl; [reflexivity|].
    destruct (String.eqb k "_id") eqn:E; simpl; [exact IHf|].
    simpl in Hx. now rewrite E, Hx, IHf.
Qed.

Lemma serialize_of_stripped (isoformat : datetime -> string) (doc : pyval) :
  stripped doc = true -> serialize_mongodb_doc isoformat doc = doc.
Proof.
  induction doc as [| | | | | | |l IH|fields IH] using pyval_nested_ind;
    try reflexivity; try discriminate.
  - simpl. intros Hs. f_equal.
    induction IH as [|x l Hx _ IHl]; simpl in *; [reflexivity|].
    apply andb_prop in Hs as [H1 H2]. now rewrite Hx, IHl.
  - rewrite serialize_dict_items. simpl. intros Hs. f_equal.
    induction IH as [|[k v] fields Hx _ IHf]; simpl in *; [reflexivity|].
    apply andb_prop in Hs as [H1 H2]. apply andb_prop in H1 as [H0 H1].
    rewrite H0. simpl. now rewrite Hx, IHf.
Qed.

(** Property X21.  The serializer returns a value with no key ["_id"] in
    any [dict] and no [datetime], at any depth; serializing its output
    again changes nothing, and a value that has neither to begin with is
    returned as it is.  The keys of a serialized [dict] are the keys of
    the [dict] in their order without ["_id"], a list is serialized
    member by member, and a [datetime] becomes its ISO text. *)
Theorem serialize_mongodb_doc_strips (isoformat : datetime -> string)
    (doc : pyval) :
  let out := serialize_mongodb_doc isoformat doc in
  stripped out = true
  /\ ~ In "_id" (dict_keys out)
  /\ serialize_mongodb_doc isoformat out = out
  /\ (stripped doc = true -> out = doc)
  /\ (forall fields, doc = PDict fields ->
        dict_keys out
        = List.filter (fun k => negb (String.eqb k "_id")) (map fst fields))
  /\ (forall l, doc = PList l ->
        out = PList (map (serialize_mongodb_doc isoformat) l))
  /\ (forall t, doc = PDatetime t -> out = PStr (isoformat t)).
Proof.
  intros out. subst out.
  split; [apply serialize_stripped|]. split; [|split; [|split; [|split]]].
  - destruct doc; try (simpl; tauto).
    rewrite serialize_dict_items. simpl. rewrite map_map. simpl.
    rewrite in_map_iff. intros ([k v] & Hk & Hin). simpl in Hk. subst k.
    apply filter_In in Hin as [_ Hin]. discriminate.
  - apply serialize_of_stripped, serialize_stripped.
  - apply serialize_of_stripped.
  - intros fields ->. rewrite serialize_dict_items. simpl.
    rewrite map_map. simpl.
    induction fields as [|[k v] fields IH]; simpl; [reflexivity|].
    destruct (String.eqb k "_id"); simpl; now rewrite IH.
  - split; [intros l ->; reflexivity|intros t ->; reflexivity].
Qed.
